(** * FoodieSpot reservation agent: catalog store, tool layer, orchestrator

    A shallow embedding of [src/data_manager.py], [src/tools.py],
    [src/agent.py] and the session logic of [src/app.py], followed by the
    properties proved about them.

    Conventions of the embedding.
    - A [string] stands for a Python [str] of ASCII characters, one [ascii]
      per code point.
    - A value that reaches the code without a fixed type is a [PyVal]: one
      of the scalars of JSON, which is what the arguments of a function call
      of the model are made of.  Lists and dictionaries as arguments are
      left out.
    - An [int] that is rendered as text has at most 4300 digits, the
      interpreter's bound on such conversions.
    - Python exceptions are values of [PyExn]; a computation that may raise
      has type [Exc A].
    - The pseudo-random generator, the clock, the language model and the JSON
      encoder are outside the repository: the values they hand back are
      inputs of the functions that consult them. *)

From Stdlib Require Import ZArith Ascii String List.
From Stdlib Require Import Floats.PrimFloat Floats.SpecFloat Floats.FloatOps.
From stdpp Require Import base option list gmap strings pretty.

Local Open Scope Z_scope.

(** ** Python values, exceptions and string primitives *)

Module Py.

(** The exception classes the three modules raise or catch.  Every class
    here derives from [Exception]; [OtherException] stands for any further
    subclass of [Exception], by name. *)
Inductive ExnClass :=
| ValueError
| TypeError
| AttributeError
| KeyError
| OverflowError
| OtherException (name : string).

Record PyExn := mkExn { exn_class : ExnClass; exn_text : string }.

(** A computation that returns a value or raises. *)
Inductive Exc (A : Type) :=
| Return (a : A)
| Raise (e : PyExn).
Arguments Return {A} a.
Arguments Raise {A} e.

Definition exc_bind {A B} (m : Exc A) (k : A -> Exc B) : Exc B :=
  match m with
  | Return a => k a
  | Raise e => Raise e
  end.

#[global] Instance exc_mret : MRet Exc := fun _ a => Return a.
#[global] Instance exc_mbind : MBind Exc := fun _ _ k m => exc_bind m k.
#[global] Instance exc_fmap : FMap Exc := fun _ _ f m => exc_bind m (fun a => Return (f a)).

Definition is_ValueError (e : PyExn) : bool :=
  match exn_class e with ValueError => true | _ => false end.
Definition is_TypeError (e : PyExn) : bool :=
  match exn_class e with TypeError => true | _ => false end.

(** The values of the arguments that reach the code without a fixed type:
    [None], a [bool], an [int], a [float] (a binary64 number, an infinity or
    a NaN) or a [str]. *)
Inductive PyVal :=
| PNone
| PBool (b : bool)
| PInt (n : Z)
| PFloat (x : float)
| PStr (s : string).

(** Truth value of an object in a condition: a [float] is false when it
    equals zero, which a NaN does not. *)
Definition truthy (v : PyVal) : bool :=
  match v with
  | PNone => false
  | PBool b => b
  | PInt n => negb (n =? 0)
  | PFloat x => negb (PrimFloat.eqb x 0)
  | PStr s => negb (String.eqb s "")
  end.

(** [type(v).__name__] *)
Definition type_name (v : PyVal) : string :=
  match v with
  | PNone => "NoneType"
  | PBool _ => "bool"
  | PInt _ => "int"
  | PFloat _ => "float"
  | PStr _ => "str"
  end.

(** What [v.attr] raises when the type of [v] has no attribute [attr]. *)
Definition no_attribute (v : PyVal) (attr : string) : PyExn :=
  mkExn AttributeError
    ("'" +:+ type_name v +:+ "' object has no attribute '" +:+ attr +:+ "'").

Definition str_truthy (s : string) : bool := negb (String.eqb s "").

(** *** Characters *)

Definition ord (c : ascii) : N := N_of_ascii c.

Definition in_range (lo hi : N) (c : ascii) : bool :=
  ((lo <=? ord c) && (ord c <=? hi))%N.

Definition is_digit : ascii -> bool := in_range 48 57.
Definition is_upper : ascii -> bool := in_range 65 90.
Definition is_lower : ascii -> bool := in_range 97 122.

Definition lower_char (c : ascii) : ascii :=
  if is_upper c then ascii_of_N (ord c + 32) else c.
Definition upper_char (c : ascii) : ascii :=
  if is_lower c then ascii_of_N (ord c - 32) else c.

(** *** [str] methods *)

(** [s.lower()], on ASCII strings.  Letters outside ASCII, some of which
    change the length of a string when lower-cased, are outside the
    embedding; no property below depends on lower-casing keeping the
    length. *)
Fixpoint lower (s : string) : string :=
  match s with
  | EmptyString => EmptyString
  | String c s' => String (lower_char c) (lower s')
  end.

(** [s.capitalize()] *)
Definition capitalize (s : string) : string :=
  match s with
  | EmptyString => EmptyString
  | String c s' => String (upper_char c) (lower s')
  end.

(** [len(s)] *)
Definition len (s : string) : Z := Z.of_nat (String.length s).

(** [s.startswith(p)] *)
Fixpoint startswith (p s : string) : bool :=
  match p, s with
  | EmptyString, _ => true
  | String _ _, EmptyString => false
  | String a p', String b s' => Ascii.eqb a b && startswith p' s'
  end.

(** [sub in s] *)
Fixpoint contains (sub s : string) : bool :=
  startswith sub s ||
  match s with
  | EmptyString => false
  | String _ s' => contains sub s'
  end.

(** [s.split(sep)] for a separator of one character. *)
Fixpoint split (sep : ascii) (s : string) : list string :=
  match s with
  | EmptyString => [EmptyString]
  | String c s' =>
      if Ascii.eqb c sep then EmptyString :: split sep s'
      else match split sep s' with
           | w :: ws => String c w :: ws
           | [] => [String c EmptyString]
           end
  end.

(** [str(n)] and [f"{n}"] for an [int]. *)
Definition str_of_int (n : Z) : string := pretty n.

(** [str(x)] for a [float] that is zero. *)
Definition str_of_zero (x : float) : string :=
  match Prim2SF x with
  | S754_zero true => "-0.0"
  | _ => "0.0"
  end.

(** [f"{v}"] for the values the code renders without knowing their type: a
    [str], or a value that is false in a condition (a name that is true in
    a condition and no [str] raises before it is rendered).  The only
    [float]s among them are the two zeros. *)
Definition str_of (v : PyVal) : string :=
  match v with
  | PNone => "None"
  | PBool b => if b then "True" else "False"
  | PInt n => str_of_int n
  | PFloat x => str_of_zero x
  | PStr s => s
  end.

(** *** [repr] of a [str] *)

Definition hex_digit (n : N) : ascii :=
  if (n <? 10)%N then ascii_of_N (48 + n) else ascii_of_N (87 + n).

Definition quote1 : ascii := ascii_of_N 39.
Definition quote2 : ascii := ascii_of_N 34.
Definition backslash : ascii := ascii_of_N 92.

Definition repr_char (q c : ascii) : string :=
  if Ascii.eqb c q || Ascii.eqb c backslash then String backslash (String c EmptyString)
  else if (ord c =? 9)%N then String backslash "t"
  else if (ord c =? 10)%N then String backslash "n"
  else if (ord c =? 13)%N then String backslash "r"
  else if (ord c <? 32)%N || (126 <? ord c)%N then
    String backslash (String "x" (String (hex_digit (ord c / 16))
      (String (hex_digit (ord c mod 16)) EmptyString)))
  else String c EmptyString.

Fixpoint repr_body (q : ascii) (s : string) : string :=
  match s with
  | EmptyString => EmptyString
  | String c s' => repr_char q c +:+ repr_body q s'
  end.

Definition repr (s : string) : string :=
  let q :=
    if contains (String quote1 EmptyString) s
       && negb (contains (String quote2 EmptyString) s)
    then quote2 else quote1 in
  String q (repr_body q s +:+ String q EmptyString).

(** *** [int(...)] *)

(** White space that [int] strips from both ends of a [str]. *)
Definition is_space (c : ascii) : bool :=
  in_range 9 13 c || in_range 32 32 c.

Fixpoint lstrip (s : string) : string :=
  match s with
  | String c s' => if is_space c then lstrip s' else s
  | EmptyString => EmptyString
  end.

Fixpoint rstrip (s : string) : string :=
  match s with
  | EmptyString => EmptyString
  | String c s' =>
      match rstrip s' with
      | EmptyString => if is_space c then EmptyString else String c EmptyString
      | r => String c r
      end
  end.

Definition digit_value (c : ascii) : Z := Z.of_N (ord c - 48).

(** Digits with single underscores between them: [acc] is the value read so
    far, [after_digit] tells whether the previous character was a digit. *)
Fixpoint int_digits (acc : Z) (after_digit : bool) (s : string) : option Z :=
  match s with
  | EmptyString => if after_digit then Some acc else None
  | String c s' =>
      if is_digit c then int_digits (10 * acc + digit_value c) true s'
      else if Ascii.eqb c "_" && after_digit then
        match s' with
        | String d _ => if is_digit d then int_digits acc false s' else None
        | EmptyString => None
        end
      else None
  end.

Definition int_literal (s : string) : option Z :=
  match rstrip (lstrip s) with
  | String "+" d => int_digits 0 false d
  | String "-" d => Z.opp <$> int_digits 0 false d
  | d => int_digits 0 false d
  end.

(** The digits and underscores a literal starts with, after the white space
    and the sign: what the conversion scans before it looks at the rest. *)
Fixpoint digit_run (s : string) : string :=
  match s with
  | String c s' =>
      if is_digit c || Ascii.eqb c "_" then String c (digit_run s') else EmptyString
  | EmptyString => EmptyString
  end.

Definition scanned (s : string) : string :=
  match lstrip s with
  | String "+" d => digit_run d
  | String "-" d => digit_run d
  | d => digit_run d
  end.

Fixpoint count_digits (s : string) : Z :=
  match s with
  | String c s' => (if is_digit c then 1 else 0) + count_digits s'
  | EmptyString => 0
  end.

(** [sys.get_int_max_str_digits()], at its default. *)
Definition int_max_str_digits : Z := 4300.

Definition too_many_digits (digits : Z) : PyExn :=
  mkExn ValueError
    ("Exceeds the limit (" +:+ str_of_int int_max_str_digits
     +:+ " digits) for integer string conversion: value has "
     +:+ str_of_int digits
     +:+ " digits; use sys.set_int_max_str_digits() to increase the limit").

(** [int(x)] for a [float]: the value [m * 2^e] of a finite [x] is cut
    toward zero; an infinity raises [OverflowError], a NaN [ValueError]. *)
Definition int_of_float (x : float) : Exc Z :=
  match Prim2SF x with
  | S754_zero _ => Return 0
  | S754_finite s m e =>
      let k := Z.shiftl (Z.pos m) e in Return (if s then - k else k)
  | S754_infinity _ =>
      Raise (mkExn OverflowError "cannot convert float infinity to integer")
  | S754_nan => Raise (mkExn ValueError "cannot convert float NaN to integer")
  end.

(** [int(v)].  A [str] that is no decimal literal raises [ValueError], and so
    does one whose scanned digits, well-formed as far as they go, are more
    than [int_max_str_digits]; [None] raises [TypeError]. *)
Definition int (v : PyVal) : Exc Z :=
  match v with
  | PInt n => Return n
  | PBool b => Return (if b then 1 else 0)
  | PFloat x => int_of_float x
  | PStr s =>
      let run := scanned s in
      if bool_decide (is_Some (int_digits 0 false run))
         && (int_max_str_digits <? count_digits run)
      then Raise (too_many_digits (count_digits run))
      else
        match int_literal s with
        | Some n => Return n
        | None =>
            Raise (mkExn ValueError
                     ("invalid literal for int() with base 10: " +:+ repr s))
        end
  | PNone =>
      Raise (mkExn TypeError
        "int() argument must be a string, a bytes-like object or a real number, not 'NoneType'")
  end.

End Py.

Import Py.

(** ** The parts of Python's [datetime] that the catalog store calls *)

Module Datetime.

(** [datetime.date] and [datetime.time].  [strptime] with the format
    ["%H:%M"] leaves seconds and microseconds at zero, so a time of day is an
    hour and a minute. *)
Record date := mkDate { year : Z; month : Z; day : Z }.
Record time := mkTime { hour : Z; minute : Z }.

(** [a < b] on [datetime.time] values. *)
Definition time_lt (a b : time) : bool :=
  (hour a <? hour b) || ((hour a =? hour b) && (minute a <? minute b)).

(** *** The regular expressions [strptime] builds from a format

    A format directive becomes a group of alternatives tried in order, each a
    sequence of character classes; any other format character matches
    itself.  The match backtracks over the alternatives of a group when the
    rest of the pattern fails. *)
Definition cclass := ascii -> bool.

Inductive ritem :=
| RLit (c : ascii)
| RGroup (alts : list (list cclass)).

Fixpoint match_classes (cs : list cclass) (s : string) : option (string * string) :=
  match cs with
  | [] => Some (EmptyString, s)
  | p :: cs' =>
      match s with
      | String c s' =>
          if p c then
            match match_classes cs' s' with
            | Some (g, rest) => Some (String c g, rest)
            | None => None
            end
          else None
      | EmptyString => None
      end
  end.

(** The groups matched, in order, and the unmatched rest of the data. *)
Fixpoint match_items (items : list ritem) (s : string) : option (list string * string) :=
  match items with
  | [] => Some ([], s)
  | RLit c :: k =>
      match s with
      | String c' s' => if Ascii.eqb c c' then match_items k s' else None
      | EmptyString => None
      end
  | RGroup alts :: k =>
      (fix try_alts (alts : list (list cclass)) : option (list string * string) :=
         match alts with
         | [] => None
         | a :: alts' =>
             match match_classes a s with
             | Some (g, rest) =>
                 match match_items k rest with
                 | Some (gs, r) => Some (g :: gs, r)
                 | None => try_alts alts'
                 end
             | None => try_alts alts'
             end
         end) alts
  end.

Definition chr (c : ascii) : cclass := Ascii.eqb c.
Definition digit : cclass := is_digit.
Definition between (lo hi : ascii) : cclass := in_range (ord lo) (ord hi).

(** [%Y]: [\d\d\d\d] *)
Definition re_Y : ritem := RGroup [[digit; digit; digit; digit]].
(** [%m]: [1[0-2]|0[1-9]|[1-9]] *)
Definition re_m : ritem :=
  RGroup [[chr "1"; between "0" "2"]; [chr "0"; between "1" "9"]; [between "1" "9"]].
(** [%d]: [3[0-1]|[1-2]\d|0[1-9]|[1-9]| [1-9]] *)
Definition re_d : ritem :=
  RGroup [[chr "3"; between "0" "1"]; [between "1" "2"; digit];
          [chr "0"; between "1" "9"]; [between "1" "9"]; [chr " "; between "1" "9"]].
(** [%H]: [2[0-3]|[0-1]\d|\d] *)
Definition re_H : ritem :=
  RGroup [[chr "2"; between "0" "3"]; [between "0" "1"; digit]; [digit]].
(** [%M]: [[0-5]\d|\d] *)
Definition re_M : ritem := RGroup [[between "0" "5"; digit]; [digit]].

(** [int(g)] for a matched group [g]: digits, after an optional blank. *)
Definition group_int (g : string) : Z :=
  default 0 (int_literal g).

Definition no_match (data fmt : string) : PyExn :=
  mkExn ValueError
    ("time data " +:+ repr data +:+ " does not match format " +:+ repr fmt).
Definition unconverted (rest : string) : PyExn :=
  mkExn ValueError ("unconverted data remains: " +:+ rest).

(** *** The proleptic Gregorian calendar of [datetime.date] *)

Definition is_leap (y : Z) : bool :=
  (y mod 4 =? 0) && (negb (y mod 100 =? 0) || (y mod 400 =? 0)).

Definition days_in_month (y m : Z) : Z :=
  if m =? 2 then (if is_leap y then 29 else 28)
  else if (m =? 4) || (m =? 6) || (m =? 9) || (m =? 11) then 30
  else 31.

Definition days_before_year (y : Z) : Z :=
  let y1 := y - 1 in y1 * 365 + y1 / 4 - y1 / 100 + y1 / 400.

(** Days of the year before the first day of month [m]. *)
Definition days_before_month (y m : Z) : Z :=
  fold_right Z.add 0 (map (days_in_month y) (map Z.of_nat (seq 1 (Z.to_nat (m - 1))))).

Definition toordinal (d : date) : Z :=
  days_before_year (year d) + days_before_month (year d) (month d) + day d.

(** [d.weekday()]: Monday is 0. *)
Definition weekday (d : date) : Z := (toordinal d + 6) mod 7.

(** [d.strftime("%A")] in the C locale. *)
Definition strftime_A (d : date) : string :=
  match weekday d with
  | 0 => "Monday"
  | 1 => "Tuesday"
  | 2 => "Wednesday"
  | 3 => "Thursday"
  | 4 => "Friday"
  | 5 => "Saturday"
  | _ => "Sunday"
  end.

(** The checks of the [date] constructor. *)
Definition check_date (y m d : Z) : Exc date :=
  if (y <? 1) || (9999 <? y) then
    Raise (mkExn ValueError ("year " +:+ str_of_int y +:+ " is out of range"))
  else if (m <? 1) || (12 <? m) then
    Raise (mkExn ValueError "month must be in 1..12")
  else if (d <? 1) || (days_in_month y m <? d) then
    Raise (mkExn ValueError "day is out of range for month")
  else Return (mkDate y m d).

(** [datetime.datetime.strptime(s, "%Y-%m-%d").date()] *)
Definition strptime_date (s : string) : Exc date :=
  match match_items [re_Y; RLit "-"; re_m; RLit "-"; re_d] s with
  | Some ([y; m; d], EmptyString) => check_date (group_int y) (group_int m) (group_int d)
  | Some (_, rest) => Raise (unconverted rest)
  | None => Raise (no_match s "%Y-%m-%d")
  end.

(** [datetime.datetime.strptime(s, "%H:%M").time()] *)
Definition strptime_time (s : string) : Exc time :=
  match match_items [re_H; RLit ":"; re_M] s with
  | Some ([h; m], EmptyString) => Return (mkTime (group_int h) (group_int m))
  | Some (_, rest) => Raise (unconverted rest)
  | None => Raise (no_match s "%H:%M")
  end.

End Datetime.

Import Datetime.

(** ** [src/data_manager.py] *)

Module DataManager.

(** A scalar read from the catalog file and passed on as it is. *)
Inductive Scalar :=
| SInt (n : Z)
| SFloat (x : float)
| SStr (s : string).

(** One entry of [restaurants.json].  [opening_hours] keeps the order of its
    keys; [tags] is [None] when the entry has no ["tags"] key. *)
Record Restaurant := mkRestaurant {
  id : Scalar;
  name : string;
  cuisine : string;
  location : string;
  address : string;
  seating_capacity : Z;
  opening_hours : list (string * string);
  rating : Scalar;
  description : string;
  tags : option (list string)
}.

(** [d.get(k)] on a dictionary kept as the list of its items. *)
Fixpoint dict_get {V} (k : string) (d : list (string * V)) : option V :=
  match d with
  | [] => None
  | (k', v) :: d' => if String.eqb k k' then Some v else dict_get k d'
  end.

(** [d[k] = v] *)
Fixpoint dict_set {V} (k : string) (v : V) (d : list (string * V)) : list (string * V) :=
  match d with
  | [] => [(k, v)]
  | (k', v') :: d' =>
      if String.eqb k k' then (k', v) :: d' else (k', v') :: dict_set k v d'
  end.

(** A stored reservation.  The name and the phone number of the caller are
    stored as handed in, whatever their type. *)
Record Reservation := mkReservation {
  confirmation_code : string;
  restaurant_name : string;
  res_date : string;
  res_time : string;
  res_party_size : Z;
  user_name : PyVal;
  user_phone : PyVal;
  created_at : string
}.

(** The fields of a [DataManager] object: the catalog and the reservations
    made so far, keyed by confirmation code. *)
Record State := mkState {
  restaurants : list Restaurant;
  reservations : gmap string Reservation
}.

(** [DataManager(...)] after [_load_data] returned [catalog]. *)
Definition init (catalog : list Restaurant) : State := mkState catalog ∅.

(** *** [get_restaurants] *)

(** The recognised keys of a criteria dictionary, with values of any type.
    A field is [None] when the dictionary has no such key. *)
Record Criteria := mkCriteria {
  c_cuisine : option PyVal;
  c_location : option PyVal;
  c_party_size : option PyVal;
  c_text : option PyVal
}.

(** [v.lower()] *)
Definition lower_of (v : PyVal) : Exc string :=
  match v with
  | PStr s => Return (lower s)
  | _ => Raise (no_attribute v "lower")
  end.

Definition cuisine_ok (q : string) (r : Restaurant) : bool :=
  String.eqb (lower (cuisine r)) q || contains q (lower (cuisine r)).

Definition location_ok (q : string) (r : Restaurant) : bool :=
  String.eqb (lower (location r)) q || contains q (lower (location r))
  || contains q (lower (address r)).

Definition text_ok (q : string) (r : Restaurant) : bool :=
  contains q (lower (name r)) || contains q (lower (description r))
  || existsb (fun tag => contains q (lower tag)) (default [] (tags r)).

(** A stage of the search that lower-cases the value of its key, when the
    key is present with a value that is true in a condition, and filters by
    the test [ok]. *)
Definition by_string (v : option PyVal) (ok : string -> Restaurant -> bool)
    (rs : list Restaurant) : Exc (list Restaurant) :=
  match v with
  | Some x =>
      if truthy x then
        q ← lower_of x;
        mret (List.filter (ok q) rs)
      else mret rs
  | None => mret rs
  end.

Definition by_cuisine (c : Criteria) : list Restaurant -> Exc (list Restaurant) :=
  by_string (c_cuisine c) cuisine_ok.

Definition by_location (c : Criteria) : list Restaurant -> Exc (list Restaurant) :=
  by_string (c_location c) location_ok.

(** The handler catches [ValueError] and [TypeError]; what else [int] raises
    leaves the function. *)
Definition by_party_size (c : Criteria) (rs : list Restaurant) : Exc (list Restaurant) :=
  match c_party_size c with
  | Some v =>
      if truthy v then
        match int v with
        | Return n => Return (List.filter (fun r => n <=? seating_capacity r) rs)
        | Raise e => if is_ValueError e || is_TypeError e then Return rs else Raise e
        end
      else Return rs
  | None => Return rs
  end.

Definition by_text (c : Criteria) : list Restaurant -> Exc (list Restaurant) :=
  by_string (c_text c) text_ok.

Definition get_restaurants (self : State) (criteria : option Criteria)
  : Exc (list Restaurant) :=
  match criteria with
  | None => Return (restaurants self)
  | Some c =>
      rs ← by_cuisine c (restaurants self);
      rs ← by_location c rs;
      rs ← by_party_size c rs;
      by_text c rs
  end.

(** *** [find_restaurant_by_name] *)

(** [l.sort(key=key)]: the sort is stable. *)
Fixpoint insert_by {A} (key : A -> Z) (x : A) (l : list A) : list A :=
  match l with
  | [] => [x]
  | y :: l' => if key x <=? key y then x :: y :: l' else y :: insert_by key x l'
  end.

Fixpoint sort_by {A} (key : A -> Z) (l : list A) : list A :=
  match l with
  | [] => []
  | x :: l' => insert_by key x (sort_by key l')
  end.

Definition name_distance (query : string) (r : Restaurant) : Z :=
  Z.abs (len (name r) - len query).

(** The lookup for a name that is a [str], as the parameter is
    annotated. *)
Definition find_restaurant_by_name (self : State) (query : string) : option Restaurant :=
  if negb (str_truthy query) then None
  else
    let name_lower := lower query in
    match List.find (fun r => String.eqb (lower (name r)) name_lower) (restaurants self) with
    | Some r => Some r
    | None =>
        let matches := List.filter (fun r => contains name_lower (lower (name r))) (restaurants self) in
        match matches with
        | [] => None
        | [r] => Some r
        | _ => head (sort_by (name_distance query) matches)
        end
    end.

(** The lookup for a [name] of any type.  Line 100 tests the truth of the
    value and line 104 calls its method [lower]: a value that is false in a
    condition finds nothing, and one that is true and no [str] raises. *)
Definition find_restaurant_by_name_any (self : State) (name : PyVal)
  : Exc (option Restaurant) :=
  match name with
  | PStr query => Return (find_restaurant_by_name self query)
  | _ => if truthy name then Raise (no_attribute name "lower") else Return None
  end.

(** *** [check_availability] *)

(** The dictionary [check_availability] returns.  A field is [None] when the
    dictionary has no such key. *)
Record Availability := mkAvailability {
  available : bool;
  message : string;
  av_restaurant : option string;
  av_date : option string;
  av_time : option string;
  av_party_size : option Z;
  av_opening_hours : option string
}.

Definition unavailable (msg : string) (restaurant : option string) : Availability :=
  mkAvailability false msg restaurant None None None None.

Definition not_found (query : string) : Availability :=
  unavailable ("Restaurant '" +:+ query +:+ "' not found.") None.

Definition capacity_exceeded (r : Restaurant) (party_size : Z) : Availability :=
  unavailable ("Party size of " +:+ str_of_int party_size
               +:+ " exceeds the maximum capacity of "
               +:+ str_of_int (seating_capacity r) +:+ ".")
              (Some (name r)).

Definition closed (r : Restaurant) (day_of_week : string) : Availability :=
  unavailable (name r +:+ " is closed on " +:+ capitalize day_of_week +:+ ".")
              (Some (name r)).

Definition out_of_hours (r : Restaurant) (day_of_week open_str close_str hours : string)
  : Availability :=
  mkAvailability false
    (name r +:+ " is only open from " +:+ open_str +:+ " to " +:+ close_str
     +:+ " on " +:+ capitalize day_of_week +:+ ".")
    (Some (name r)) None None None (Some hours).

Definition table_available (r : Restaurant) (date time : string) (party_size : Z)
  : Availability :=
  mkAvailability true
    ("Table for " +:+ str_of_int party_size +:+ " is available at " +:+ name r
     +:+ " on " +:+ date +:+ " at " +:+ time +:+ ".")
    (Some (name r)) (Some date) (Some time) (Some party_size) None.

Definition fully_booked (r : Restaurant) : Availability :=
  unavailable ("Sorry, " +:+ name r
               +:+ " is fully booked at that time. Please try another time.")
              (Some (name r)).

Definition invalid_format (e : PyExn) (query : string) : Availability :=
  unavailable ("Invalid date or time format: " +:+ exn_text e) (Some query).

(** [open_time_str, close_time_str = hours.split("-")] *)
Definition unpack2 (parts : list string) : Exc (string * string) :=
  match parts with
  | [a; b] => Return (a, b)
  | [] | [_] =>
      Raise (mkExn ValueError
        ("not enough values to unpack (expected 2, got "
         +:+ str_of_int (Z.of_nat (length parts)) +:+ ")"))
  | _ => Raise (mkExn ValueError "too many values to unpack (expected 2)")
  end.

(** [random.random() > 0.2], for the value [u] that [random.random()]
    returns; the literal is the double nearest to 0.2. *)
Definition is_available (u : float) : bool :=
  PrimFloat.ltb 0x1.999999999999ap-3%float u.

(** The outcome of the simulated availability decision. *)
Definition random_availability (r : Restaurant) (date time : string) (party_size : Z)
    (u : float) : Availability :=
  if is_available u then table_available r date time party_size
  else fully_booked r.

(** The body of the [try] statement, for the restaurant found. *)
Definition check_body (r : Restaurant) (date time : string) (party_size : Z)
    (u : float) : Exc Availability :=
  booking_date ← strptime_date date;
  booking_time ← strptime_time time;
  if seating_capacity r <? party_size then mret (capacity_exceeded r party_size)
  else
    let day_of_week := lower (strftime_A booking_date) in
    if bool_decide (dict_get day_of_week (opening_hours r) = Some "Closed") then
      mret (closed r day_of_week)
    else
      let hours := default "" (dict_get day_of_week (opening_hours r)) in
      if contains "-" hours then
        '(open_time_str, close_time_str) ← unpack2 (split "-" hours);
        open_time ← strptime_time open_time_str;
        close_time ← strptime_time close_time_str;
        if time_lt booking_time open_time || time_lt close_time booking_time then
          mret (out_of_hours r day_of_week open_time_str close_time_str hours)
        else mret (random_availability r date time party_size u)
      else mret (random_availability r date time party_size u).

(** The check for a restaurant name that is a [str].  The date and the time
    are strings and the party size is an [int] in every call the repository
    makes.  [u] is what [random.random()] returns if the call is reached. *)
Definition check_availability (self : State) (query date time : string)
    (party_size : Z) (u : float) : Exc Availability :=
  match find_restaurant_by_name self query with
  | None => Return (not_found query)
  | Some r =>
      match check_body r date time party_size u with
      | Return a => Return a
      | Raise e =>
          if is_ValueError e then Return (invalid_format e query) else Raise e
      end
  end.

(** The check for a restaurant name of any type.  The lookup of a name that
    is no [str] raises or finds nothing, and the name that was not found is
    rendered into the message. *)
Definition check_availability_any (self : State) (restaurant_name : PyVal)
    (date time : string) (party_size : Z) (u : float) : Exc Availability :=
  match restaurant_name with
  | PStr query => check_availability self query date time party_size u
  | _ =>
      _ ← find_restaurant_by_name_any self restaurant_name;
      mret (not_found (str_of restaurant_name))
  end.

(** *** [make_reservation] *)

(** The dictionary [make_reservation] returns.  ["restaurant"] and
    ["user_name"] hold the arguments as handed in. *)
Record Booking := mkBooking {
  success : bool;
  bk_confirmation_code : option string;
  bk_message : string;
  bk_restaurant : PyVal;
  bk_date : option string;
  bk_time : option string;
  bk_party_size : option Z;
  bk_user_name : option PyVal
}.

(** What the world outside hands to one call: [rnd_random] is the value of
    [random.random()], [rnd_randint] the value of
    [random.randint(10000, 99999)], [clock_now] the value of
    [datetime.datetime.now().isoformat()], each used only if the call reaches
    it. *)
Record Outside := mkOutside {
  rnd_random : float;
  rnd_randint : Z;
  clock_now : string
}.

(** The booking for a restaurant name that is a [str]; the name and the
    phone number of the caller are of any type. *)
Definition make_reservation (self : State) (query date time : string)
    (party_size : Z) (uname uphone : PyVal) (w : Outside)
  : Exc Booking * State :=
  match check_availability self query date time party_size (rnd_random w) with
  | Raise e => (Raise e, self)
  | Return availability =>
      if negb (available availability) then
        (Return (mkBooking false None (message availability) (PStr query)
                   None None None None),
         self)
      else
        let code := "RS-" +:+ str_of_int (rnd_randint w) in
        let reservation :=
          mkReservation code query date time party_size uname uphone (clock_now w) in
        (Return (mkBooking true (Some code)
                   ("Reservation confirmed at " +:+ query +:+ " for "
                    +:+ str_of_int party_size +:+ " people on " +:+ date
                    +:+ " at " +:+ time +:+ ".")
                   (PStr query) (Some date) (Some time) (Some party_size) (Some uname)),
         mkState (restaurants self) (<[code := reservation]> (reservations self)))
  end.

(** The booking for a restaurant name of any type.  The availability check
    finds no restaurant for a name that is no [str], or raises: such a call
    books nothing, and its result holds the name as handed in. *)
Definition make_reservation_any (self : State) (restaurant_name : PyVal)
    (date time : string) (party_size : Z) (uname uphone : PyVal) (w : Outside)
  : Exc Booking * State :=
  match restaurant_name with
  | PStr query => make_reservation self query date time party_size uname uphone w
  | _ =>
      match check_availability_any self restaurant_name date time party_size
              (rnd_random w) with
      | Raise e => (Raise e, self)
      | Return availability =>
          (Return (mkBooking false None (message availability) restaurant_name
                     None None None None),
           self)
      end
  end.

(** [get_reservation] *)
Definition get_reservation (self : State) (code : string) : option Reservation :=
  reservations self !! code.

End DataManager.

Import DataManager.

(** ** [src/tools.py] *)

Module Tools.

(** The module keeps one [DataManager] in the global [data_manager]; the
    functions below take its state and, when they book, return the new
    one. *)

(** An entry of the list [list_restaurants] returns. *)
Record Summary := mkSummary {
  s_id : Scalar;
  s_name : string;
  s_cuisine : string;
  s_location : string;
  s_address : string;
  s_seating_capacity : Z;
  s_rating : Scalar
}.

(** The ["restaurant"] entry of what [get_restaurant_details] returns. *)
Record Details := mkDetails {
  d_id : Scalar;
  d_name : string;
  d_cuisine : string;
  d_location : string;
  d_address : string;
  d_seating_capacity : Z;
  d_opening_hours : list (string * string);
  d_rating : Scalar;
  d_description : string
}.

(** The dictionaries the four tools return, by shape. *)
Inductive ToolResult :=
| RError (message : string)
    (** [{"error": True, "message": message}] *)
| RRestaurants (count : Z) (restaurants : list Summary)
    (** [{"count": count, "restaurants": restaurants}] *)
| RNotFound (message : string)
    (** [{"found": False, "message": message}] *)
| RFound (restaurant : Details)
    (** [{"found": True, "restaurant": restaurant}] *)
| RAvailability (a : Availability)
| RBooking (b : Booking).

(** [if v: criteria[k] = v] *)
Definition keep (v : PyVal) : option PyVal :=
  if truthy v then Some v else None.

Definition summary (r : Restaurant) : Summary :=
  mkSummary (id r) (name r) (cuisine r) (location r) (address r)
    (seating_capacity r) (rating r).

(** [date] and [time] are accepted and not used. *)
Definition list_restaurants (dm : State)
    (cuisine location party_size date time text : PyVal) : Exc ToolResult :=
  let criteria := mkCriteria (keep cuisine) (keep location) (keep party_size) (keep text) in
  restaurants ← get_restaurants dm (Some criteria);
  let results := map summary restaurants in
  mret (RRestaurants (Z.of_nat (length results)) results).

Definition get_restaurant_details (dm : State) (restaurant_name : PyVal)
  : Exc ToolResult :=
  restaurant ← find_restaurant_by_name_any dm restaurant_name;
  match restaurant with
  | None =>
      mret (RNotFound ("Restaurant '" +:+ str_of restaurant_name +:+ "' not found."))
  | Some r =>
      let hours_display :=
        fold_left (fun acc '(day, hours) => dict_set (capitalize day) hours acc)
          (opening_hours r) [] in
      mret (RFound (mkDetails (id r) (name r) (cuisine r) (location r) (address r)
                      (seating_capacity r) hours_display (rating r) (description r)))
  end.

Definition party_not_positive : ToolResult :=
  RError "Party size must be a positive number.".
Definition party_invalid : ToolResult :=
  RError "Invalid party size. Please provide a number.".
Definition name_missing : ToolResult :=
  RError "Please provide your name for the reservation.".
Definition phone_missing : ToolResult :=
  RError "Please provide a contact phone number for the reservation.".
Definition date_invalid : ToolResult :=
  RError "Invalid date format. Please use YYYY-MM-DD format.".
Definition time_invalid : ToolResult :=
  RError "Invalid time format. Please use HH:MM format (24-hour).".

(** [not s or len(s.split(sep)) != n] for a [str]. *)
Definition bad_format (sep : ascii) (n : nat) (s : string) : bool :=
  negb (str_truthy s) || negb (length (split sep s) =? n)%nat.

(** The same condition on a value [v] of any type: [None] when it holds, and
    else the [str] that [v] is.  A value that is true in a condition and no
    [str] has no method [split]. *)
Definition well_formed (sep : ascii) (n : nat) (v : PyVal) : Exc (option string) :=
  match v with
  | PStr s => Return (if bad_format sep n s then None else Some s)
  | _ => if truthy v then Raise (no_attribute v "split") else Return None
  end.

(** The first [try] statement of both tools: [inl] is the dictionary to
    return at once, [inr] the converted party size.  The handler catches
    [ValueError] and [TypeError]. *)
Definition convert_party_size (party_size : PyVal) : Exc (ToolResult + Z) :=
  match int party_size with
  | Return n => if n <=? 0 then Return (inl party_not_positive) else Return (inr n)
  | Raise e =>
      if is_ValueError e || is_TypeError e then Return (inl party_invalid)
      else Raise e
  end.

Definition check_availability (dm : State)
    (restaurant_name date time party_size : PyVal) (u : float) : Exc ToolResult :=
  conv ← convert_party_size party_size;
  match conv with
  | inl err => mret err
  | inr n =>
      date_ok ← well_formed "-" 3 date;
      match date_ok with
      | None => mret date_invalid
      | Some date =>
          time_ok ← well_formed ":" 2 time;
          match time_ok with
          | None => mret time_invalid
          | Some time =>
              availability ←
                DataManager.check_availability_any dm restaurant_name date time n u;
              mret (RAvailability availability)
          end
      end
  end.

Definition make_reservation (dm : State)
    (restaurant_name date time party_size user_name user_phone : PyVal)
    (w : Outside) : Exc ToolResult * State :=
  match convert_party_size party_size with
  | Raise e => (Raise e, dm)
  | Return (inl err) => (Return err, dm)
  | Return (inr n) =>
      if negb (truthy user_name) then (Return name_missing, dm)
      else if negb (truthy user_phone) then (Return phone_missing, dm)
      else
        match well_formed "-" 3 date with
        | Raise e => (Raise e, dm)
        | Return None => (Return date_invalid, dm)
        | Return (Some date) =>
            match well_formed ":" 2 time with
            | Raise e => (Raise e, dm)
            | Return None => (Return time_invalid, dm)
            | Return (Some time) =>
                let '(result, dm') :=
                  DataManager.make_reservation_any dm restaurant_name date time n
                    user_name user_phone w in
                (RBooking <$> result, dm')
            end
        end
  end.

(** *** Calling a tool with keyword arguments

    A call of [f] with the dictionary [args] unpacked into keyword
    arguments raises [TypeError] when a keyword names no parameter, and
    else when parameters without default are named by no keyword.  The
    values are bound as they are: the annotations of the parameters are not
    checked. *)
Definition Args := gmap string PyVal.

(** A tool as the registry holds it: called with keyword arguments on the
    state of [data_manager], it returns or raises, and leaves a state. *)
Definition Tool := Args -> State -> Outside -> Exc ToolResult * State.

Definition quoted (k : string) : string := "'" +:+ k +:+ "'".

(** ['a'], ['a' and 'b'], ['a', 'b', and 'c'] *)
Fixpoint name_list (ks : list string) : string :=
  match ks with
  | [] => EmptyString
  | [k] => quoted k
  | [k; k'] => quoted k +:+ " and " +:+ quoted k'
  | k :: ks' =>
      quoted k +:+ ", " +:+
      match ks' with
      | [k1; k2] => quoted k1 +:+ ", and " +:+ quoted k2
      | _ => name_list ks'
      end
  end.

(** Of several unexpected keywords the text names the first of the
    dictionary, whose order the map does not keep. *)
Definition unexpected_keyword (f k : string) : PyExn :=
  mkExn TypeError (f +:+ "() got an unexpected keyword argument " +:+ quoted k).

Definition missing_arguments (f : string) (ks : list string) : PyExn :=
  mkExn TypeError
    (f +:+ "() missing " +:+ str_of_int (Z.of_nat (length ks))
     +:+ " required positional argument" +:+ (if (1 <? length ks)%nat then "s" else "")
     +:+ ": " +:+ name_list ks).

(** The checks of the call: [params] are the parameters of [f], [needed]
    those without default. *)
Definition check_keywords (f : string) (params needed : list string) (args : Args)
  : Exc unit :=
  match List.find (fun k => negb (existsb (String.eqb k) params))
          (map fst (map_to_list args)) with
  | Some k => Raise (unexpected_keyword f k)
  | None =>
      match List.filter (fun k => negb (bool_decide (is_Some (args !! k)))) needed with
      | [] => Return tt
      | ks => Raise (missing_arguments f ks)
      end
  end.

(** The value bound to a parameter: the one of its keyword, and [None], the
    default of the optional parameters, when no keyword names it. *)
Definition bound (k : string) (args : Args) : PyVal := default PNone (args !! k).

Definition call_list_restaurants : Tool := fun args dm w =>
  let f := "list_restaurants" in
  (_ ← check_keywords f
         ["cuisine"; "location"; "party_size"; "date"; "time"; "text"] [] args;
   list_restaurants dm (bound "cuisine" args) (bound "location" args)
     (bound "party_size" args) (bound "date" args) (bound "time" args)
     (bound "text" args),
   dm).

Definition call_get_restaurant_details : Tool := fun args dm w =>
  let f := "get_restaurant_details" in
  (_ ← check_keywords f ["restaurant_name"] ["restaurant_name"] args;
   get_restaurant_details dm (bound "restaurant_name" args),
   dm).

Definition call_check_availability : Tool := fun args dm w =>
  let f := "check_availability" in
  let params := ["restaurant_name"; "date"; "time"; "party_size"] in
  (_ ← check_keywords f params params args;
   check_availability dm (bound "restaurant_name" args) (bound "date" args)
     (bound "time" args) (bound "party_size" args) (rnd_random w),
   dm).

Definition call_make_reservation : Tool := fun args dm w =>
  let f := "make_reservation" in
  let params :=
    ["restaurant_name"; "date"; "time"; "party_size"; "user_name"; "user_phone"] in
  match check_keywords f params params args with
  | Raise e => (Raise e, dm)
  | Return _ =>
      make_reservation dm (bound "restaurant_name" args) (bound "date" args)
        (bound "time" args) (bound "party_size" args) (bound "user_name" args)
        (bound "user_phone" args) w
  end.

Definition TOOL_MAP : gmap string Tool :=
  <["list_restaurants" := call_list_restaurants]>
    (<["get_restaurant_details" := call_get_restaurant_details]>
      (<["check_availability" := call_check_availability]>
        (<["make_reservation" := call_make_reservation]> ∅))).

(** *** [TOOL_SCHEMAS]

    The schemas advertised to the model: for each tool its name, its
    description, its parameters with their JSON types and descriptions, and
    the parameters it requires ([[]] when the schema has no ["required"]
    entry). *)
Record Property := mkProperty {
  p_name : string;
  p_type : string;
  p_description : string
}.

Record Schema := mkSchema {
  schema_name : string;
  schema_description : string;
  schema_properties : list Property;
  schema_required : list string
}.

Definition TOOL_SCHEMAS : list Schema :=
  [ mkSchema "list_restaurants"
      "Search for restaurants based on criteria like cuisine, location, or party size."
      [ mkProperty "cuisine" "string"
          "Type of cuisine (e.g., Italian, Japanese, Indian)";
        mkProperty "location" "string"
          "Area or neighborhood (e.g., Downtown, Westside)";
        mkProperty "party_size" "integer" "Number of people in the party";
        mkProperty "text" "string"
          "Additional search text to match against restaurant name or description";
        mkProperty "date" "string" "Date for reservation in YYYY-MM-DD format";
        mkProperty "time" "string"
          "Time for reservation in HH:MM format (24-hour)" ]
      [];
    mkSchema "get_restaurant_details"
      "Get detailed information about a specific restaurant."
      [ mkProperty "restaurant_name" "string"
          "Name of the restaurant to get details for" ]
      ["restaurant_name"];
    mkSchema "check_availability"
      "Check if a restaurant has availability for a reservation."
      [ mkProperty "restaurant_name" "string"
          "Name of the restaurant to check availability";
        mkProperty "date" "string" "Date for reservation in YYYY-MM-DD format";
        mkProperty "time" "string"
          "Time for reservation in HH:MM format (24-hour)";
        mkProperty "party_size" "integer" "Number of people in the party" ]
      ["restaurant_name"; "date"; "time"; "party_size"];
    mkSchema "make_reservation"
      "Book a reservation at a restaurant."
      [ mkProperty "restaurant_name" "string" "Name of the restaurant to book";
        mkProperty "date" "string" "Date for reservation in YYYY-MM-DD format";
        mkProperty "time" "string"
          "Time for reservation in HH:MM format (24-hour)";
        mkProperty "party_size" "integer" "Number of people in the party";
        mkProperty "user_name" "string"
          "Name of the person making the reservation";
        mkProperty "user_phone" "string" "Contact phone number" ]
      ["restaurant_name"; "date"; "time"; "party_size"; "user_name"; "user_phone"] ].

End Tools.

(** ** [src/agent.py] *)

Module Agent.

Import Tools.

(** *** What the model's client library hands back *)

(** A function call in a response part.  [fc_args] is the outcome of
    [dict(function_call.args)]: the dictionary (empty when the arguments are
    empty), or the exception the conversion raises. *)
Record FunctionCall := mkFunctionCall {
  fc_name : string;
  fc_args : Exc Args
}.

(** A part of a response: each attribute is [None] when absent or falsy. *)
Record Part := mkPart {
  part_function_call : option FunctionCall;
  part_text : option string
}.

(** A candidate, by the parts of its content; [None] when the candidate has
    no content. *)
Record Candidate := mkCandidate { content_parts : option (list Part) }.

Record Response := mkResponse { candidates : list Candidate }.

(** A turn of the chat history. *)
Record Turn := mkTurn { role : string; parts : list string }.

(** *** The agent *)

Record ToolCall := mkToolCall { tc_name : string; tc_args : Args }.

(** An entry of [tool_execution_logs]. *)
Record LogEntry := mkLogEntry { log_tool_call : ToolCall; log_result : ToolResult }.

(** What persists between messages: [self.chat.history] and the state of the
    tools' [data_manager]. *)
Record AgentState := mkAgentState {
  history : list Turn;
  data_manager : State
}.

Definition fallback_rephrase : string :=
  "I'm sorry, I couldn't quite process that. Could you please try rephrasing your request?".
Definition technical_difficulties : string :=
  "I seem to be having some technical difficulties at the moment. Please try again in a little bit!".
Definition ok_what_next : string := "OK. What next?".
Definition issue_processing : string :=
  "I encountered an issue processing the tool result. How can I help further?".

Section Orchestrator.

(** The registry [_execute_tool] looks tools up in: [TOOL_MAP] of
    [tools.py] in the program. *)
Variable tool_map : gmap string Tool.

(** [self.chat.send_message(content, ...)] on a history: the response and the
    history the library leaves, or the exception it raises. *)
Variable send_message : list Turn -> string -> Exc (Response * list Turn).

(** [json.dumps] on a tool result. *)
Variable json_dumps : ToolResult -> Exc string.

Definition tool_not_found (function_name : string) : ToolResult :=
  RError ("Tool '" +:+ function_name +:+ "' not found.").

Definition tool_failed (function_name : string) : ToolResult :=
  RError ("An error occurred while trying to execute the " +:+ function_name
          +:+ " action.").

Definition _execute_tool (tool_call : ToolCall) (dm : State) (w : Outside)
  : ToolResult * State :=
  let function_name := tc_name tool_call in
  let function_args := tc_args tool_call in
  match tool_map !! function_name with
  | None => (tool_not_found function_name, dm)
  | Some tool_function =>
      match tool_function function_args dm w with
      | (Return result, dm') => (result, dm')
      | (Raise e, dm') => (tool_failed function_name, dm')
      end
  end.

(** The loop over the parts of the first response: the text gathered and the
    first function call with a name, which ends the loop and drops the
    text. *)
Fixpoint scan_parts (ps : list Part) (final_response_text : string)
  : string * option FunctionCall :=
  match ps with
  | [] => (final_response_text, None)
  | part :: ps' =>
      match part_function_call part with
      | Some fc =>
          if str_truthy (fc_name fc) then (EmptyString, Some fc)
          else
            match part_text part with
            | Some t => scan_parts ps' (final_response_text +:+ t)
            | None => scan_parts ps' final_response_text
            end
      | None =>
          match part_text part with
          | Some t => scan_parts ps' (final_response_text +:+ t)
          | None => scan_parts ps' final_response_text
          end
      end
  end.

Definition scan_response (response : Response) : string * option FunctionCall :=
  match candidates response with
  | candidate :: _ =>
      match content_parts candidate with
      | Some ps => scan_parts ps EmptyString
      | None => (EmptyString, None)
      end
  | [] => (EmptyString, None)
  end.

(** The text of the follow-up response. *)
Definition follow_up_text (follow_up_response : Response) : string :=
  match candidates follow_up_response with
  | candidate :: _ =>
      match content_parts candidate with
      | Some ps =>
          fold_left (fun text p => text +:+ default EmptyString (part_text p))
            ps EmptyString
      | None => issue_processing
      end
  | [] => ok_what_next
  end.

(** The final checks before returning. *)
Definition final_text (final_response_text : string) : string :=
  if negb (str_truthy final_response_text)
     || contains "cannot fulfill this request" (lower final_response_text)
  then fallback_rephrase else final_response_text.

(** The state of one call of [process_message]: the log of the turn and the
    persistent state. *)
Record TurnState := mkTurnState {
  tool_execution_logs : list LogEntry;
  agent : AgentState
}.

(** [json.dumps(tool_result)] with its [TypeError] handler. *)
Definition serialize (tool_result : ToolResult) : Exc string :=
  match json_dumps tool_result with
  | Return s => Return s
  | Raise e =>
      if is_TypeError e then json_dumps (RError "Failed to serialize tool result")
      else Raise e
  end.

(** The body of the outer [try] statement of [process_message]: the text to
    return or the exception that escapes, and the state reached. *)
Definition process_turn (user_message : string) (w : Outside) (st : TurnState)
  : Exc string * TurnState :=
  match send_message (history (agent st)) user_message with
  | Raise e => (Raise e, st)
  | Return (response, h1) =>
      let dm := data_manager (agent st) in
      match scan_response response with
      | (final_response_text, None) =>
          (Return (final_text final_response_text),
           mkTurnState (tool_execution_logs st) (mkAgentState h1 dm))
      | (_, Some function_call) =>
          let tool_args :=
            match fc_args function_call with
            | Return a => a
            | Raise _ => ∅
            end in
          let tool_call := mkToolCall (fc_name function_call) tool_args in
          let '(tool_result, dm') := _execute_tool tool_call dm w in
          let logs := tool_execution_logs st ++ [mkLogEntry tool_call tool_result] in
          match serialize tool_result with
          | Raise e => (Raise e, mkTurnState logs (mkAgentState h1 dm'))
          | Return serialized_result =>
              let user_feedback_message :=
                "Tool '" +:+ fc_name function_call +:+ "' executed. Result: "
                +:+ serialized_result in
              let h2 := h1 ++ [mkTurn "user" [user_feedback_message]] in
              match send_message h2 "OK." with
              | Raise send_err => (Raise send_err, mkTurnState logs (mkAgentState h2 dm'))
              | Return (follow_up_response, h3) =>
                  (Return (final_text (follow_up_text follow_up_response)),
                   mkTurnState logs (mkAgentState h3 dm'))
              end
          end
      end
  end.

(** [process_message]: the text and the log it returns, and the state it
    leaves. *)
Definition process_message (self : AgentState) (user_message : string) (w : Outside)
  : (string * list LogEntry) * AgentState :=
  match process_turn user_message w (mkTurnState [] self) with
  | (Return final_response_text, st) =>
      ((final_response_text, tool_execution_logs st), agent st)
  | (Raise e, st) => ((technical_difficulties, []), agent st)
  end.

End Orchestrator.

(** [_start_conversation]: a new chat whose history is the system prompt
    alone, as a user turn.  [system_prompt] is [self.system_prompt], the text
    [_create_system_prompt] returns; the tools' [data_manager] is not
    touched. *)
Definition _start_conversation (system_prompt : string) (self : AgentState)
  : AgentState :=
  mkAgentState [mkTurn "user" [system_prompt]] (data_manager self).

End Agent.

(** ** [src/app.py] *)

Module App.

Import Tools Agent.

(** An entry of [st.session_state.messages]. *)
Record Message := mkMessage { m_role : string; m_content : string }.

(** The two keys the script keeps in [st.session_state], which outlives the
    reruns of the script.  The script sets and clears the two together, so a
    session state is [None] before the first run and holds both lists from
    then on.  What the script writes to the page is not modelled. *)
Record Session := mkSession {
  messages : list Message;
  tool_logs : list LogEntry
}.

Definition welcome_message : Message :=
  mkMessage "assistant"
    "Hi there! I'm FoodieSpot's AI assistant. How can I help you today? Looking for a restaurant recommendation or would you like to make a reservation?".

(** The two initialisations at the top of the script, run on every rerun:
    they set the keys that are not set yet. *)
Definition initialize (session_state : option Session) : Session :=
  match session_state with
  | None => mkSession [welcome_message] []
  | Some ss => ss
  end.

Section Script.

Variable tool_map : gmap string Tool.
Variable send_message : list Turn -> string -> Exc (Response * list Turn).
Variable json_dumps : ToolResult -> Exc string.

(** [process_user_input] *)
Definition process_user_input (ss : Session) (agent : AgentState)
    (user_input : string) (w : Outside) : Session * AgentState :=
  let messages1 := messages ss ++ [mkMessage "user" user_input] in
  let '((response, logs), agent') :=
    process_message tool_map send_message json_dumps agent user_input w in
  let tool_logs1 :=
    match logs with
    | [] => tool_logs ss
    | _ => tool_logs ss ++ logs
    end in
  (mkSession (messages1 ++ [mkMessage "assistant" response]) tool_logs1, agent').

(** One rerun of the script with a message typed into the chat input. *)
Definition on_input (session_state : option Session) (agent : AgentState)
    (user_input : string) (w : Outside) : Session * AgentState :=
  process_user_input (initialize session_state) agent user_input w.

End Script.

(** The button "Clear Chat History", and the rerun it asks for. *)
Definition clear_chat_history (system_prompt : string)
    (session_state : option Session) (agent : AgentState) : Session * AgentState :=
  (initialize (Some (mkSession [] [])), _start_conversation system_prompt agent).

End App.

(** ** Vocabulary of the specification *)

(** [sub] occurs in [s]. *)
Definition is_substring (sub s : string) : Prop :=
  exists a b : string, s = a +:+ sub +:+ b.

(** [r] is the first element of [l] with the least key. *)
Definition first_least {A} (key : A -> Z) (r : A) (l : list A) : Prop :=
  exists l1 l2, l = l1 ++ r :: l2
    /\ Forall (fun x => key r < key x) l1
    /\ Forall (fun x => key r <= key x) l2.

(** How far the length of a record's name is from the length of the
    query. *)
Definition length_gap (query : string) (r : Restaurant) : nat :=
  let a := String.length (name r) in
  let b := String.length query in
  ((a - b) + (b - a))%nat.

(** A filter is supplied when its key holds a value that is true in a
    condition: a non-empty string, a number that is not zero. *)
Definition supplied (field : option PyVal) (v : PyVal) : Prop :=
  field = Some v /\ truthy v = true.

(** [v] is a [float] infinity. *)
Definition infinite (v : PyVal) : Prop :=
  exists x s, v = PFloat x /\ Prim2SF x = S754_infinity s.






(** The criteria a search returns for: the cuisine, the location and the
    text, where supplied, are strings, and the party size, where supplied,
    is no infinity. *)
Definition searchable (c : Criteria) : Prop :=
  (forall v, supplied (c_cuisine c) v -> exists q, v = PStr q)
  /\ (forall v, supplied (c_location c) v -> exists q, v = PStr q)
  /\ (forall v, supplied (c_party_size c) v -> ~ infinite v)
  /\ (forall v, supplied (c_text c) v -> exists q, v = PStr q).

(** A criterion with its string, if it is one, in lower case. *)
Definition lower_val (v : PyVal) : PyVal :=
  match v with
  | PStr s => PStr (lower s)
  | _ => v
  end.

(** One call of [make_reservation]: its arguments, and what the world
    outside hands to it. *)
Record Call := mkCall {
  call_query : string;
  call_date : string;
  call_time : string;
  call_party_size : Z;
  call_user_name : PyVal;
  call_user_phone : PyVal;
  call_outside : Outside
}.

Definition call (self : State) (c : Call) : Exc Booking * State :=
  make_reservation self (call_query c) (call_date c) (call_time c)
    (call_party_size c) (call_user_name c) (call_user_phone c) (call_outside c).

(** The calls of one process run, in order: the results, oldest first, and
    the final state. *)
Fixpoint run (self : State) (cs : list Call) : list (Exc Booking) * State :=
  match cs with
  | [] => ([], self)
  | c :: cs' =>
      let '(b, self') := call self c in
      let '(bs, self'') := run self' cs' in
      (b :: bs, self'')
  end.

(** The confirmation code of a call's result, when the call booked. *)
Definition issued_code (b : Exc Booking) : option string :=
  match b with
  | Return bk => if success bk then bk_confirmation_code bk else None
  | Raise _ => None
  end.

(** The reservation a call stores when it books. *)
Definition stored_by (c : Call) (code : string) : Reservation :=
  mkReservation code (call_query c) (call_date c) (call_time c)
    (call_party_size c) (call_user_name c) (call_user_phone c)
    (clock_now (call_outside c)).

(** The number of occurrences of the character [c] in [s]. *)
Fixpoint count_char (c : ascii) (s : string) : nat :=
  match s with
  | EmptyString => 0
  | String x s' => (if Ascii.eqb x c then 1 else 0) + count_char c s'
  end.

(** [v] is an integer as a JSON schema has it: an [int], or a [float]
    whose value [m * 2^e] is whole. *)
Definition is_integer (v : PyVal) : Prop :=
  match v with
  | PInt _ => True
  | PFloat x =>
      match Prim2SF x with
      | S754_zero _ => True
      | S754_finite _ m e => Z.shiftl (Z.shiftl (Z.pos m) e) (- e) = Z.pos m
      | _ => False
      end
  | _ => False
  end.

(** The arguments [args] conform to the schema [sc]: they name only
    properties of the schema, they name every required one, a property of
    type ["string"] is bound to a [str] and one of type ["integer"] to an
    integer. *)
Definition conforms (sc : Tools.Schema) (args : Tools.Args) : Prop :=
  (forall k v, args !! k = Some v ->
     exists p, In p (Tools.schema_properties sc) /\ Tools.p_name p = k
               /\ (Tools.p_type p = "string" -> exists s, v = PStr s)
               /\ (Tools.p_type p = "integer" -> is_integer v))
  /\ (forall k, In k (Tools.schema_required sc) -> is_Some (args !! k)).

(** The texts of the parts of a response, joined in order. *)
Definition concat_texts (ps : list Agent.Part) : string :=
  fold_right (fun p text => default EmptyString (Agent.part_text p) +:+ text)
    EmptyString ps.

(** The part [p] holds a function call with a name, [fc]. *)
Definition named_call (p : Agent.Part) (fc : Agent.FunctionCall) : Prop :=
  Agent.part_function_call p = Some fc /\ Agent.fc_name fc <> "".

(** What [_execute_tool] makes of the outcome of a tool. *)
Definition settle (function_name : string) (outcome : Exc Tools.ToolResult * State)
  : Tools.ToolResult * State :=
  match outcome with
  | (Return result, dm') => (result, dm')
  | (Raise e, dm') => (Agent.tool_failed function_name, dm')
  end.

(** Every stored reservation carries the code it is stored under. *)
Definition codes_consistent (self : State) : Prop :=
  forall code rec, reservations self !! code = Some rec -> confirmation_code rec = code.

(** [v] converts to the positive integer [n]. *)
Definition positive_integer (v : PyVal) (n : Z) : Prop :=
  int v = Return n /\ 0 < n.

(** [s] splits at [sep] into exactly [n] components. *)
Definition components (sep : ascii) (n : nat) (s : string) : Prop :=
  length (split sep s) = n.

(** [v] is false in a condition: [None], [False], a zero or the empty
    string. *)
Definition empty (v : PyVal) : Prop := truthy v = false.

(** [v] is true in a condition and no [str]. *)
Definition not_text (v : PyVal) : Prop :=
  truthy v = true /\ forall s, v <> PStr s.

(** [v] is what a format check turns down: an empty value, or a [str] that
    does not split at [sep] into exactly [n] components. *)
Definition ill_formed (sep : ascii) (n : nat) (v : PyVal) : Prop :=
  empty v \/ exists s, v = PStr s /\ ~ components sep n s.


(** Each stage of [get_restaurants] that returns is a filter by a test that
    holds of every record when the stage is skipped. *)
Definition string_test (v : option PyVal) (ok : string -> Restaurant -> bool)
    (r : Restaurant) : bool :=
  match v with
  | Some (PStr q) => if str_truthy q then ok (lower q) r else true
  | _ => true
  end.

Definition cuisine_test (c : Criteria) : Restaurant -> bool :=
  string_test (c_cuisine c) cuisine_ok.

Definition location_test (c : Criteria) : Restaurant -> bool :=
  string_test (c_location c) location_ok.

Definition party_size_test (c : Criteria) (r : Restaurant) : bool :=
  match c_party_size c with
  | Some v =>
      if truthy v then
        match int v with Return n => n <=? seating_capacity r | Raise _ => true end
      else true
  | None => true
  end.

Definition text_test (c : Criteria) : Restaurant -> bool :=
  string_test (c_text c) text_ok.

(** The test a search filters by. *)
Definition every_test (c : Criteria) (r : Restaurant) : bool :=
  cuisine_test c r && (location_test c r && (party_size_test c r && text_test c r)).

(** ** A sample catalog, for the examples *)

Module Sample.

Definition hours_every_day (h : string) : list (string * string) :=
  map (fun d => (d, h))
    ["monday"; "tuesday"; "wednesday"; "thursday"; "friday"; "saturday"; "sunday"].

Definition pasta_paradise : Restaurant :=
  mkRestaurant (SInt 1) "Pasta Paradise" "Italian" "Downtown" "12 Main Street" 40
    (dict_set "monday" "Closed" (hours_every_day "11:00-22:00"))
    (SFloat 4.5) "Fresh pasta and a quiet room" (Some ["romantic"; "family"]).

Definition paradise_grill : Restaurant :=
  mkRestaurant (SInt 2) "Paradise Grill" "American" "Midtown" "7 Side Street" 60
    (hours_every_day "10:00-23:00") (SFloat 4) "Steaks from the grill" None.

Definition thai_orchid : Restaurant :=
  mkRestaurant (SInt 3) "Thai Orchid" "Thai" "Midtown" "3 Lake Road" 25
    [("monday", "17:00-22:00"); ("tuesday", "closed"); ("wednesday", "all day")]
    (SFloat 4.75) "Curries and noodles" (Some ["spicy"]).

Definition catalog : list Restaurant := [pasta_paradise; paradise_grill; thai_orchid].

Definition dm : State := init catalog.

Definition outside (u : float) (k : Z) : Outside := mkOutside u k "2026-11-03T10:00:00".

(** The arguments of a call of [check_availability]. *)
Definition args_check : Tools.Args :=
  <["restaurant_name" := PStr "pasta"]>
    (<["date" := PStr "2026-11-03"]>
      (<["time" := PStr "19:30"]> (<["party_size" := PInt 4]> ∅))).

Definition asks_check_availability : Agent.Response :=
  Agent.mkResponse
    [Agent.mkCandidate
       (Some [Agent.mkPart
                (Some (Agent.mkFunctionCall "check_availability" (Return args_check)))
                None])].

Definition connection_reset : PyExn :=
  mkExn (OtherException "ConnectionError") "connection reset by peer".

(** A model that asks for [check_availability] on the first message of a
    turn, and whose connection drops on the follow-up message. *)
Definition send_then_drop (h : list Agent.Turn) (content : string)
  : Exc (Agent.Response * list Agent.Turn) :=
  if String.eqb content "OK." then Raise connection_reset
  else Return (asks_check_availability,
               h ++ [Agent.mkTurn "user" [content]; Agent.mkTurn "model" []]).

(** A stand-in for the JSON encoder. *)
Definition dumps_stub (r : Tools.ToolResult) : Exc string := Return "{}".

Definition agent0 : Agent.AgentState := Agent.mkAgentState [] dm.

End Sample.

(** ** Sessions of the chat page *)

(** What a user does in the chat: type a message, which reaches the agent
    together with what the world outside hands to that turn, or press
    "Clear Chat History". *)
Inductive Action :=
| Input (user_input : string) (w : Outside)
| Clear.

Section Session.

Variable tool_map : gmap string Tools.Tool.
Variable send_message : list Agent.Turn -> string -> Exc (Agent.Response * list Agent.Turn).
Variable json_dumps : Tools.ToolResult -> Exc string.
Variable system_prompt : string.

Definition act (st : App.Session * Agent.AgentState) (a : Action)
  : App.Session * Agent.AgentState :=
  match a with
  | Input user_input w =>
      App.on_input tool_map send_message json_dumps (Some st.1) st.2 user_input w
  | Clear => App.clear_chat_history system_prompt (Some st.1) st.2
  end.

(** A browser session from its first run on: the actions in order. *)
Definition session (agent : Agent.AgentState) (actions : list Action)
  : App.Session * Agent.AgentState :=
  fold_left act actions (App.initialize None, agent).

End Session.

(** The messages a chat shows for inputs and the replies to them, after the
    messages [ms] it showed before. *)
Fixpoint transcript (ms : list App.Message) (turns : list (string * string))
  : list App.Message :=
  match turns with
  | [] => ms
  | (user_input, reply) :: turns' =>
      transcript (ms ++ [App.mkMessage "user" user_input;
                         App.mkMessage "assistant" reply]) turns'
  end.

(** A model that asks for [make_reservation] on the first message of a turn,
    and whose connection drops on the follow-up message. *)
Definition args_book : Tools.Args :=
  <["user_name" := PStr "Ann"]>
    (<["user_phone" := PStr "555-0100"]> Sample.args_check).


Definition send_book_then_drop (h : list Agent.Turn) (content : string)
  : Exc (Agent.Response * list Agent.Turn) :=
  if String.eqb content "OK." then Raise Sample.connection_reset
  else Return (Agent.mkResponse
                 [Agent.mkCandidate
                    (Some [Agent.mkPart
                             (Some (Agent.mkFunctionCall "make_reservation"
                                      (Return args_book)))
                             None])],
               h ++ [Agent.mkTurn "user" [content]; Agent.mkTurn "model" []]).

(** * Properties *)

(** ** Facts about the string and list primitives *)

Section StringFacts.

Lemma append_nil_l (s : string) : "" +:+ s = s.
Proof. reflexivity. Qed.

Lemma append_cons (c : ascii) (s t : string) : String c s +:+ t = String c (s +:+ t).
Proof. reflexivity. Qed.

Lemma startswith_spec (p s : string) :
  startswith p s = true <-> exists b, s = p +:+ b.
Proof.
  revert s. induction p as [|a p IH]; intros s.
  - split; [intros _; exists s; reflexivity | reflexivity].
  - destruct s as [|b s].
    + split; [discriminate | intros [t Ht]; rewrite append_cons in Ht; discriminate].
    + cbn [startswith]. rewrite andb_true_iff, IH. split.
      * intros [Hab [t ->]]. apply Ascii.eqb_eq in Hab. subst b.
        exists t. now rewrite append_cons.
      * intros [t Ht]. rewrite append_cons in Ht. injection Ht as -> ->.
        split; [apply Ascii.eqb_refl | now exists t].
Qed.

Lemma contains_spec (sub s : string) :
  contains sub s = true <-> is_substring sub s.
Proof.
  induction s as [|c s IH].
  - cbn [contains]. rewrite orb_false_r, startswith_spec. split.
    + intros [b Hb]. exists "", b. exact Hb.
    + intros [a [b Hab]]. destruct a as [|x a]; [now exists b|].
      rewrite append_cons in Hab. discriminate.
  - cbn [contains]. rewrite orb_true_iff, startswith_spec, IH. split.
    + intros [[b Hb] | [a [b Hab]]].
      * exists "", b. exact Hb.
      * exists (String c a), b. rewrite append_cons. now f_equal.
    + intros [a [b Hab]]. destruct a as [|x a].
      * left. now exists b.
      * right. rewrite append_cons in Hab. injection Hab as _ ->. now exists a, b.
Qed.

Lemma contains_refl (s : string) : contains s s = true.
Proof.
  apply contains_spec. exists "", "". rewrite append_nil_l.
  induction s as [|c s IH]; [reflexivity|]. rewrite append_cons. now f_equal.
Qed.

Lemma str_truthy_spec (s : string) : str_truthy s = true <-> s <> "".
Proof.
  unfold str_truthy. rewrite negb_true_iff. split.
  - intros H ->. discriminate.
  - intros H. apply String.eqb_neq. exact H.
Qed.

End StringFacts.

Section ListFacts.

Context {A : Type}.

Lemma find_first (f : A -> bool) (l : list A) :
  match List.find f l with
  | Some r => exists l1 l2, l = l1 ++ r :: l2 /\ f r = true
                            /\ Forall (fun x => f x = false) l1
  | None => Forall (fun x => f x = false) l
  end.
Proof.
  induction l as [|x l IH]; cbn [List.find].
  - constructor.
  - destruct (f x) eqn:Hx.
    + exists [], l. repeat split; [exact Hx | constructor].
    + destruct (List.find f l) as [r|].
      * destruct IH as (l1 & l2 & -> & Hr & Hl1).
        exists (x :: l1), l2. repeat split; [exact Hr | now constructor].
      * now constructor.
Qed.

Lemma filter_split (f : A -> bool) (l m1 m2 : list A) (r : A) :
  List.filter f l = m1 ++ r :: m2 ->
  exists l1 l2, l = l1 ++ r :: l2 /\ List.filter f l1 = m1
                /\ List.filter f l2 = m2 /\ f r = true.
Proof.
  revert m1. induction l as [|x l IH]; intros m1 H.
  - destruct m1; discriminate.
  - cbn [List.filter] in H. destruct (f x) eqn:Hx.
    + destruct m1 as [|y m1]; cbn in H.
      * injection H as -> H. exists [], l. cbn. auto.
      * injection H as -> H. destruct (IH _ H) as (l1 & l2 & -> & H1 & H2 & Hr).
        exists (y :: l1), l2. cbn. rewrite Hx, H1. auto.
    + destruct (IH _ H) as (l1 & l2 & -> & H1 & H2 & Hr).
      exists (x :: l1), l2. cbn. rewrite Hx. auto.
Qed.

Lemma Forall_filter_impl (f : A -> bool) (P : A -> Prop) (l : list A) :
  Forall P (List.filter f l) -> Forall (fun x => f x = true -> P x) l.
Proof.
  induction l as [|x l IH]; cbn [List.filter]; intros H; [constructor|].
  destruct (f x) eqn:Hx.
  - inversion H; subst. constructor; auto.
  - constructor; [congruence | auto].
Qed.

Variable key : A -> Z.

Lemma insert_by_head (x : A) (l : list A) :
  head (insert_by key x l) =
  match head l with
  | Some y => if key x <=? key y then Some x else Some y
  | None => Some x
  end.
Proof.
  destruct l as [|y l]; [reflexivity|]. cbn. now destruct (key x <=? key y).
Qed.

Lemma sort_by_head (l : list A) :
  match head (sort_by key l) with
  | Some r => first_least key r l
  | None => l = []
  end.
Proof.
  induction l as [|x l IH]; [reflexivity|].
  cbn [sort_by]. rewrite insert_by_head.
  destruct (head (sort_by key l)) as [y|].
  - destruct IH as (l1 & l2 & -> & H1 & H2).
    destruct (Z.leb_spec (key x) (key y)) as [Hle|Hlt].
    + exists [], (l1 ++ y :: l2). repeat split; [constructor|].
      apply Forall_app. split.
      * eapply Forall_impl; [exact H1|]. cbn. intros; lia.
      * constructor; [exact Hle|]. eapply Forall_impl; [exact H2|]. cbn. intros; lia.
    + exists (x :: l1), l2. repeat split; [|exact H2]. now constructor.
  - subst l. exists [], []. repeat split; constructor.
Qed.

End ListFacts.

(** ** The catalog store: name lookup *)

Section FindByName.

Variable self : State.
Variable query : string.

Let q := lower query.
Let is_exact (r : Restaurant) : bool := String.eqb (lower (name r)) q.
Let is_partial (r : Restaurant) : bool := contains q (lower (name r)).

(** The two branches on the number of partial matches pick the same record:
    the head of the stable sort. *)
Lemma closest_match_head (ms : list Restaurant) :
  match ms with
  | [] => None
  | [r] => Some r
  | _ => head (sort_by (name_distance query) ms)
  end = head (sort_by (name_distance query) ms).
Proof. destruct ms as [|a [|b ms]]; reflexivity. Qed.

Lemma find_restaurant_by_name_unfold :
  query <> "" ->
  find_restaurant_by_name self query =
  match List.find is_exact (restaurants self) with
  | Some r => Some r
  | None => head (sort_by (name_distance query) (List.filter is_partial (restaurants self)))
  end.
Proof.
  intros Hq. unfold find_restaurant_by_name.
  apply str_truthy_spec in Hq. rewrite Hq. cbn [negb].
  fold q. fold is_exact. fold is_partial.
  destruct (List.find is_exact (restaurants self)); [reflexivity|].
  apply closest_match_head.
Qed.

End FindByName.

(** The key the code sorts the partial matches by is the distance between
    the two lengths. *)
Lemma name_distance_gap (query : string) (r : Restaurant) :
  name_distance query r = Z.of_nat (length_gap query r).
Proof. unfold name_distance, length_gap, len. cbv zeta. lia. Qed.

(** C3. For a non-empty query, [find_restaurant_by_name] returns the first
    record of the catalog whose lower-cased name equals the lower-cased query
    when there is one.  Otherwise it looks at the records whose lower-cased
    name contains the lower-cased query: it returns [None] when there is
    none, and else the one whose name length is closest to the length of the
    query, the first in catalog order among equally close ones (which is the
    only one when there is exactly one). *)
Theorem find_restaurant_by_name_correct (self : State) (query : string) :
  query <> "" ->
  let exact r := lower (name r) = lower query in
  let partial r := is_substring (lower query) (lower (name r)) in
  match find_restaurant_by_name self query with
  | Some r =>
      exists l1 l2, restaurants self = l1 ++ r :: l2 /\
        ((exact r /\ Forall (fun x => ~ exact x) l1) \/
         (Forall (fun x => ~ exact x) (restaurants self) /\ partial r /\
          Forall (fun x => partial x ->
                    (length_gap query r < length_gap query x)%nat) l1 /\
          Forall (fun x => partial x ->
                    (length_gap query r <= length_gap query x)%nat) l2))
  | None => Forall (fun x => ~ partial x) (restaurants self)
  end.
Proof.
  intros Hq exact partial.
  rewrite find_restaurant_by_name_unfold by exact Hq.
  pose proof (find_first (fun r => String.eqb (lower (name r)) (lower query))
                (restaurants self)) as Hfind.
  destruct (List.find _ (restaurants self)) as [r|].
  - destruct Hfind as (l1 & l2 & Hl & Hr & Hl1).
    exists l1, l2. split; [exact Hl|]. left. split.
    + now apply String.eqb_eq.
    + eapply Forall_impl; [exact Hl1|]. cbn. intros x Hx.
      now apply String.eqb_neq.
  - assert (Hno : Forall (fun x => ~ exact x) (restaurants self)).
    { eapply Forall_impl; [exact Hfind|]. cbn. intros x Hx.
      now apply String.eqb_neq. }
    set (f := fun r : Restaurant => contains (lower query) (lower (name r))).
    pose proof (sort_by_head (name_distance query)
                  (List.filter f (restaurants self))) as Hsort.
    destruct (head (sort_by _ (List.filter f (restaurants self)))) as [r|].
    + destruct Hsort as (m1 & m2 & Hm & Hm1 & Hm2).
      destruct (filter_split f _ _ _ _ Hm) as (l1 & l2 & Hl & <- & <- & Hr).
      exists l1, l2. split; [exact Hl|]. right. split; [exact Hno|]. split.
      * now apply contains_spec.
      * split.
        -- eapply Forall_impl; [exact (Forall_filter_impl _ _ _ Hm1)|].
           cbn. intros x Hx Hp. rewrite !name_distance_gap in Hx.
           apply Nat2Z.inj_lt, Hx. now apply contains_spec.
        -- eapply Forall_impl; [exact (Forall_filter_impl _ _ _ Hm2)|].
           cbn. intros x Hx Hp. rewrite !name_distance_gap in Hx.
           apply Nat2Z.inj_le, Hx. now apply contains_spec.
    + assert (Hall : Forall (fun x => f x = true -> False) (restaurants self)).
      { apply Forall_filter_impl. rewrite Hsort. constructor. }
      eapply Forall_impl; [exact Hall|]. cbn. intros x Hx Hp.
      apply Hx. now apply contains_spec.
Qed.

(** The three names of the sample catalog hold an "a"; the shortest of them
    is the last of the catalog, and the closest to the query. *)
Lemma find_restaurant_by_name_correct_witness :
  find_restaurant_by_name Sample.dm "a" = Some Sample.thai_orchid
  /\ exists l1 l2,
       restaurants Sample.dm = l1 ++ Sample.thai_orchid :: l2
       /\ Forall (fun x => is_substring "a" (lower (name x)) ->
                    (length_gap "a" Sample.thai_orchid < length_gap "a" x)%nat) l1.
Proof.
  pose proof (find_restaurant_by_name_correct Sample.dm "a") as H.
  assert (Hq : "a" <> "") by discriminate.
  specialize (H Hq). cbv zeta in H.
  assert (E : find_restaurant_by_name Sample.dm "a" = Some Sample.thai_orchid)
    by (vm_compute; reflexivity).
  rewrite E in H. split; [exact E|].
  destruct H as (l1 & l2 & Hl & [[Hex _] | (_ & _ & Hl1 & _)]).
  - vm_compute in Hex. discriminate Hex.
  - exists l1, l2. split; [exact Hl | exact Hl1].
Defined.

(** ** The catalog store: search *)

Ltac unfold_exc := unfold mbind, exc_mbind, exc_bind, mret, exc_mret in *.

Section Conversion.

(** What [int] raises: [ValueError] or [TypeError], which the handlers of
    the code catch, or [OverflowError], for an infinity alone. *)
Lemma int_raises (v : PyVal) (e : PyExn) :
  int v = Raise e ->
  (is_ValueError e || is_TypeError e = true /\ ~ infinite v)
  \/ (infinite v /\ exn_class e = OverflowError
      /\ is_ValueError e || is_TypeError e = false).
Proof.
  destruct v as [|b|n|x|s]; cbn [int].
  - intros [= <-]. left. split; [reflexivity|]. intros (x & s & Hx & _). discriminate.
  - discriminate.
  - discriminate.
  - unfold int_of_float. destruct (Prim2SF x) as [z|z| |z m e0] eqn:E.
    + discriminate.
    + intros [= <-]. right. split; [now exists x, z|]. split; reflexivity.
    + intros [= <-]. left. split; [reflexivity|].
      intros (x' & s & [= <-] & Hx). congruence.
    + discriminate.
  - cbv zeta. intros H. left. split.
    + destruct (_ && _); [injection H as <-; reflexivity|].
      destruct (int_literal s); [discriminate|]. injection H as <-. reflexivity.
    + intros (x & z & Hx & _). discriminate.
Qed.

Lemma int_infinite (v : PyVal) :
  infinite v ->
  int v = Raise (mkExn OverflowError "cannot convert float infinity to integer").
Proof.
  intros (x & s & -> & Hx). cbn [int]. unfold int_of_float. now rewrite Hx.
Qed.

Lemma infinite_dec (v : PyVal) : infinite v \/ ~ infinite v.
Proof.
  destruct v as [|b|n|x|s]; try (right; intros (x' & z & Hx & _); discriminate).
  destruct (Prim2SF x) as [z|z| |z m e0] eqn:E;
    try (right; intros (x' & z' & [= <-] & Hx); congruence).
  left. now exists x, z.
Qed.

End Conversion.

Section Search.

Lemma filter_filter {A} (f g : A -> bool) (l : list A) :
  List.filter f (List.filter g l) = List.filter (fun x => g x && f x) l.
Proof.
  induction l as [|x l IH]; [reflexivity|].
  cbn [List.filter]. destruct (g x); cbn [andb List.filter]; rewrite IH; reflexivity.
Qed.

Lemma filter_all {A} (l : list A) : List.filter (fun _ => true) l = l.
Proof. induction l as [|x l IH]; [reflexivity|]. cbn. now rewrite IH. Qed.

(** A stage that lower-cases its value returns exactly when the value, if
    supplied, is a string. *)
Lemma by_string_filter (v : option PyVal) (ok : string -> Restaurant -> bool)
    (rs : list Restaurant) :
  (forall x, supplied v x -> exists q, x = PStr q) ->
  by_string v ok rs = Return (List.filter (string_test v ok) rs).
Proof.
  intros Hstr. unfold by_string, string_test, supplied in *. unfold_exc.
  destruct v as [x|]; [|now rewrite filter_all].
  destruct (truthy x) eqn:Hx.
  - destruct (Hstr x (conj eq_refl Hx)) as [q ->]. cbn in Hx |- *.
    unfold str_truthy. rewrite Hx. reflexivity.
  - destruct x as [|b|n|y|q]; rewrite ?filter_all; try reflexivity.
    cbn in Hx. unfold str_truthy. rewrite Hx. now rewrite filter_all.
Qed.

Lemma by_string_raises (v : option PyVal) (ok : string -> Restaurant -> bool)
    (rs : list Restaurant) (x : PyVal) :
  supplied v x -> (forall q, x <> PStr q) ->
  by_string v ok rs = Raise (no_attribute x "lower").
Proof.
  intros [-> Hx] Hno. unfold by_string. rewrite Hx.
  destruct x as [|b|n|y|q]; try reflexivity. now destruct (Hno q).
Qed.

Lemma supplied_string_dec (v : option PyVal) :
  (forall x, supplied v x -> exists q, x = PStr q)
  \/ exists x, supplied v x /\ forall q, x <> PStr q.
Proof.
  unfold supplied. destruct v as [x|]; [|left; intros x [[=] _]].
  destruct (truthy x) eqn:Hx; [|left; intros y [[= <-] Hy]; congruence].
  destruct x as [|b|n|y|q];
    try (right; eexists; split; [split; [reflexivity | exact Hx] | discriminate]).
  left. intros y [[= <-] _]. eauto.
Qed.

Lemma by_party_size_filter (c : Criteria) (rs : list Restaurant) :
  (forall v, supplied (c_party_size c) v -> ~ infinite v) ->
  by_party_size c rs = Return (List.filter (party_size_test c) rs).
Proof.
  intros Hfin. unfold by_party_size, party_size_test, supplied in *.
  destruct (c_party_size c) as [v|]; [|now rewrite filter_all].
  destruct (truthy v) eqn:Hv; [|now rewrite filter_all].
  destruct (int v) as [n|e] eqn:Hn; [reflexivity|].
  destruct (int_raises _ _ Hn) as [[-> _] | [Hinf _]].
  - now rewrite filter_all.
  - destruct (Hfin v (conj eq_refl Hv) Hinf).
Qed.

Lemma by_party_size_raises (c : Criteria) (rs : list Restaurant) (v : PyVal) :
  supplied (c_party_size c) v -> infinite v ->
  by_party_size c rs
  = Raise (mkExn OverflowError "cannot convert float infinity to integer").
Proof.
  intros [Hc Hv] Hinf. unfold by_party_size.
  rewrite Hc, Hv, (int_infinite _ Hinf). reflexivity.
Qed.

Lemma supplied_party_size_dec (v : option PyVal) :
  (forall x, supplied v x -> ~ infinite x)
  \/ exists x, supplied v x /\ infinite x.
Proof.
  unfold supplied. destruct v as [x|]; [|left; intros x [[=] _]].
  destruct (truthy x) eqn:Hx; [|left; intros y [[= <-] Hy]; congruence].
  destruct (infinite_dec x) as [Hi|Hi].
  - right. exists x. auto.
  - left. intros y [[= <-] _]. exact Hi.
Qed.

(** A search returns the catalog filtered by its tests, or raises: it
    returns exactly for the criteria it can work on. *)
Lemma get_restaurants_outcome (self : State) (c : Criteria) :
  (searchable c
   /\ get_restaurants self (Some c) = Return (List.filter (every_test c) (restaurants self)))
  \/ (~ searchable c
      /\ exists e,
           get_restaurants self (Some c) = Raise e
           /\ ((exn_class e = AttributeError
                /\ exists v, (supplied (c_cuisine c) v \/ supplied (c_location c) v
                              \/ supplied (c_text c) v)
                             /\ forall q, v <> PStr q)
               \/ (exn_class e = OverflowError
                   /\ exists v, supplied (c_party_size c) v /\ infinite v))).
Proof.
  unfold get_restaurants, by_cuisine, by_location, by_text, searchable.
  destruct (supplied_string_dec (c_cuisine c)) as [H1 | (x & Hx & Hno)].
  2:{ right. split; [intros (H & _); destruct (H x Hx) as [q ->]; now destruct (Hno q)|].
      rewrite (by_string_raises _ _ _ x Hx Hno). eexists. split; [reflexivity|].
      left. split; [reflexivity|]. exists x. auto. }
  rewrite (by_string_filter _ _ _ H1). unfold_exc.
  destruct (supplied_string_dec (c_location c)) as [H2 | (x & Hx & Hno)].
  2:{ right. split; [intros (_ & H & _); destruct (H x Hx) as [q ->]; now destruct (Hno q)|].
      rewrite (by_string_raises _ _ _ x Hx Hno). eexists. split; [reflexivity|].
      left. split; [reflexivity|]. exists x. auto. }
  rewrite (by_string_filter _ _ _ H2).
  destruct (supplied_party_size_dec (c_party_size c)) as [H3 | (x & Hx & Hinf)].
  2:{ right. split; [intros (_ & _ & H & _); exact (H x Hx Hinf)|].
      rewrite (by_party_size_raises _ _ x Hx Hinf). eexists. split; [reflexivity|].
      right. split; [reflexivity|]. exists x. auto. }
  rewrite (by_party_size_filter _ _ H3).
  destruct (supplied_string_dec (c_text c)) as [H4 | (x & Hx & Hno)].
  2:{ right. split; [intros (_ & _ & _ & H); destruct (H x Hx) as [q ->]; now destruct (Hno q)|].
      rewrite (by_string_raises _ _ _ x Hx Hno). eexists. split; [reflexivity|].
      left. split; [reflexivity|]. exists x. auto. }
  rewrite (by_string_filter _ _ _ H4). left. split; [auto|].
  rewrite !filter_filter. reflexivity.
Qed.






End Search.



(** ** The catalog store: availability *)

Section Availability.

Lemma contains_char_cons (sep c : ascii) (s : string) :
  contains (String sep "") (String c s)
  = Ascii.eqb sep c || contains (String sep "") s.
Proof. cbn [contains startswith]. now rewrite andb_true_r. Qed.

(** Without the separator in it, a string splits into itself. *)
Lemma split_without_sep (sep : ascii) (s : string) :
  contains (String sep "") s = false -> split sep s = [s].
Proof.
  induction s as [|c s IH]; [reflexivity|].
  rewrite contains_char_cons. intros H. apply orb_false_iff in H as [Hc Hs].
  cbn [split]. rewrite Ascii.eqb_sym, Hc, (IH Hs). reflexivity.
Qed.

Lemma split_two_contains (sep : ascii) (s a b : string) :
  split sep s = [a; b] -> contains (String sep "") s = true.
Proof.
  intros H. destruct (contains (String sep "") s) eqn:E; [reflexivity|].
  rewrite (split_without_sep _ _ E) in H. discriminate.
Qed.

Lemma strptime_date_raises (s : string) (e : PyExn) :
  strptime_date s = Raise e -> is_ValueError e = true.
Proof.
  unfold strptime_date, check_date, unconverted, no_match.
  repeat case_match; intros [= <-]; reflexivity.
Qed.

Lemma strptime_time_raises (s : string) (e : PyExn) :
  strptime_time s = Raise e -> is_ValueError e = true.
Proof.
  unfold strptime_time, unconverted, no_match.
  repeat case_match; intros [= <-]; reflexivity.
Qed.

Lemma unpack2_raises (parts : list string) (e : PyExn) :
  unpack2 parts = Raise e -> is_ValueError e = true.
Proof.
  unfold unpack2. repeat case_match; intros [= <-]; reflexivity.
Qed.

End Availability.

Section CheckAvailability.

Variable self : State.
Variables (query date time : string) (party_size : Z).

(** What the body of the [try] statement can do: it raises nothing but
    [ValueError], and it reports a free table only after the capacity check
    and on a favourable draw. *)
Lemma check_body_outcome (r : Restaurant) (u : float) :
  match check_body r date time party_size u with
  | Raise e => is_ValueError e = true
  | Return a =>
      available a = true ->
      party_size <= seating_capacity r /\ is_available u = true
      /\ a = table_available r date time party_size
  end.
Proof.
  unfold check_body. unfold_exc.
  destruct (strptime_date date) as [d|e] eqn:Hd;
    [|now apply strptime_date_raises in Hd].
  destruct (strptime_time time) as [t|e] eqn:Ht;
    [|now apply strptime_time_raises in Ht].
  destruct (Z.ltb_spec (seating_capacity r) party_size) as [Hcap|Hcap];
    [discriminate|].
  assert (Hrand : available (random_availability r date time party_size u) = true ->
                  party_size <= seating_capacity r /\ is_available u = true
                  /\ random_availability r date time party_size u
                     = table_available r date time party_size).
  { unfold random_availability. destruct (is_available u); [auto | discriminate]. }
  case_bool_decide; [discriminate|].
  destruct (contains "-" _); [|exact Hrand].
  destruct (unpack2 _) as [[o c]|e] eqn:Hu; [|now apply unpack2_raises in Hu].
  destruct (strptime_time o) as [to|e] eqn:Ho;
    [|now apply strptime_time_raises in Ho].
  destruct (strptime_time c) as [tc|e] eqn:Hc;
    [|now apply strptime_time_raises in Hc].
  destruct (_ || _); [discriminate | exact Hrand].
Qed.

(** [check_availability] returns a dictionary on every input: nothing it
    raises escapes its handler. *)
Lemma check_availability_returns (u : float) :
  exists a, check_availability self query date time party_size u = Return a.
Proof.
  unfold check_availability.
  destruct (find_restaurant_by_name self query) as [r|]; [|eauto].
  pose proof (check_body_outcome r u) as H.
  destruct (check_body r date time party_size u) as [a|e]; [eauto|].
  rewrite H. eauto.
Qed.

Lemma check_availability_available (u : float) (a : Availability) :
  check_availability self query date time party_size u = Return a ->
  available a = true ->
  exists r, find_restaurant_by_name self query = Some r
            /\ party_size <= seating_capacity r
            /\ is_available u = true
            /\ a = table_available r date time party_size.
Proof.
  unfold check_availability.
  destruct (find_restaurant_by_name self query) as [r|];
    [|intros [= <-]; discriminate].
  pose proof (check_body_outcome r u) as H.
  destruct (check_body r date time party_size u) as [a'|e].
  - intros [= <-] Ha. exists r. split; [reflexivity | now apply H].
  - rewrite H. intros [= <-]. discriminate.
Qed.

End CheckAvailability.

(** C4. Once the name resolves to a restaurant, date and time parse and the
    party fits the capacity: if the entry of the requested weekday is the
    closed marker, [check_availability] returns the closed-day failure for
    every value of the random draw; if the entry is an interval whose two
    ends parse and the requested time lies outside it, the call returns the
    out-of-hours failure for every value of the draw. *)
Theorem closed_and_hours_before_draw
    (self : State) (query date time : string) (party_size : Z)
    (r : Restaurant) (d : Datetime.date) (t : Datetime.time) :
  find_restaurant_by_name self query = Some r ->
  strptime_date date = Return d ->
  strptime_time time = Return t ->
  party_size <= seating_capacity r ->
  let day_of_week := lower (strftime_A d) in
  (dict_get day_of_week (opening_hours r) = Some "Closed" ->
   forall u, check_availability self query date time party_size u
             = Return (closed r day_of_week))
  /\ (forall hours open_str close_str open_time close_time,
        dict_get day_of_week (opening_hours r) = Some hours ->
        split "-" hours = [open_str; close_str] ->
        strptime_time open_str = Return open_time ->
        strptime_time close_str = Return close_time ->
        time_lt t open_time = true \/ time_lt close_time t = true ->
        forall u, check_availability self query date time party_size u
                  = Return (out_of_hours r day_of_week open_str close_str hours)).
Proof.
  intros Hfind Hd Ht Hcap day. split.
  - intros Hclosed u. unfold check_availability, check_body. unfold_exc.
    rewrite Hfind, Hd, Ht.
    destruct (Z.ltb_spec (seating_capacity r) party_size); [lia|].
    fold day. rewrite bool_decide_eq_true_2 by exact Hclosed. reflexivity.
  - intros hours o c topen tclose Hh Hsplit Ho Hc Hout u.
    unfold check_availability, check_body. unfold_exc.
    rewrite Hfind, Hd, Ht.
    destruct (Z.ltb_spec (seating_capacity r) party_size); [lia|].
    fold day. rewrite Hh. change (default "" (Some hours)) with hours.
    rewrite bool_decide_eq_false_2.
    2:{ intros [= ->]. vm_compute in Hsplit. discriminate. }
    rewrite (split_two_contains _ _ _ _ Hsplit), Hsplit. cbn [unpack2].
    rewrite Ho, Hc.
    replace (time_lt t topen || time_lt tclose t) with true; [reflexivity|].
    symmetry. apply orb_true_iff. exact Hout.
Qed.

Lemma closed_and_hours_before_draw_witness :
  (forall u, check_availability Sample.dm "pasta" "2026-11-02" "19:30" 4 u
             = Return (closed Sample.pasta_paradise "monday"))
  /\ (forall u, check_availability Sample.dm "pasta" "2026-11-03" "23:30" 4 u
                = Return (out_of_hours Sample.pasta_paradise "tuesday"
                            "11:00" "22:00" "11:00-22:00")).
Proof.
  split.
  - refine (proj1 (closed_and_hours_before_draw Sample.dm "pasta" "2026-11-02"
                     "19:30" 4 Sample.pasta_paradise (mkDate 2026 11 2)
                     (mkTime 19 30) _ _ _ _) _);
      first [vm_compute; reflexivity | vm_compute; discriminate].
  - refine (proj2 (closed_and_hours_before_draw Sample.dm "pasta" "2026-11-03"
                     "23:30" 4 Sample.pasta_paradise (mkDate 2026 11 3)
                     (mkTime 23 30) _ _ _ _)
                  "11:00-22:00" "11:00" "22:00" (mkTime 11 0) (mkTime 22 0)
                  _ _ _ _ _);
      first [vm_compute; reflexivity | vm_compute; discriminate
            | right; vm_compute; reflexivity].
Defined.

(** C10. Once the name resolves to a restaurant, date and time parse and the
    party fits the capacity: if the opening hours have no entry for the
    requested weekday, or an entry that is neither the string ["Closed"] nor a
    string with a hyphen in it, [check_availability] skips both the
    closed-day and the opening-hours check and returns what the random draw
    decides, whatever the requested time is. *)
Theorem unrecognised_hours_entry_is_open
    (self : State) (query date time : string) (party_size : Z)
    (r : Restaurant) (d : Datetime.date) (t : Datetime.time) :
  find_restaurant_by_name self query = Some r ->
  strptime_date date = Return d ->
  strptime_time time = Return t ->
  party_size <= seating_capacity r ->
  let day_of_week := lower (strftime_A d) in
  (dict_get day_of_week (opening_hours r) = None
   \/ exists h, dict_get day_of_week (opening_hours r) = Some h
                /\ h <> "Closed" /\ ~ is_substring "-" h) ->
  forall u,
    check_availability self query date time party_size u
    = Return (random_availability r date time party_size u)
    /\ available (random_availability r date time party_size u) = is_available u.
Proof.
  intros Hfind Hd Ht Hcap day Hentry u. split.
  - unfold check_availability, check_body. unfold_exc.
    rewrite Hfind, Hd, Ht.
    destruct (Z.ltb_spec (seating_capacity r) party_size); [lia|].
    fold day. destruct Hentry as [Hnone | (h & Hh & Hne & Hsub)].
    + rewrite Hnone. rewrite bool_decide_eq_false_2 by discriminate. reflexivity.
    + rewrite Hh. change (default "" (Some h)) with h.
      rewrite bool_decide_eq_false_2 by congruence.
      destruct (contains "-" h) eqn:E; [|reflexivity].
      apply contains_spec in E. contradiction.
  - unfold random_availability. now destruct (is_available u).
Qed.

Lemma unrecognised_hours_entry_is_open_witness :
  check_availability Sample.dm "thai" "2026-11-03" "03:15" 2 0.5%float
  = Return (table_available Sample.thai_orchid "2026-11-03" "03:15" 2)
  /\ check_availability Sample.dm "thai" "2026-11-05" "03:15" 2 0.125%float
     = Return (fully_booked Sample.thai_orchid).
Proof.
  split.
  - refine (proj1 (unrecognised_hours_entry_is_open Sample.dm "thai" "2026-11-03"
                     "03:15" 2 Sample.thai_orchid (mkDate 2026 11 3) (mkTime 3 15)
                     _ _ _ _ _ 0.5%float));
      try (vm_compute; first [reflexivity | discriminate]).
    right. exists "closed". split; [vm_compute; reflexivity|].
    split; [discriminate|]. intros H. apply contains_spec in H. discriminate.
  - refine (proj1 (unrecognised_hours_entry_is_open Sample.dm "thai" "2026-11-05"
                     "03:15" 2 Sample.thai_orchid (mkDate 2026 11 5) (mkTime 3 15)
                     _ _ _ _ _ 0.125%float));
      try (vm_compute; first [reflexivity | discriminate]).
    left. vm_compute. reflexivity.
Defined.

(** ** The catalog store: booking *)

(** [make_reservation] returns a dictionary on every input. *)
Lemma make_reservation_returns
    (self : State) (query date time : string) (party_size : Z)
    (uname uphone : PyVal) (w : Outside) :
  exists b self',
    make_reservation self query date time party_size uname uphone w
    = (Return b, self').
Proof.
  unfold make_reservation.
  destruct (check_availability_returns self query date time party_size
              (rnd_random w)) as [av ->].
  destruct (available av); cbn [negb]; eexists _, _; reflexivity.
Qed.

(** C2. [make_reservation] succeeds exactly when the availability check it
    runs on the same arguments reports a free table.  When the check fails,
    the result carries the message of the check and the state is unchanged,
    so no reservation is stored.  When it succeeds, the party size echoed and
    stored is at most the seating capacity of the restaurant the name
    resolved to. *)
Theorem make_reservation_follows_check
    (self : State) (query date time : string) (party_size : Z)
    (uname uphone : PyVal) (w : Outside) :
  exists av b self',
    check_availability self query date time party_size (rnd_random w) = Return av
    /\ make_reservation self query date time party_size uname uphone w
       = (Return b, self')
    /\ success b = available av
    /\ (available av = false -> bk_message b = message av /\ self' = self)
    /\ (available av = true ->
        exists r code rec,
          find_restaurant_by_name self query = Some r
          /\ party_size <= seating_capacity r
          /\ bk_party_size b = Some party_size
          /\ bk_confirmation_code b = Some code
          /\ get_reservation self' code = Some rec
          /\ res_party_size rec = party_size).
Proof.
  destruct (check_availability_returns self query date time party_size
              (rnd_random w)) as [av Hav].
  unfold make_reservation. rewrite Hav.
  destruct (available av) eqn:Ha; cbn [negb].
  - eexists av, _, _. split; [reflexivity|]. split; [reflexivity|].
    split; [now rewrite Ha|]. split; [congruence|]. intros _.
    destruct (check_availability_available _ _ _ _ _ _ _ Hav Ha)
      as (r & Hr & Hcap & _).
    eexists r, _, _. split; [exact Hr|]. split; [exact Hcap|].
    split; [reflexivity|]. split; [reflexivity|].
    split; [apply lookup_insert_eq | reflexivity].
  - eexists av, _, _. split; [reflexivity|]. split; [reflexivity|].
    split; [now rewrite Ha|]. split; [intros _; split; reflexivity | congruence].
Qed.

(** C9. A successful [make_reservation] records the restaurant under the name
    the caller gave: the result echoes that string and the stored reservation
    holds it, whereas the availability check it ran worked on, and reported,
    the name of the catalog record the string resolved to. *)
Theorem reservation_keeps_name_as_given
    (self self' : State) (query date time : string) (party_size : Z)
    (uname uphone : PyVal) (w : Outside) (b : Booking) :
  make_reservation self query date time party_size uname uphone w
  = (Return b, self') ->
  success b = true ->
  bk_restaurant b = PStr query
  /\ (exists code rec,
        bk_confirmation_code b = Some code
        /\ get_reservation self' code = Some rec
        /\ restaurant_name rec = query)
  /\ (exists r av,
        find_restaurant_by_name self query = Some r
        /\ check_availability self query date time party_size (rnd_random w)
           = Return av
        /\ av_restaurant av = Some (name r)).
Proof.
  unfold make_reservation.
  destruct (check_availability self query date time party_size (rnd_random w))
    as [av|e] eqn:Hav; [|discriminate].
  destruct (available av) eqn:Ha; cbn [negb]; intros [= <- <-] Hs;
    [|discriminate].
  split; [reflexivity|]. split.
  - eexists _, _. split; [reflexivity|].
    split; [apply lookup_insert_eq | reflexivity].
  - destruct (check_availability_available _ _ _ _ _ _ _ Hav Ha)
      as (r & Hr & _ & _ & ->).
    exists r, (table_available r date time party_size). auto.
Qed.

Lemma reservation_keeps_name_as_given_witness :
  exists b self',
    make_reservation Sample.dm "pasta" "2026-11-03" "19:30" 4 (PStr "Ann") (PStr "555-0100")
      (Sample.outside 0.5%float 12345) = (Return b, self')
    /\ bk_restaurant b = PStr "pasta"
    /\ find_restaurant_by_name Sample.dm "pasta" = Some Sample.pasta_paradise
    /\ name Sample.pasta_paradise = "Pasta Paradise".
Proof.
  eexists _, _. split; [vm_compute; reflexivity|]. split.
  - refine (proj1 (reservation_keeps_name_as_given Sample.dm _ "pasta"
                     "2026-11-03" "19:30" 4 (PStr "Ann") (PStr "555-0100")
                     (Sample.outside 0.5%float 12345) _ _ _));
      vm_compute; reflexivity.
  - split; vm_compute; reflexivity.
Defined.

(** ** The catalog store: confirmation codes *)

Section ConfirmationCodes.

Lemma call_issued_code (self : State) (c : Call) (code : string) :
  issued_code (call self c).1 = Some code ->
  code = "RS-" +:+ str_of_int (rnd_randint (call_outside c)).
Proof.
  unfold call, make_reservation.
  destruct (check_availability _ _ _ _ _ _) as [av|e]; [|discriminate].
  destruct (available av); cbn; [congruence | discriminate].
Qed.

Lemma call_codes_consistent (self : State) (c : Call) :
  codes_consistent self -> codes_consistent (call self c).2.
Proof.
  unfold call, make_reservation.
  destruct (check_availability _ _ _ _ _ _) as [av|e]; [|auto].
  destruct (available av); cbn [negb snd]; [|auto].
  intros Hself code rec. cbn [reservations].
  rewrite lookup_insert. case_decide as Hcode.
  - intros [= <-]. cbn. exact Hcode.
  - apply Hself.
Qed.

Lemma run_cons (self : State) (c : Call) (cs : list Call) :
  run self (c :: cs)
  = ((call self c).1 :: (run (call self c).2 cs).1, (run (call self c).2 cs).2).
Proof.
  cbn [run]. destruct (call self c) as [b s1]. cbn [fst snd].
  destruct (run s1 cs) as [bs s2]. reflexivity.
Qed.

(** The result at a position of a run is the result of that call in the
    state the run had reached. *)
Lemma run_lookup (cs : list Call) (self : State) (i : nat) (c : Call) (b : Exc Booking) :
  cs !! i = Some c -> (run self cs).1 !! i = Some b ->
  exists self_i, b = (call self_i c).1.
Proof.
  revert self i. induction cs as [|c0 cs IH]; intros self i Hc Hb; [discriminate|].
  rewrite run_cons in Hb. destruct i as [|i]; cbn in Hc, Hb.
  - injection Hc as ->. injection Hb as <-. now exists self.
  - eapply IH; eassumption.
Qed.

Lemma run_codes_consistent (cs : list Call) (self : State) :
  codes_consistent self -> codes_consistent (run self cs).2.
Proof.
  revert self. induction cs as [|c cs IH]; intros self H; [exact H|].
  rewrite run_cons. cbn [snd]. apply IH, call_codes_consistent, H.
Qed.

Lemma code_of_draw_inj (m n : Z) :
  "RS-" +:+ str_of_int m = "RS-" +:+ str_of_int n -> m = n.
Proof.
  intros H. apply (inj (String.app "RS-")) in H.
  unfold str_of_int in H. now apply (inj pretty) in H.
Qed.

End ConfirmationCodes.

(** C1, counterexample.  The same call made twice, with the generator handing
    back the same number both times, books twice under one confirmation
    code; the map then holds a single reservation. *)
Lemma confirmation_code_reissued :
  let c := mkCall "Pasta Paradise" "2026-11-03" "19:30" 4 (PStr "Ann") (PStr "555-0100")
             (Sample.outside 0.5%float 12345) in
  map issued_code (run Sample.dm [c; c]).1 = [Some "RS-12345"; Some "RS-12345"]
  /\ size (reservations (run Sample.dm [c; c]).2) = 1%nat.
Proof. vm_compute. split; reflexivity. Qed.

(** C1, as amended.  In every sequence of calls of [make_reservation], the
    code a successful booking issues is ["RS-"] followed by the number that
    [random.randint(10000, 99999)] returned to that call; the codes of two
    successful bookings are equal exactly when those two numbers are, no
    code being compared with the ones issued before; and every stored
    reservation keeps, as its [confirmation_code], the key it is stored
    under. *)
Theorem confirmation_codes_follow_draws (self : State) (cs : list Call) :
  (forall i c b code,
     cs !! i = Some c -> (run self cs).1 !! i = Some b ->
     issued_code b = Some code ->
     code = "RS-" +:+ str_of_int (rnd_randint (call_outside c)))
  /\ (forall i j ci cj bi bj codei codej,
        cs !! i = Some ci -> cs !! j = Some cj ->
        (run self cs).1 !! i = Some bi -> (run self cs).1 !! j = Some bj ->
        issued_code bi = Some codei -> issued_code bj = Some codej ->
        (codei = codej
         <-> rnd_randint (call_outside ci) = rnd_randint (call_outside cj)))
  /\ (codes_consistent self -> codes_consistent (run self cs).2).
Proof.
  assert (Hcode : forall i c b code,
            cs !! i = Some c -> (run self cs).1 !! i = Some b ->
            issued_code b = Some code ->
            code = "RS-" +:+ str_of_int (rnd_randint (call_outside c))).
  { intros i c b code Hc Hb Hi.
    destruct (run_lookup _ _ _ _ _ Hc Hb) as [s ->].
    now apply call_issued_code in Hi. }
  split; [exact Hcode|]. split.
  - intros i j ci cj bi bj codei codej Hci Hcj Hbi Hbj Hi Hj.
    rewrite (Hcode _ _ _ _ Hci Hbi Hi), (Hcode _ _ _ _ Hcj Hbj Hj). split.
    + apply code_of_draw_inj.
    + intros ->. reflexivity.
  - apply run_codes_consistent.
Qed.

(** ** The tool layer *)

Section ToolLayer.

Lemma positive_integer_unique (v : PyVal) (n n' : Z) :
  positive_integer v n -> positive_integer v n' -> n = n'.
Proof. intros [H _] [H' _]. congruence. Qed.

Lemma infinite_not_positive (v : PyVal) (n : Z) :
  infinite v -> ~ positive_integer v n.
Proof. intros Hi [Hn _]. rewrite (int_infinite _ Hi) in Hn. discriminate. Qed.

Lemma convert_party_size_spec (v : PyVal) :
  match Tools.convert_party_size v with
  | Return (inr n) => positive_integer v n
  | Return (inl err) => (exists msg, err = Tools.RError msg)
                        /\ (forall n, ~ positive_integer v n) /\ ~ infinite v
  | Raise e => infinite v /\ exn_class e = OverflowError
  end.
Proof.
  unfold Tools.convert_party_size, positive_integer.
  destruct (int v) as [n|e] eqn:Hv.
  - destruct (Z.leb_spec n 0).
    + split; [eexists; reflexivity|]. split.
      * intros n' [[= <-] Hpos]. lia.
      * intros Hi. rewrite (int_infinite _ Hi) in Hv. discriminate.
    + split; [reflexivity | lia].
  - destruct (int_raises _ _ Hv) as [[-> Hfin] | (Hi & Hc & ->)].
    + split; [eexists; reflexivity|]. split; [|exact Hfin]. intros n' [[=] _].
    + split; assumption.
Qed.



Lemma convert_infinite (v : PyVal) :
  infinite v ->
  Tools.convert_party_size v
  = Raise (mkExn OverflowError "cannot convert float infinity to integer").
Proof.
  intros Hi. unfold Tools.convert_party_size. now rewrite (int_infinite _ Hi).
Qed.

Lemma split_nonempty (sep : ascii) (s : string) : split sep s <> [].
Proof.
  destruct s as [|c s]; cbn [split]; [discriminate|].
  destruct (Ascii.eqb c sep); [discriminate|].
  destruct (split sep s); discriminate.
Qed.

Lemma bad_format_spec (sep : ascii) (n : nat) (s : string) :
  (1 < n)%nat ->
  Tools.bad_format sep n s = false <-> components sep n s.
Proof.
  intros Hn. unfold Tools.bad_format, components.
  rewrite orb_false_iff, !negb_false_iff, Nat.eqb_eq. split; [tauto|].
  intros H. split; [|exact H]. apply str_truthy_spec. intros ->.
  cbn in H. lia.
Qed.

(** The three ways a format check can go. *)
Lemma well_formed_some (sep : ascii) (n : nat) (s : string) :
  (1 < n)%nat -> components sep n s ->
  Tools.well_formed sep n (PStr s) = Return (Some s).
Proof.
  intros Hn Hs. cbn [Tools.well_formed].
  now rewrite (proj2 (bad_format_spec sep n s Hn) Hs).
Qed.

Lemma well_formed_none (sep : ascii) (n : nat) (v : PyVal) :
  (1 < n)%nat -> ill_formed sep n v -> Tools.well_formed sep n v = Return None.
Proof.
  intros Hn [He | (s & -> & Hs)].
  - unfold empty in He. destruct v as [|b|k|x|s]; cbn [Tools.well_formed];
      rewrite ?He; try reflexivity.
    cbn in He. unfold Tools.bad_format, str_truthy. rewrite He. reflexivity.
  - cbn [Tools.well_formed]. destruct (Tools.bad_format sep n s) eqn:E; [reflexivity|].
    apply (bad_format_spec sep n s Hn) in E. contradiction.
Qed.

Lemma well_formed_raises (sep : ascii) (n : nat) (v : PyVal) :
  not_text v -> Tools.well_formed sep n v = Raise (no_attribute v "split").
Proof.
  intros [Hv Hno]. destruct v as [|b|k|x|s]; cbn [Tools.well_formed];
    rewrite ?Hv; try reflexivity. now destruct (Hno s).
Qed.

Lemma well_formed_cases (sep : ascii) (n : nat) (v : PyVal) :
  (exists s, v = PStr s /\ components sep n s)
  \/ ill_formed sep n v \/ not_text v.
Proof.
  unfold ill_formed, empty, not_text.
  destruct v as [|b|k|x|s].
  5:{ destruct (Nat.eq_dec (length (split sep s)) n) as [H|H]; [left | right; left; right];
        exists s; auto. }
  all: destruct (truthy _) eqn:Hv;
    [right; right; split; [reflexivity | discriminate] | right; left; now left].
Qed.

Lemma ill_formed_not_components (sep : ascii) (n : nat) (s : string) :
  (1 < n)%nat -> ill_formed sep n (PStr s) -> ~ components sep n s.
Proof.
  intros Hn [He | (s' & [= <-] & Hs)]; [|exact Hs].
  unfold empty in He. cbn in He. apply negb_false_iff, String.eqb_eq in He.
  subst s. unfold components. cbn. lia.
Qed.

Lemma ill_formed_not_text (sep : ascii) (n : nat) (v : PyVal) :
  ill_formed sep n v -> ~ not_text v.
Proof.
  intros [He | (s & -> & _)] [Hv Hno]; [unfold empty in He; congruence|].
  now destruct (Hno s).
Qed.

End ToolLayer.

Section Delegation.

Variable dm : State.
Variables (date time : string) (party_size : Z).



(** A booking through a name of any type leaves the state it found, or the
    state the booking under a [str] leaves. *)
Lemma make_reservation_any_state (restaurant_name uname uphone : PyVal) (w : Outside) :
  (make_reservation_any dm restaurant_name date time party_size uname uphone w).2 = dm
  \/ exists query,
       restaurant_name = PStr query
       /\ (make_reservation_any dm restaurant_name date time party_size uname uphone w).2
          = (make_reservation dm query date time party_size uname uphone w).2.
Proof.
  destruct restaurant_name as [|b|k|x|s]; cbn [make_reservation_any].
  5:{ right. now exists s. }
  all: left; destruct (check_availability_any _ _ _ _ _ _); reflexivity.
Qed.

End Delegation.

Section ToolOutcomes.

Variables (restaurant_name date time party_size : PyVal).

(** Every way a call of the tool [check_availability] can go. *)
Lemma tools_check_availability_outcome (dm : State) (u : float) :
  let check := Tools.check_availability dm restaurant_name date time party_size u in
  (infinite party_size
   /\ check = Raise (mkExn OverflowError "cannot convert float infinity to integer"))
  \/ (exists msg, check = Return (Tools.RError msg))
  \/ exists n,
       positive_integer party_size n
       /\ ((not_text date /\ check = Raise (no_attribute date "split"))
           \/ exists d,
                date = PStr d /\ components "-" 3 d
                /\ ((not_text time /\ check = Raise (no_attribute time "split"))
                    \/ exists t,
                         time = PStr t /\ components ":" 2 t
                         /\ check = Tools.RAvailability
                                      <$> check_availability_any dm restaurant_name d t n u)).
Proof.
  cbv zeta. unfold Tools.check_availability. unfold_exc.
  pose proof (convert_party_size_spec party_size) as Hconv.
  destruct (Tools.convert_party_size party_size) as [[err|n]|e] eqn:E.
  - destruct Hconv as [[msg ->] _]. right. left. eauto.
  - right.
    destruct (well_formed_cases "-" 3 date) as [(d & -> & Hd) | [Hd | Hd]].
    + rewrite (well_formed_some "-" 3 _ ltac:(lia) Hd).
      destruct (well_formed_cases ":" 2 time) as [(t & -> & Ht) | [Ht | Ht]].
      * rewrite (well_formed_some ":" 2 _ ltac:(lia) Ht).
        right. exists n. split; [exact Hconv|]. right. exists d.
        repeat split; try assumption. right. exists t. repeat split; assumption.
      * rewrite (well_formed_none ":" 2 _ ltac:(lia) Ht). left. eexists. reflexivity.
      * rewrite (well_formed_raises _ _ _ Ht).
        right. exists n. split; [exact Hconv|]. right. exists d.
        repeat split; try assumption. left. split; [exact Ht | reflexivity].
    + rewrite (well_formed_none "-" 3 _ ltac:(lia) Hd). left. eexists. reflexivity.
    + rewrite (well_formed_raises _ _ _ Hd).
      right. exists n. split; [exact Hconv|]. left. split; [exact Hd | reflexivity].
  - destruct Hconv as [Hi _]. left. split; [exact Hi|].
    rewrite (convert_infinite _ Hi) in E. injection E as <-. reflexivity.
Qed.

Variables (user_name user_phone : PyVal).

(** Every way a call of the tool [make_reservation] can go. *)
Lemma tools_make_reservation_outcome (dm : State) (w : Outside) :
  let book := Tools.make_reservation dm restaurant_name date time party_size
                user_name user_phone w in
  (infinite party_size
   /\ book = (Raise (mkExn OverflowError "cannot convert float infinity to integer"), dm))
  \/ (exists msg, book = (Return (Tools.RError msg), dm))
  \/ exists n,
       positive_integer party_size n /\ ~ empty user_name /\ ~ empty user_phone
       /\ ((not_text date /\ book = (Raise (no_attribute date "split"), dm))
           \/ exists d,
                date = PStr d /\ components "-" 3 d
                /\ ((not_text time /\ book = (Raise (no_attribute time "split"), dm))
                    \/ exists t,
                         time = PStr t /\ components ":" 2 t
                         /\ book
                            = (Tools.RBooking
                                 <$> (make_reservation_any dm restaurant_name d t n
                                        user_name user_phone w).1,
                               (make_reservation_any dm restaurant_name d t n
                                  user_name user_phone w).2))).
Proof.
  cbv zeta. unfold Tools.make_reservation, empty.
  pose proof (convert_party_size_spec party_size) as Hconv.
  destruct (Tools.convert_party_size party_size) as [[err|n]|e] eqn:E.
  - destruct Hconv as [[msg ->] _]. right. left. eauto.
  - right.
    destruct (truthy user_name) eqn:Hun; cbn [negb]; [|left; eexists; reflexivity].
    destruct (truthy user_phone) eqn:Hup; cbn [negb]; [|left; eexists; reflexivity].
    destruct (well_formed_cases "-" 3 date) as [(d & -> & Hd) | [Hd | Hd]].
    + rewrite (well_formed_some "-" 3 _ ltac:(lia) Hd).
      destruct (well_formed_cases ":" 2 time) as [(t & -> & Ht) | [Ht | Ht]].
      * rewrite (well_formed_some ":" 2 _ ltac:(lia) Ht).
        right. exists n. split; [exact Hconv|]. do 2 (split; [discriminate|]).
        right. exists d. repeat split; try assumption. right. exists t.
        repeat split; try assumption.
        destruct (make_reservation_any _ _ _ _ _ _ _ _); reflexivity.
      * rewrite (well_formed_none ":" 2 _ ltac:(lia) Ht). left. eexists. reflexivity.
      * rewrite (well_formed_raises _ _ _ Ht).
        right. exists n. split; [exact Hconv|]. do 2 (split; [discriminate|]).
        right. exists d. repeat split; try assumption.
        left. split; [exact Ht | reflexivity].
    + rewrite (well_formed_none "-" 3 _ ltac:(lia) Hd). left. eexists. reflexivity.
    + rewrite (well_formed_raises _ _ _ Hd).
      right. exists n. split; [exact Hconv|]. do 2 (split; [discriminate|]).
      left. split; [exact Hd | reflexivity].
  - destruct Hconv as [Hi _]. left. split; [exact Hi|].
    rewrite (convert_infinite _ Hi) in E. injection E as <-. reflexivity.
Qed.

End ToolOutcomes.


(** The tools take their arguments as they come: a phone number that is an
    [int] is stored as it is, and a restaurant name that is [None] is not
    found. *)
Example tools_take_values_as_given :
  get_reservation
    (Tools.make_reservation Sample.dm (PStr "pasta") (PStr "2026-11-03")
       (PStr "19:30") (PStr "4") (PStr "Ann") (PInt 5550100)
       (Sample.outside 0.5%float 12345)).2 "RS-12345"
  = Some (mkReservation "RS-12345" "pasta" "2026-11-03" "19:30" 4 (PStr "Ann")
            (PInt 5550100) "2026-11-03T10:00:00")
  /\ Tools.check_availability Sample.dm PNone (PStr "2026-11-03") (PStr "19:30")
       (PInt 4) 0.5%float
     = Return (Tools.RAvailability (not_found "None")).
Proof. split; vm_compute; reflexivity. Qed.


(** ** The orchestrator *)

(** C7. [_execute_tool] answers a name that is not in the registry with the
    error ["Tool '<name>' not found."] and leaves the state of the tools as
    it was, no tool being called.  When the registered tool raises, whatever
    the exception is, the result is the error ["An error occurred while
    trying to execute the <name> action."], which holds nothing of the
    exception.  When the tool returns, its result is passed on. *)
Theorem execute_tool_reports_errors
    (tool_map : gmap string Tools.Tool) (tool_call : Agent.ToolCall)
    (dm : State) (w : Outside) :
  let function_name := Agent.tc_name tool_call in
  (tool_map !! function_name = None ->
   Agent._execute_tool tool_map tool_call dm w
   = (Tools.RError ("Tool '" +:+ function_name +:+ "' not found."), dm))
  /\ (forall tool_function e dm',
        tool_map !! function_name = Some tool_function ->
        tool_function (Agent.tc_args tool_call) dm w = (Raise e, dm') ->
        Agent._execute_tool tool_map tool_call dm w
        = (Tools.RError ("An error occurred while trying to execute the "
                         +:+ function_name +:+ " action."), dm'))
  /\ (forall tool_function result dm',
        tool_map !! function_name = Some tool_function ->
        tool_function (Agent.tc_args tool_call) dm w = (Return result, dm') ->
        Agent._execute_tool tool_map tool_call dm w = (result, dm')).
Proof.
  intros function_name. subst function_name.
  unfold Agent._execute_tool, Tools.Tool in *. cbv zeta.
  repeat split.
  - intros H. rewrite H. reflexivity.
  - intros f e dm' Hf He. rewrite Hf, He. reflexivity.
  - intros f result dm' Hf Hr. rewrite Hf, Hr. reflexivity.
Qed.

(** The registry of [tools.py]: a name it does not hold, and a call of
    [check_availability] that leaves a required argument out. *)
Example execute_tool_unknown_name :
  Agent._execute_tool Tools.TOOL_MAP (Agent.mkToolCall "cancel_reservation" ∅)
    Sample.dm (Sample.outside 0.5%float 12345)
  = (Tools.RError "Tool 'cancel_reservation' not found.", Sample.dm).
Proof. vm_compute. reflexivity. Qed.

Example execute_tool_missing_argument :
  Agent._execute_tool Tools.TOOL_MAP
    (Agent.mkToolCall "check_availability" (delete "time" Sample.args_check))
    Sample.dm (Sample.outside 0.5%float 12345)
  = (Tools.RError
       "An error occurred while trying to execute the check_availability action.",
     Sample.dm).
Proof. vm_compute. reflexivity. Qed.

Example execute_tool_check_availability :
  Agent._execute_tool Tools.TOOL_MAP
    (Agent.mkToolCall "check_availability" Sample.args_check)
    Sample.dm (Sample.outside 0.5%float 12345)
  = (Tools.RAvailability
       (table_available Sample.pasta_paradise "2026-11-03" "19:30" 4),
     Sample.dm).
Proof. vm_compute. reflexivity. Qed.

Section ProcessMessage.

Variable tool_map : gmap string Tools.Tool.
Variable send_message : list Agent.Turn -> string -> Exc (Agent.Response * list Agent.Turn).
Variable json_dumps : Tools.ToolResult -> Exc string.

(** Where an exception that escapes the turn comes from: the first call of
    the model, with nothing logged yet, or a step after the tool ran, with
    its entry in the log. *)
Lemma process_turn_raise (self : Agent.AgentState) (user_message : string)
    (w : Outside) (e : PyExn) (st : Agent.TurnState) :
  Agent.process_turn tool_map send_message json_dumps user_message w
    (Agent.mkTurnState [] self) = (Raise e, st) ->
  (send_message (Agent.history self) user_message = Raise e
   /\ Agent.tool_execution_logs st = [])
  \/ (exists entry, Agent.tool_execution_logs st = [entry]).
Proof.
  unfold Agent.process_turn. cbn [Agent.agent Agent.tool_execution_logs].
  destruct (send_message (Agent.history self) user_message) as [[response h1]|e0].
  - destruct (Agent.scan_response response) as [text [fc|]]; [|discriminate].
    destruct (Agent._execute_tool _ _ _ _) as [tool_result dm'].
    destruct (Agent.serialize json_dumps tool_result) as [serialized|e1].
    + destruct (send_message _ "OK.") as [[follow h3]|e2]; [discriminate|].
      intros [= <- <-]. right. eexists. reflexivity.
    + intros [= <- <-]. right. eexists. reflexivity.
  - intros [= <- <-]. left. split; reflexivity.
Qed.

End ProcessMessage.

(** C8. Whenever an exception escapes the processing of a turn,
    [process_message] does not raise: it returns the technical-difficulties
    message with an empty log.  The exception comes either from the first
    call of the model, when nothing was logged, or from a step after the
    tool ran, and then the entry logged for the tool is dropped from what is
    returned. *)
Theorem process_message_hides_failures
    (tool_map : gmap string Tools.Tool)
    (send_message : list Agent.Turn -> string -> Exc (Agent.Response * list Agent.Turn))
    (json_dumps : Tools.ToolResult -> Exc string)
    (self : Agent.AgentState) (user_message : string) (w : Outside)
    (e : PyExn) (st : Agent.TurnState) :
  Agent.process_turn tool_map send_message json_dumps user_message w
    (Agent.mkTurnState [] self) = (Raise e, st) ->
  Agent.process_message tool_map send_message json_dumps self user_message w
  = ((Agent.technical_difficulties, []), Agent.agent st)
  /\ ((send_message (Agent.history self) user_message = Raise e
       /\ Agent.tool_execution_logs st = [])
      \/ exists entry, Agent.tool_execution_logs st = [entry]).
Proof.
  intros H. split.
  - unfold Agent.process_message. rewrite H. reflexivity.
  - eapply process_turn_raise. exact H.
Qed.

Lemma process_message_hides_failures_witness :
  exists st entry,
    Agent.process_turn Tools.TOOL_MAP Sample.send_then_drop Sample.dumps_stub
      "Is Pasta Paradise free tonight?" (Sample.outside 0.5%float 12345)
      (Agent.mkTurnState [] Sample.agent0) = (Raise Sample.connection_reset, st)
    /\ Agent.tool_execution_logs st = [entry]
    /\ Agent.process_message Tools.TOOL_MAP Sample.send_then_drop Sample.dumps_stub
         Sample.agent0 "Is Pasta Paradise free tonight?"
         (Sample.outside 0.5%float 12345)
       = ((Agent.technical_difficulties, []), Agent.agent st).
Proof.
  eexists _, _. split; [vm_compute; reflexivity|]. split; [reflexivity|].
  refine (proj1 (process_message_hides_failures Tools.TOOL_MAP Sample.send_then_drop
                   Sample.dumps_stub Sample.agent0 "Is Pasta Paradise free tonight?"
                   (Sample.outside 0.5%float 12345) Sample.connection_reset _ _)).
  vm_compute. reflexivity.
Defined.

(** * Further properties of the code *)

(** ** The catalog store: the reservation map *)

(** X1. A booking can be read back: after [make_reservation] succeeds,
    [get_reservation] on the code it issued returns the reservation built
    from the arguments of the call and the time of the clock. *)
Theorem reservation_round_trip
    (self self' : State) (query date time : string) (party_size : Z)
    (uname uphone : PyVal) (w : Outside) (b : Booking) (code : string) :
  make_reservation self query date time party_size uname uphone w
  = (Return b, self') ->
  bk_confirmation_code b = Some code ->
  get_reservation self' code
  = Some (mkReservation code query date time party_size uname uphone (clock_now w)).
Proof.
  unfold make_reservation, get_reservation.
  destruct (check_availability _ _ _ _ _ _) as [av|e]; [|discriminate].
  destruct (available av); cbn [negb]; intros [= <- <-]; [|discriminate].
  cbn. intros [= <-]. apply lookup_insert_eq.
Qed.

Lemma reservation_round_trip_witness :
  get_reservation
    (make_reservation Sample.dm "pasta" "2026-11-03" "19:30" 4 (PStr "Ann") (PStr "555-0100")
       (Sample.outside 0.5%float 12345)).2 "RS-12345"
  = Some (mkReservation "RS-12345" "pasta" "2026-11-03" "19:30" 4 (PStr "Ann") (PStr "555-0100")
            "2026-11-03T10:00:00").
Proof.
  refine (reservation_round_trip Sample.dm _ "pasta" "2026-11-03" "19:30" 4 (PStr "Ann")
            (PStr "555-0100") (Sample.outside 0.5%float 12345) _ "RS-12345" _ _);
    vm_compute; reflexivity.
Defined.

Lemma make_reservation_changes
    (self : State) (query date time : string) (party_size : Z)
    (uname uphone : PyVal) (w : Outside) :
  restaurants (make_reservation self query date time party_size uname uphone w).2
  = restaurants self
  /\ forall code,
       issued_code (make_reservation self query date time party_size uname uphone w).1
       <> Some code ->
       get_reservation
         (make_reservation self query date time party_size uname uphone w).2 code
       = get_reservation self code.
Proof.
  unfold make_reservation, get_reservation.
  destruct (check_availability _ _ _ _ _ _) as [av|e]; [|auto].
  destruct (available av); cbn [negb fst snd]; [|auto].
  split; [reflexivity|]. cbn. intros code Hne.
  apply lookup_insert_ne. congruence.
Qed.

(** X2. [make_reservation] never writes the catalog, and it changes the
    reservation map at most under the code it issues: every other code reads
    as before the call, and a call that does not book changes nothing. *)
Theorem make_reservation_frame
    (self : State) (query date time : string) (party_size : Z)
    (uname uphone : PyVal) (w : Outside) :
  restaurants (make_reservation self query date time party_size uname uphone w).2
  = restaurants self
  /\ (forall code,
        issued_code (make_reservation self query date time party_size uname uphone w).1
        <> Some code ->
        get_reservation
          (make_reservation self query date time party_size uname uphone w).2 code
        = get_reservation self code)
  /\ (issued_code (make_reservation self query date time party_size uname uphone w).1
      = None ->
      (make_reservation self query date time party_size uname uphone w).2 = self).
Proof.
  split; [apply make_reservation_changes|]. split; [apply make_reservation_changes|].
  unfold make_reservation.
  destruct (check_availability _ _ _ _ _ _) as [av|e]; [|reflexivity].
  destruct (available av); cbn [negb fst snd]; [|reflexivity]. discriminate.
Qed.

Section Runs.

Lemma call_round_trip (self : State) (c : Call) (code : string) :
  issued_code (call self c).1 = Some code ->
  get_reservation (call self c).2 code = Some (stored_by c code).
Proof.
  unfold call, make_reservation, get_reservation, stored_by.
  destruct (check_availability _ _ _ _ _ _) as [av|e]; [|discriminate].
  destruct (available av); cbn; [|discriminate].
  intros [= <-]. apply lookup_insert_eq.
Qed.

Lemma call_frame (self : State) (c : Call) (code : string) :
  issued_code (call self c).1 <> Some code ->
  get_reservation (call self c).2 code = get_reservation self code.
Proof. apply make_reservation_changes. Qed.

Lemma call_keeps (self : State) (c : Call) (code : string) :
  is_Some (get_reservation self code) ->
  is_Some (get_reservation (call self c).2 code).
Proof.
  intros H.
  destruct (decide (issued_code (call self c).1 = Some code)) as [Hi|Hi].
  - rewrite (call_round_trip _ _ _ Hi). eauto.
  - now rewrite (call_frame _ _ _ Hi).
Qed.

(** What a lookup finds after a run: the reservation of the last call that
    issued the code or, when no call did, what the map held before. *)
Lemma run_lookup_latest (cs : list Call) (self : State) (code : string) :
  (Forall (fun b => issued_code b <> Some code) (run self cs).1
   /\ get_reservation (run self cs).2 code = get_reservation self code)
  \/ exists i c b,
       cs !! i = Some c /\ (run self cs).1 !! i = Some b
       /\ issued_code b = Some code
       /\ get_reservation (run self cs).2 code = Some (stored_by c code)
       /\ forall j b', (i < j)%nat -> (run self cs).1 !! j = Some b' ->
                       issued_code b' <> Some code.
Proof.
  revert self. induction cs as [|c cs IH]; intros self.
  - left. split; [constructor | reflexivity].
  - rewrite run_cons. cbn [fst snd].
    destruct (IH (call self c).2) as [[Hnone Hsame] | (i & ci & b & Hc & Hb & Hi & Hget & Hlast)].
    + destruct (decide (issued_code (call self c).1 = Some code)) as [H0|H0].
      * right. exists 0%nat, c, (call self c).1. repeat split; try reflexivity.
        -- exact H0.
        -- rewrite Hsame. now apply call_round_trip.
        -- intros [|j] b' Hj Hb'; [lia|]. cbn in Hb'.
           rewrite Forall_forall in Hnone. apply Hnone.
           eapply list_elem_of_lookup_2. exact Hb'.
      * left. split; [now constructor|]. rewrite Hsame. now apply call_frame.
    + right. exists (S i), ci, b. repeat split; try assumption.
      intros [|j] b' Hj Hb'; [lia|]. cbn in Hb'. eapply Hlast; [|exact Hb']. lia.
Qed.

Lemma run_keeps (cs : list Call) (self : State) (code : string) :
  is_Some (get_reservation self code) ->
  is_Some (get_reservation (run self cs).2 code).
Proof.
  revert self. induction cs as [|c cs IH]; intros self H; [exact H|].
  rewrite run_cons. cbn [snd]. apply IH, call_keeps, H.
Qed.

Lemma run_restaurants (cs : list Call) (self : State) :
  restaurants (run self cs).2 = restaurants self.
Proof.
  revert self. induction cs as [|c cs IH]; intros self; [reflexivity|].
  rewrite run_cons. cbn [snd]. rewrite IH. apply make_reservation_changes.
Qed.

End Runs.

(** X3. In a process that starts without reservations, [get_reservation]
    returns, for a code, the reservation of the last call of
    [make_reservation] that issued this code, with the arguments of that
    call: an earlier booking under the same code is no longer found. *)
Theorem lookup_returns_latest_booking
    (catalog : list Restaurant) (cs : list Call) (code : string) (rec : Reservation) :
  get_reservation (run (init catalog) cs).2 code = Some rec ->
  exists i c b,
    cs !! i = Some c /\ (run (init catalog) cs).1 !! i = Some b
    /\ issued_code b = Some code
    /\ rec = stored_by c code
    /\ forall j b', (i < j)%nat -> (run (init catalog) cs).1 !! j = Some b' ->
                    issued_code b' <> Some code.
Proof.
  intros Hrec.
  destruct (run_lookup_latest cs (init catalog) code)
    as [[_ Hsame] | (i & c & b & Hc & Hb & Hi & Hget & Hlast)].
  - rewrite Hsame in Hrec. discriminate.
  - exists i, c, b. repeat split; try assumption. congruence.
Qed.

Lemma lookup_returns_latest_booking_witness :
  exists rec,
    get_reservation
      (run Sample.dm
         [mkCall "pasta" "2026-11-03" "19:30" 4 (PStr "Ann") (PStr "555-0100")
            (Sample.outside 0.5%float 12345);
          mkCall "grill" "2026-11-04" "20:00" 2 (PStr "Bob") (PStr "555-0199")
            (Sample.outside 0.75%float 12345)]).2 "RS-12345" = Some rec
    /\ user_name rec = PStr "Bob" /\ restaurant_name rec = "grill".
Proof.
  eexists. split; [vm_compute; reflexivity|].
  destruct (lookup_returns_latest_booking Sample.catalog
              [mkCall "pasta" "2026-11-03" "19:30" 4 (PStr "Ann") (PStr "555-0100")
                 (Sample.outside 0.5%float 12345);
               mkCall "grill" "2026-11-04" "20:00" 2 (PStr "Bob") (PStr "555-0199")
                 (Sample.outside 0.75%float 12345)]
              "RS-12345" _ ltac:(vm_compute; reflexivity)) as (i & c & b & _).
  split; reflexivity.
Defined.

(** X4. Reservations are never deleted and the catalog is never written:
    after any sequence of calls of [make_reservation], every code that had a
    reservation before still has one, every code issued meanwhile has one,
    and the list of restaurants is the one the sequence started with. *)
Theorem reservations_never_deleted (self : State) (cs : list Call) (code : string) :
  (is_Some (get_reservation self code) ->
   is_Some (get_reservation (run self cs).2 code))
  /\ (forall i b, (run self cs).1 !! i = Some b -> issued_code b = Some code ->
        is_Some (get_reservation (run self cs).2 code))
  /\ restaurants (run self cs).2 = restaurants self.
Proof.
  split; [apply run_keeps|]. split; [|apply run_restaurants].
  intros i b Hb Hi.
  destruct (run_lookup_latest cs self code)
    as [[Hnone _] | (i' & c & b' & _ & _ & _ & Hget & _)].
  - rewrite Forall_forall in Hnone. exfalso.
    eapply Hnone; [|exact Hi]. eapply list_elem_of_lookup_2. exact Hb.
  - rewrite Hget. eauto.
Qed.

(** ** The catalog store: the form of a confirmation code *)

Section CodeForm.

Lemma pretty_five_digits (n : N) :
  (10000 <= n <= 99999)%N -> String.length (pretty n) = 5%nat.
Proof.
  intros Hn. unfold pretty, pretty_N.
  destruct (decide (n = 0%N)) as [->|_]; [lia|].
  assert (H1 : (1000 <= n / 10 <= 9999)%N).
  { split; [apply N.div_le_lower_bound; lia|].
    apply N.lt_succ_r, N.Div0.div_lt_upper_bound; lia. }
  assert (H2 : (100 <= n / 10 / 10 <= 999)%N).
  { split; [apply N.div_le_lower_bound; lia|].
    apply N.lt_succ_r, N.Div0.div_lt_upper_bound; lia. }
  assert (H3 : (10 <= n / 10 / 10 / 10 <= 99)%N).
  { split; [apply N.div_le_lower_bound; lia|].
    apply N.lt_succ_r, N.Div0.div_lt_upper_bound; lia. }
  assert (H4 : (1 <= n / 10 / 10 / 10 / 10 <= 9)%N).
  { split; [apply N.div_le_lower_bound; lia|].
    apply N.lt_succ_r, N.Div0.div_lt_upper_bound; lia. }
  assert (H5 : (n / 10 / 10 / 10 / 10 / 10 = 0)%N).
  { apply N.div_small. lia. }
  rewrite !pretty_N_go_step by lia. rewrite H5, pretty_N_go_0. reflexivity.
Qed.

End CodeForm.

(** X5. When [random.randint(10000, 99999)] hands back a number of its
    range, the confirmation code of a successful booking has eight
    characters: ["RS-"] and five more. *)
Theorem confirmation_code_form
    (self self' : State) (query date time : string) (party_size : Z)
    (uname uphone : PyVal) (w : Outside) (b : Booking) (code : string) :
  10000 <= rnd_randint w <= 99999 ->
  make_reservation self query date time party_size uname uphone w
  = (Return b, self') ->
  bk_confirmation_code b = Some code ->
  exists digits, code = "RS-" +:+ digits /\ String.length digits = 5%nat.
Proof.
  intros Hk. unfold make_reservation.
  destruct (check_availability _ _ _ _ _ _) as [av|e]; [|discriminate].
  destruct (available av); cbn [negb]; intros [= <- <-]; [|discriminate].
  cbn. intros [= <-]. eexists. split; [reflexivity|].
  unfold str_of_int, pretty, pretty_Z.
  destruct (rnd_randint w) as [|p|p]; try lia.
  apply (pretty_five_digits (Npos p)). lia.
Qed.

Lemma confirmation_code_form_witness :
  exists digits, "RS-12345" = "RS-" +:+ digits /\ String.length digits = 5%nat.
Proof.
  refine (confirmation_code_form Sample.dm _ "pasta" "2026-11-03" "19:30" 4 (PStr "Ann")
            (PStr "555-0100") (Sample.outside 0.5%float 12345) _ "RS-12345" _ _ _);
    first [vm_compute; reflexivity | cbn; lia].
Defined.

(** ** The catalog store: the results of the availability check *)

(** X6. [check_availability] returns one of seven dictionaries and nothing
    else: restaurant not found; invalid format, after a [ValueError]; party
    over capacity; closed that day; outside the opening hours; table
    available; fully booked.  The last two come only after date and time
    parsed, the party fitted the capacity and the day was not marked closed;
    which of the two is for the random draw alone to decide. *)
Theorem check_availability_cases
    (self : State) (query date time : string) (party_size : Z) (u : float) :
  exists a,
    check_availability self query date time party_size u = Return a
    /\ ((find_restaurant_by_name self query = None /\ a = not_found query)
        \/ exists r,
             find_restaurant_by_name self query = Some r
             /\ ((exists e, is_ValueError e = true /\ a = invalid_format e query)
                 \/ (seating_capacity r < party_size
                     /\ a = capacity_exceeded r party_size)
                 \/ (exists day, a = closed r day)
                 \/ (exists day open_str close_str hours,
                       a = out_of_hours r day open_str close_str hours)
                 \/ (exists d t,
                       strptime_date date = Return d
                       /\ strptime_time time = Return t
                       /\ party_size <= seating_capacity r
                       /\ dict_get (lower (strftime_A d)) (opening_hours r)
                          <> Some "Closed"
                       /\ a = (if is_available u
                               then table_available r date time party_size
                               else fully_booked r)))).
Proof.
  unfold check_availability.
  destruct (find_restaurant_by_name self query) as [r|]; [|eauto].
  assert (Hbody :
    match check_body r date time party_size u with
    | Raise e => is_ValueError e = true
    | Return a =>
        (seating_capacity r < party_size /\ a = capacity_exceeded r party_size)
        \/ (exists day, a = closed r day)
        \/ (exists day open_str close_str hours,
              a = out_of_hours r day open_str close_str hours)
        \/ (exists d t,
              strptime_date date = Return d
              /\ strptime_time time = Return t
              /\ party_size <= seating_capacity r
              /\ dict_get (lower (strftime_A d)) (opening_hours r) <> Some "Closed"
              /\ a = (if is_available u
                      then table_available r date time party_size
                      else fully_booked r))
    end).
  { unfold check_body. unfold_exc.
    destruct (strptime_date date) as [d|e] eqn:Hd;
      [|now apply strptime_date_raises in Hd].
    destruct (strptime_time time) as [t|e] eqn:Ht;
      [|now apply strptime_time_raises in Ht].
    destruct (Z.ltb_spec (seating_capacity r) party_size) as [Hcap|Hcap];
      [left; auto|].
    case_bool_decide as Hclosed; [right; left; eauto|].
    assert (Hdraw :
      exists d0 t0,
        Return d = Return d0 /\ Return t = Return t0
        /\ party_size <= seating_capacity r
        /\ dict_get (lower (strftime_A d0)) (opening_hours r) <> Some "Closed"
        /\ random_availability r date time party_size u
           = (if is_available u then table_available r date time party_size
              else fully_booked r)) by (exists d, t; auto).
    destruct (contains "-" _); [|do 3 right; exact Hdraw].
    destruct (unpack2 _) as [[o c]|e] eqn:Hu; [|now apply unpack2_raises in Hu].
    destruct (strptime_time o) as [to|e] eqn:Ho;
      [|now apply strptime_time_raises in Ho].
    destruct (strptime_time c) as [tc|e] eqn:Hc;
      [|now apply strptime_time_raises in Hc].
    destruct (_ || _); [right; right; left; eauto 10 | do 3 right; exact Hdraw]. }
  destruct (check_body r date time party_size u) as [a|e].
  - exists a. split; [reflexivity|]. right. exists r. split; [reflexivity|].
    right. exact Hbody.
  - rewrite Hbody. eexists. split; [reflexivity|]. right. exists r.
    split; [reflexivity|]. left. eauto.
Qed.

(** X7. Once the name resolves, a date or a time that [strptime] rejects
    gives the invalid-format result whatever the party size, the opening
    hours and the draw are; its message carries the text of the exception,
    and its ["restaurant"] entry is the name as the caller gave it, not the
    name of the record. *)
Theorem invalid_format_names_query
    (self : State) (query date time : string) (r : Restaurant) (e : PyExn) :
  find_restaurant_by_name self query = Some r ->
  strptime_date date = Raise e
  \/ (exists d, strptime_date date = Return d) /\ strptime_time time = Raise e ->
  forall party_size u,
    check_availability self query date time party_size u
    = Return (mkAvailability false
                ("Invalid date or time format: " +:+ exn_text e)
                (Some query) None None None None).
Proof.
  intros Hfind Hparse party_size u.
  unfold check_availability, check_body. unfold_exc. rewrite Hfind.
  destruct Hparse as [Hd | [[d Hd] Ht]].
  - rewrite Hd, (strptime_date_raises _ _ Hd). reflexivity.
  - rewrite Hd, Ht, (strptime_time_raises _ _ Ht). reflexivity.
Qed.

Lemma invalid_format_names_query_witness :
  check_availability Sample.dm "pasta" "2026-02-30" "19:30" 500 0.5%float
  = Return (mkAvailability false
              "Invalid date or time format: day is out of range for month"
              (Some "pasta") None None None None)
  /\ check_availability Sample.dm "pasta" "2026-11-03" "7pm" 4 0.5%float
     = Return (mkAvailability false
                 "Invalid date or time format: time data '7pm' does not match format '%H:%M'"
                 (Some "pasta") None None None None).
Proof.
  split.
  - refine (invalid_format_names_query Sample.dm "pasta" "2026-02-30" "19:30"
              Sample.pasta_paradise
              (mkExn ValueError "day is out of range for month") _ _ 500 0.5%float);
      [vm_compute; reflexivity | left; vm_compute; reflexivity].
  - refine (invalid_format_names_query Sample.dm "pasta" "2026-11-03" "7pm"
              Sample.pasta_paradise
              (mkExn ValueError "time data '7pm' does not match format '%H:%M'")
              _ _ 4 0.5%float);
      [vm_compute; reflexivity
      | right; split; [eexists|]; vm_compute; reflexivity].
Defined.

(** X8. Once the name resolves and date and time parse, a party larger than
    the seating capacity is turned down with the capacity message, on an
    open day as on a closed one and whatever the draw is: the capacity is
    checked before the opening hours. *)
Theorem capacity_checked_before_hours
    (self : State) (query date time : string) (party_size : Z)
    (r : Restaurant) (d : Datetime.date) (t : Datetime.time) :
  find_restaurant_by_name self query = Some r ->
  strptime_date date = Return d ->
  strptime_time time = Return t ->
  seating_capacity r < party_size ->
  forall u,
    check_availability self query date time party_size u
    = Return (mkAvailability false
                ("Party size of " +:+ str_of_int party_size
                 +:+ " exceeds the maximum capacity of "
                 +:+ str_of_int (seating_capacity r) +:+ ".")
                (Some (name r)) None None None None).
Proof.
  intros Hfind Hd Ht Hcap u.
  unfold check_availability, check_body. unfold_exc. rewrite Hfind, Hd, Ht.
  destruct (Z.ltb_spec (seating_capacity r) party_size); [reflexivity | lia].
Qed.

Lemma capacity_checked_before_hours_witness :
  check_availability Sample.dm "pasta" "2026-11-02" "19:30" 41 0.5%float
  = Return (mkAvailability false
              "Party size of 41 exceeds the maximum capacity of 40."
              (Some "Pasta Paradise") None None None None).
Proof.
  refine (capacity_checked_before_hours Sample.dm "pasta" "2026-11-02" "19:30" 41
            Sample.pasta_paradise (mkDate 2026 11 2) (mkTime 19 30) _ _ _ _
            0.5%float);
    first [vm_compute; reflexivity | cbn; lia].
Defined.

(** X9. The opening hours are a closed interval: once the name resolves,
    date and time parse and the party fits, a time that is neither before
    the opening time nor after the closing time, the two ends included,
    passes the hours check, and the draw decides. *)
Theorem opening_hours_inclusive
    (self : State) (query date time : string) (party_size : Z)
    (r : Restaurant) (d : Datetime.date) (t : Datetime.time)
    (hours open_str close_str : string) (open_time close_time : Datetime.time) :
  find_restaurant_by_name self query = Some r ->
  strptime_date date = Return d ->
  strptime_time time = Return t ->
  party_size <= seating_capacity r ->
  dict_get (lower (strftime_A d)) (opening_hours r) = Some hours ->
  split "-" hours = [open_str; close_str] ->
  strptime_time open_str = Return open_time ->
  strptime_time close_str = Return close_time ->
  time_lt t open_time = false ->
  time_lt close_time t = false ->
  forall u,
    check_availability self query date time party_size u
    = Return (if is_available u then table_available r date time party_size
              else fully_booked r).
Proof.
  intros Hfind Hd Ht Hcap Hh Hsplit Ho Hc Hlo Hhi.
  intros u. unfold check_availability, check_body. unfold_exc.
  rewrite Hfind, Hd, Ht.
  destruct (Z.ltb_spec (seating_capacity r) party_size); [lia|].
  rewrite Hh. change (default "" (Some hours)) with hours.
  rewrite bool_decide_eq_false_2.
  2:{ intros [= ->]. vm_compute in Hsplit. discriminate. }
  rewrite (split_two_contains _ _ _ _ Hsplit), Hsplit. cbn [unpack2].
  rewrite Ho, Hc, Hlo, Hhi. reflexivity.
Qed.

Lemma opening_hours_inclusive_witness :
  check_availability Sample.dm "pasta" "2026-11-03" "11:00" 4 0.5%float
  = Return (table_available Sample.pasta_paradise "2026-11-03" "11:00" 4)
  /\ check_availability Sample.dm "pasta" "2026-11-03" "22:00" 4 0.5%float
     = Return (table_available Sample.pasta_paradise "2026-11-03" "22:00" 4).
Proof.
  split.
  - refine (opening_hours_inclusive Sample.dm "pasta" "2026-11-03" "11:00" 4
              Sample.pasta_paradise (mkDate 2026 11 3) (mkTime 11 0)
              "11:00-22:00" "11:00" "22:00" (mkTime 11 0) (mkTime 22 0)
              _ _ _ _ _ _ _ _ _ _ 0.5%float);
      vm_compute; first [reflexivity | discriminate].
  - refine (opening_hours_inclusive Sample.dm "pasta" "2026-11-03" "22:00" 4
              Sample.pasta_paradise (mkDate 2026 11 3) (mkTime 22 0)
              "11:00-22:00" "11:00" "22:00" (mkTime 11 0) (mkTime 22 0)
              _ _ _ _ _ _ _ _ _ _ 0.5%float);
      vm_compute; first [reflexivity | discriminate].
Defined.

(** X10. An opening-hours entry with a hyphen in it that is no interval (it
    splits at hyphens into more than two parts, or one of its two parts is
    no time of day) makes every request for that weekday fail with the
    invalid-format result, as if the caller's date or time were at fault,
    whatever the requested time and the draw are. *)
Theorem malformed_hours_entry
    (self : State) (query date time : string) (party_size : Z)
    (r : Restaurant) (d : Datetime.date) (t : Datetime.time) (hours : string) :
  find_restaurant_by_name self query = Some r ->
  strptime_date date = Return d ->
  strptime_time time = Return t ->
  party_size <= seating_capacity r ->
  dict_get (lower (strftime_A d)) (opening_hours r) = Some hours ->
  (2 < length (split "-" hours))%nat
  \/ (exists open_str close_str,
        split "-" hours = [open_str; close_str]
        /\ ((exists e, strptime_time open_str = Raise e)
            \/ (exists e, strptime_time close_str = Raise e))) ->
  forall u, exists e,
    check_availability self query date time party_size u
    = Return (invalid_format e query).
Proof.
  intros Hfind Hd Ht Hcap Hh Hbad u.
  assert (Hcontains : contains "-" hours = true).
  { destruct (contains "-" hours) eqn:E; [reflexivity|].
    apply split_without_sep in E.
    destruct Hbad as [Hlen | (o & c & Hs & _)];
      [rewrite E in Hlen; cbn in Hlen; lia | congruence]. }
  assert (Hne : hours <> "Closed").
  { intros ->. vm_compute in Hcontains. discriminate. }
  unfold check_availability, check_body. unfold_exc.
  rewrite Hfind, Hd, Ht.
  destruct (Z.ltb_spec (seating_capacity r) party_size); [lia|].
  rewrite Hh. change (default "" (Some hours)) with hours.
  rewrite bool_decide_eq_false_2 by congruence. rewrite Hcontains.
  destruct Hbad as [Hlen | (o & c & Hs & Hparse)].
  - destruct (split "-" hours) as [|a [|b [|c parts]]]; cbn in Hlen; try lia.
    cbn. eexists. reflexivity.
  - rewrite Hs. cbn [unpack2].
    destruct (strptime_time o) as [to|e] eqn:Ho.
    + destruct Hparse as [[e He]|[e He]]; [discriminate|].
      rewrite He, (strptime_time_raises _ _ He). eexists. reflexivity.
    + rewrite (strptime_time_raises _ _ Ho). eexists. reflexivity.
Qed.

Lemma malformed_hours_entry_witness :
  exists e,
    check_availability
      (init [mkRestaurant (SInt 9) "Split Shift" "Tapas" "Old Town" "9 Quay" 30
               [("tuesday", "12:00-15:00-18:00")] (SInt 4) "Lunch and dinner" None])
      "split shift" "2026-11-03" "13:00" 2 0.5%float
    = Return (invalid_format e "split shift").
Proof.
  refine (malformed_hours_entry _ "split shift" "2026-11-03" "13:00" 2
            (mkRestaurant (SInt 9) "Split Shift" "Tapas" "Old Town" "9 Quay" 30
               [("tuesday", "12:00-15:00-18:00")] (SInt 4) "Lunch and dinner" None)
            (mkDate 2026 11 3) (mkTime 13 0) "12:00-15:00-18:00"
            _ _ _ _ _ _ 0.5%float);
    [idtac .. | left; vm_compute; lia];
    first [vm_compute; reflexivity | vm_compute; discriminate].
Defined.

(** ** The catalog store: more on lookup and search *)

Section Lookup.

Lemma str_truthy_lower (s : string) : str_truthy (lower s) = str_truthy s.
Proof. destruct s; reflexivity. Qed.

Lemma sort_by_ext {A} (k k' : A -> Z) (l : list A) :
  (forall x, k x = k' x) -> sort_by k l = sort_by k' l.
Proof.
  intros H. induction l as [|x l IH]; [reflexivity|].
  cbn [sort_by]. rewrite IH. generalize (sort_by k' l). intros m.
  induction m as [|y m IHm]; [reflexivity|].
  cbn [insert_by]. rewrite !H, IHm. reflexivity.
Qed.

Lemma filter_elem {A} (f : A -> bool) (l : list A) (x : A) :
  x ∈ List.filter f l -> x ∈ l /\ f x = true.
Proof.
  rewrite !list_elem_of_In. apply filter_In.
Qed.

End Lookup.

(** X11. The lookup by name ignores the case of the query: two queries of
    the same length with the same lower-case form find the same record, or
    both none. *)
Theorem find_restaurant_by_name_ignores_case (self : State) (q q' : string) :
  lower q = lower q' ->
  String.length q = String.length q' ->
  find_restaurant_by_name self q = find_restaurant_by_name self q'.
Proof.
  intros H Hlen. unfold find_restaurant_by_name.
  rewrite <- (str_truthy_lower q), <- (str_truthy_lower q'), H.
  destruct (str_truthy (lower q')); [|reflexivity]. cbn [negb].
  destruct (List.find _ _); [reflexivity|].
  assert (Hsort : forall l, sort_by (name_distance q) l = sort_by (name_distance q') l).
  { intros l. apply sort_by_ext. intros r. unfold name_distance, len.
    rewrite Hlen. reflexivity. }
  rewrite Hsort. reflexivity.
Qed.

Lemma find_restaurant_by_name_ignores_case_witness :
  find_restaurant_by_name Sample.dm "THAI ORCHID"
  = find_restaurant_by_name Sample.dm "thai orchid".
Proof.
  apply (find_restaurant_by_name_ignores_case Sample.dm "THAI ORCHID" "thai orchid");
    vm_compute; reflexivity.
Defined.

(** X12. The lookup by name finds nothing for the empty query, even in a
    catalog with a record whose name is empty, and nothing in an empty
    catalog; a record it finds is a record of the catalog whose lower-cased
    name contains the lower-cased query. *)
Theorem find_restaurant_by_name_edges (self : State) (query : string) :
  find_restaurant_by_name self "" = None
  /\ (restaurants self = [] -> find_restaurant_by_name self query = None)
  /\ (forall r, find_restaurant_by_name self query = Some r ->
        query <> "" /\ r ∈ restaurants self
        /\ is_substring (lower query) (lower (name r))).
Proof.
  split; [reflexivity|]. split.
  - intros Hempty. unfold find_restaurant_by_name. rewrite Hempty.
    destruct (negb (str_truthy query)); reflexivity.
  - intros r Hr.
    assert (Hq : query <> "").
    { intros ->. discriminate. }
    split; [exact Hq|].
    pose proof (find_restaurant_by_name_unfold self query Hq) as Hu.
    rewrite Hu in Hr. clear Hu.
    destruct (List.find _ (restaurants self)) as [r0|] eqn:Hfind.
    + injection Hr as ->. apply find_some in Hfind as [Hin Heq].
      split; [now apply list_elem_of_In|].
      apply String.eqb_eq in Heq. rewrite Heq.
      apply contains_spec, contains_refl.
    + pose proof (sort_by_head (name_distance query)
                    (List.filter (fun r => contains (lower query) (lower (name r)))
                       (restaurants self))) as Hs.
      rewrite Hr in Hs. destruct Hs as (l1 & l2 & Hl & _).
      assert (Hin : r ∈ List.filter
                      (fun r => contains (lower query) (lower (name r)))
                      (restaurants self)).
      { rewrite Hl. apply elem_of_app. right. apply elem_of_cons. now left. }
      apply filter_elem in Hin as [Hin Hc].
      split; [exact Hin | now apply contains_spec].
Qed.

Section SearchMore.

Lemma get_restaurants_filter (self : State) (c : Criteria) (l : list Restaurant) :
  get_restaurants self (Some c) = Return l ->
  searchable c /\ l = List.filter (every_test c) (restaurants self).
Proof.
  intros H.
  destruct (get_restaurants_outcome self c) as [[Hs Hr] | [_ (e & He & _)]];
    [|congruence].
  split; [exact Hs | congruence].
Qed.

Lemma get_restaurants_searchable (self : State) (c : Criteria) :
  searchable c ->
  get_restaurants self (Some c) = Return (List.filter (every_test c) (restaurants self)).
Proof.
  intros H.
  destruct (get_restaurants_outcome self c) as [[_ Hr] | [Hn _]];
    [exact Hr | contradiction].
Qed.

Lemma filter_comm {A} (f g : A -> bool) (l : list A) :
  List.filter f (List.filter g l) = List.filter g (List.filter f l).
Proof.
  rewrite !filter_filter. apply filter_ext. intros x. apply andb_comm.
Qed.

Lemma filter_idem {A} (f : A -> bool) (l : list A) :
  List.filter f (List.filter f l) = List.filter f l.
Proof.
  rewrite filter_filter. apply filter_ext. intros x. now destruct (f x).
Qed.

(** A stage that lower-cases its value does the same for two values with
    the same lower-case form. *)
Lemma by_string_lowered (a b : option PyVal) (ok : string -> Restaurant -> bool)
    (rs : list Restaurant) :
  lower_val <$> a = lower_val <$> b -> by_string a ok rs = by_string b ok rs.
Proof.
  destruct a as [x|], b as [y|]; cbn; intros H; try discriminate; [|reflexivity].
  injection H as H. unfold by_string.
  destruct x as [| | | |q], y as [| | | |q']; cbn in H; try discriminate;
    try (injection H as ->); try reflexivity.
  injection H as H. cbn [truthy lower_of].
  change (negb (String.eqb q "")) with (str_truthy q).
  change (negb (String.eqb q' "")) with (str_truthy q').
  rewrite <- (str_truthy_lower q), <- (str_truthy_lower q'), H. reflexivity.
Qed.

End SearchMore.

(** X13. The search ignores the case of its string criteria: two criteria
    sets with the same party size whose cuisine, location and text have the
    same lower-case forms return the same list, or raise alike. *)
Theorem get_restaurants_ignores_case (self : State) (c c' : Criteria) :
  lower_val <$> c_cuisine c = lower_val <$> c_cuisine c' ->
  lower_val <$> c_location c = lower_val <$> c_location c' ->
  lower_val <$> c_text c = lower_val <$> c_text c' ->
  c_party_size c = c_party_size c' ->
  get_restaurants self (Some c) = get_restaurants self (Some c').
Proof.
  intros Hc Hl Ht Hp.
  unfold get_restaurants, by_cuisine, by_location, by_text, by_party_size.
  unfold_exc. rewrite Hp.
  rewrite (by_string_lowered _ _ cuisine_ok (restaurants self) Hc).
  destruct (by_string (c_cuisine c') _ _) as [rs1|e]; [|reflexivity].
  rewrite (by_string_lowered _ _ location_ok rs1 Hl).
  destruct (by_string (c_location c') _ _) as [rs2|e]; [|reflexivity].
  destruct (match c_party_size c' with Some _ => _ | None => _ end) as [rs3|e];
    [|reflexivity].
  apply (by_string_lowered _ _ text_ok rs3 Ht).
Qed.

Lemma get_restaurants_ignores_case_witness :
  get_restaurants Sample.dm
    (Some (mkCriteria (Some (PStr "THAI")) (Some (PStr "midTOWN")) None None))
  = get_restaurants Sample.dm
      (Some (mkCriteria (Some (PStr "thai")) (Some (PStr "Midtown")) None None)).
Proof.
  apply (get_restaurants_ignores_case Sample.dm
           (mkCriteria (Some (PStr "THAI")) (Some (PStr "midTOWN")) None None)
           (mkCriteria (Some (PStr "thai")) (Some (PStr "Midtown")) None None));
    vm_compute; reflexivity.
Defined.

(** X14. Searches refine one another: when two searches return, searching
    the result of one by the criteria of the other gives the same list
    whichever of the two is applied first, and searching a result again by
    the criteria that produced it changes nothing. *)
Theorem get_restaurants_refines
    (self : State) (c1 c2 : Criteria) (m1 m2 : gmap string Reservation)
    (l1 l2 : list Restaurant) :
  get_restaurants self (Some c1) = Return l1 ->
  get_restaurants self (Some c2) = Return l2 ->
  (exists l,
     get_restaurants (mkState l1 m1) (Some c2) = Return l
     /\ get_restaurants (mkState l2 m2) (Some c1) = Return l)
  /\ get_restaurants (mkState l1 m1) (Some c1) = Return l1.
Proof.
  intros H1 H2.
  apply get_restaurants_filter in H1 as [Hs1 ->], H2 as [Hs2 ->].
  rewrite !get_restaurants_searchable by assumption. cbn [restaurants].
  split.
  - eexists. split; [reflexivity|]. f_equal. apply filter_comm.
  - f_equal. apply filter_idem.
Qed.

Lemma get_restaurants_refines_witness :
  get_restaurants (mkState [Sample.paradise_grill; Sample.thai_orchid] ∅)
    (Some (mkCriteria (Some (PStr "thai")) None None None))
  = Return [Sample.thai_orchid]
  /\ get_restaurants (mkState [Sample.thai_orchid] ∅)
       (Some (mkCriteria None (Some (PStr "midtown")) None None))
     = Return [Sample.thai_orchid].
Proof.
  destruct (get_restaurants_refines Sample.dm
              (mkCriteria None (Some (PStr "midtown")) None None)
              (mkCriteria (Some (PStr "thai")) None None None) ∅ ∅
              [Sample.paradise_grill; Sample.thai_orchid] [Sample.thai_orchid]
              ltac:(vm_compute; reflexivity) ltac:(vm_compute; reflexivity))
    as [(l & Ha & Hb) _].
  assert (El : l = [Sample.thai_orchid]).
  { assert (E : get_restaurants (mkState [Sample.thai_orchid] ∅)
                  (Some (mkCriteria None (Some (PStr "midtown")) None None))
                = Return [Sample.thai_orchid]) by (vm_compute; reflexivity).
    rewrite E in Hb. now injection Hb as <-. }
  subst l. split; assumption.
Defined.

(** ** The tool layer: search and details *)

Section ToolSearch.

Lemma by_string_keep (x : PyVal) (ok : string -> Restaurant -> bool)
    (rs : list Restaurant) :
  by_string (Tools.keep x) ok rs = by_string (Some x) ok rs.
Proof.
  unfold Tools.keep, by_string. destruct (truthy x) eqn:Hx; [|reflexivity].
  now rewrite Hx.
Qed.

(** Leaving a value that is false in a condition out of the criteria, as the
    tool does, changes nothing. *)
Lemma criteria_keep (dm : State) (cuisine location party_size text : PyVal) :
  get_restaurants dm
    (Some (mkCriteria (Tools.keep cuisine) (Tools.keep location)
             (Tools.keep party_size) (Tools.keep text)))
  = get_restaurants dm
      (Some (mkCriteria (Some cuisine) (Some location) (Some party_size) (Some text))).
Proof.
  unfold get_restaurants, by_cuisine, by_location, by_text, by_party_size.
  cbn [c_cuisine c_location c_party_size c_text]. unfold_exc.
  rewrite by_string_keep.
  destruct (by_string (Some cuisine) _ _) as [rs1|e]; [|reflexivity].
  rewrite by_string_keep.
  destruct (by_string (Some location) _ _) as [rs2|e]; [|reflexivity].
  assert (Hp : match Tools.keep party_size with
               | Some v =>
                   if truthy v
                   then match int v with
                        | Return n => Return (List.filter (fun r => n <=? seating_capacity r) rs2)
                        | Raise e => if is_ValueError e || is_TypeError e then Return rs2 else Raise e
                        end
                   else Return rs2
               | None => Return rs2
               end
               = (if truthy party_size
                  then match int party_size with
                       | Return n => Return (List.filter (fun r => n <=? seating_capacity r) rs2)
                       | Raise e => if is_ValueError e || is_TypeError e then Return rs2 else Raise e
                       end
                  else Return rs2)).
  { unfold Tools.keep. destruct (truthy party_size) eqn:Hx; [|reflexivity].
    now rewrite Hx. }
  rewrite Hp.
  destruct (if truthy party_size then _ else _) as [rs3|e]; [|reflexivity].
  apply by_string_keep.
Qed.

(** Setting keys that capitalise to fresh names appends them in order. *)
Lemma dict_set_fresh {V} (k : string) (v : V) (d : list (string * V)) :
  k ∉ map fst d -> dict_set k v d = d ++ [(k, v)].
Proof.
  induction d as [|[k' v'] d IH]; [reflexivity|].
  cbn [map fst]. rewrite not_elem_of_cons. intros [Hne Hd].
  cbn [dict_set]. apply String.eqb_neq in Hne. rewrite Hne, (IH Hd). reflexivity.
Qed.

Lemma hours_display_fold (l acc : list (string * string)) :
  NoDup (map fst acc ++ map (fun e => capitalize e.1) l) ->
  fold_left (fun acc '(day, hours) => dict_set (capitalize day) hours acc) l acc
  = acc ++ map (fun e => (capitalize e.1, e.2)) l.
Proof.
  revert acc. induction l as [|[day hours] l IH]; intros acc Hnd.
  - cbn. now rewrite app_nil_r.
  - cbn [fold_left map fst snd]. cbn [map fst] in Hnd.
    rewrite dict_set_fresh.
    2:{ apply NoDup_app in Hnd as (_ & Hdisj & _). intros Hin.
        apply (Hdisj _ Hin). apply elem_of_cons. now left. }
    rewrite IH.
    + rewrite <- app_assoc. reflexivity.
    + rewrite map_app. cbn [map fst]. rewrite <- app_assoc. exact Hnd.
Qed.

End ToolSearch.

(** X15. The tool [list_restaurants] answers with the summaries of exactly
    the records the catalog store's search returns for the cuisine, location,
    party size and text it was given, in that order, and with their number
    as the count, and it raises what the search raises; the date and the
    time it accepts have no influence on the answer, and nothing is
    written. *)
Theorem list_restaurants_projects_search
    (dm : State) (cuisine location party_size date time text : PyVal) :
  Tools.list_restaurants dm cuisine location party_size date time text
  = (fun rs => Tools.RRestaurants (Z.of_nat (length rs)) (map Tools.summary rs))
      <$> get_restaurants dm
            (Some (mkCriteria (Some cuisine) (Some location) (Some party_size)
                     (Some text)))
  /\ forall date' time',
       Tools.list_restaurants dm cuisine location party_size date' time' text
       = Tools.list_restaurants dm cuisine location party_size date time text.
Proof.
  split; [|reflexivity].
  unfold Tools.list_restaurants. cbv zeta. rewrite criteria_keep.
  destruct (get_restaurants dm _) as [rs|e]; [|reflexivity].
  cbn. now rewrite length_map.
Qed.

(** X16. The tool [get_restaurant_details], given a string, reports a miss
    with the message that quotes the name given; on a hit it returns the
    fields of the record the lookup found and, when no two weekday keys of
    the record capitalise to the same string, its opening hours entry by
    entry in the same order, each key capitalised. *)
Theorem get_restaurant_details_result (dm : State) (restaurant_name : string) :
  (find_restaurant_by_name dm restaurant_name = None ->
   Tools.get_restaurant_details dm (PStr restaurant_name)
   = Return (Tools.RNotFound ("Restaurant '" +:+ restaurant_name +:+ "' not found.")))
  /\ (forall r,
        find_restaurant_by_name dm restaurant_name = Some r ->
        NoDup (map (fun e => capitalize e.1) (opening_hours r)) ->
        Tools.get_restaurant_details dm (PStr restaurant_name)
        = Return (Tools.RFound
            (Tools.mkDetails (id r) (name r) (cuisine r) (location r) (address r)
               (seating_capacity r)
               (map (fun e => (capitalize e.1, e.2)) (opening_hours r))
               (rating r) (description r)))).
Proof.
  unfold Tools.get_restaurant_details. cbn [find_restaurant_by_name_any].
  unfold_exc. split.
  - intros ->. reflexivity.
  - intros r -> Hnd. cbv zeta. rewrite hours_display_fold; [reflexivity | exact Hnd].
Qed.

Example get_restaurant_details_colliding_keys :
  Tools.get_restaurant_details
    (init [mkRestaurant (SInt 7) "Twice" "Fusion" "Harbour" "1 Pier" 10
             [("monday", "09:00-12:00"); ("tuesday", "Closed"); ("Monday", "13:00-17:00")]
             (SInt 3) "Two entries for one day" None]) (PStr "twice")
  = Return (Tools.RFound
      (Tools.mkDetails (SInt 7) "Twice" "Fusion" "Harbour" "1 Pier" 10
         [("Monday", "13:00-17:00"); ("Tuesday", "Closed")]
         (SInt 3) "Two entries for one day")).
Proof. vm_compute. reflexivity. Qed.

(** A name that is no string: [None] is not found, a number raises. *)
Example get_restaurant_details_no_string :
  Tools.get_restaurant_details Sample.dm PNone
  = Return (Tools.RNotFound "Restaurant 'None' not found.")
  /\ Tools.get_restaurant_details Sample.dm (PInt 7)
     = Raise (mkExn AttributeError "'int' object has no attribute 'lower'").
Proof. split; vm_compute; reflexivity. Qed.

(** ** The tool layer: what the structural checks let through *)

Section Structure.

Lemma split_length (sep : ascii) (s : string) :
  length (split sep s) = S (count_char sep s).
Proof.
  induction s as [|c s IH]; [reflexivity|].
  cbn [split count_char]. destruct (Ascii.eqb c sep).
  - cbn [length]. now rewrite IH.
  - pose proof (split_nonempty sep s) as Hne.
    destruct (split sep s) as [|w ws]; [contradiction|]. cbn in *. exact IH.
Qed.

End Structure.

(** X17. The format checks of the tools count separators and nothing else:
    a date passes exactly when it has two hyphens, a time exactly when it
    has one colon, whatever stands between them. *)
Theorem format_checks_count_separators (date time : string) :
  (Tools.bad_format "-" 3 date = false <-> count_char "-" date = 2%nat)
  /\ (Tools.bad_format ":" 2 time = false <-> count_char ":" time = 1%nat).
Proof.
  split.
  - rewrite (bad_format_spec "-" 3 date) by lia.
    unfold components. rewrite split_length. lia.
  - rewrite (bad_format_spec ":" 2 time) by lia.
    unfold components. rewrite split_length. lia.
Qed.

(** X18. A date that passes the format check of the tool and is no calendar
    date is turned down by the catalog store: for a known restaurant the
    tool [check_availability] then returns the store's unavailable result
    with the invalid-format message, a dictionary without an ["error"]
    entry. *)
Theorem uncalendar_date_reaches_store
    (dm : State) (restaurant_name date time : string) (party_size : PyVal)
    (n : Z) (r : Restaurant) (e : PyExn) :
  positive_integer party_size n ->
  count_char "-" date = 2%nat ->
  count_char ":" time = 1%nat ->
  find_restaurant_by_name dm restaurant_name = Some r ->
  strptime_date date = Raise e ->
  forall u,
    Tools.check_availability dm (PStr restaurant_name) (PStr date) (PStr time)
      party_size u
    = Return (Tools.RAvailability (invalid_format e restaurant_name)).
Proof.
  intros [Hint Hpos] Hd Ht Hfind Hparse u.
  assert (Hd' : Tools.bad_format "-" 3 date = false).
  { apply bad_format_spec; [lia|]. unfold components. rewrite split_length. lia. }
  assert (Ht' : Tools.bad_format ":" 2 time = false).
  { apply bad_format_spec; [lia|]. unfold components. rewrite split_length. lia. }
  unfold Tools.check_availability, Tools.convert_party_size, Tools.well_formed.
  unfold_exc.
  rewrite Hint. destruct (Z.leb_spec n 0); [lia|]. rewrite Hd', Ht'.
  unfold check_availability_any, DataManager.check_availability, check_body.
  unfold_exc.
  rewrite Hfind, Hparse, (strptime_date_raises _ _ Hparse). reflexivity.
Qed.

Lemma uncalendar_date_reaches_store_witness :
  Tools.check_availability Sample.dm (PStr "thai") (PStr "next-fri-day")
    (PStr "19:30") (PStr "2") 0.5%float
  = Return (Tools.RAvailability
              (invalid_format
                 (mkExn ValueError
                    "time data 'next-fri-day' does not match format '%Y-%m-%d'")
                 "thai")).
Proof.
  refine (uncalendar_date_reaches_store Sample.dm "thai" "next-fri-day" "19:30"
            (PStr "2") 2 Sample.thai_orchid _ _ _ _ _ _ 0.5%float);
    first [vm_compute; reflexivity | split; [vm_compute; reflexivity | lia]].
Defined.

(** ** The tool layer: the registry and the schemas *)

Section Registry.

Lemma TOOL_MAP_lookup (function_name : string) :
  Tools.TOOL_MAP !! function_name =
  if decide ("list_restaurants" = function_name)
  then Some Tools.call_list_restaurants
  else if decide ("get_restaurant_details" = function_name)
  then Some Tools.call_get_restaurant_details
  else if decide ("check_availability" = function_name)
  then Some Tools.call_check_availability
  else if decide ("make_reservation" = function_name)
  then Some Tools.call_make_reservation
  else None.
Proof.
  unfold Tools.TOOL_MAP, Tools.Tool. rewrite !lookup_insert, lookup_empty.
  reflexivity.
Qed.

Lemma make_reservation_keeps
    (self : State) (query date time : string) (party_size : Z)
    (uname uphone : PyVal) (w : Outside) (code : string) :
  is_Some (get_reservation self code) ->
  is_Some (get_reservation
             (make_reservation self query date time party_size uname uphone w).2
             code).
Proof.
  apply (call_keeps self (mkCall query date time party_size uname uphone w)).
Qed.

(** What a booking changes in the reservation map: nothing under a code it
    did not issue, and under the code it issued the map holds a
    reservation. *)
Lemma make_reservation_code
    (self : State) (query date time : string) (party_size : Z)
    (uname uphone : PyVal) (w : Outside) (code : string) :
  let out := make_reservation self query date time party_size uname uphone w in
  get_reservation out.2 code = get_reservation self code
  \/ exists b, out.1 = Return b /\ success b = true
               /\ bk_confirmation_code b = Some code
               /\ is_Some (get_reservation out.2 code).
Proof.
  cbv zeta.
  set (c := mkCall query date time party_size uname uphone w).
  change (make_reservation self query date time party_size uname uphone w)
    with (call self c).
  destruct (decide (issued_code (call self c).1 = Some code)) as [Hi|Hi].
  - right. pose proof (call_round_trip _ _ _ Hi) as Hget.
    unfold issued_code in Hi.
    destruct (call self c).1 as [b|e]; [|discriminate].
    destruct (success b) eqn:Hs; [|discriminate].
    exists b. rewrite Hget. eauto.
  - left. now apply call_frame.
Qed.

(** The tool [make_reservation] changes the state as the catalog store's
    [make_reservation] does, or not at all. *)
Lemma tools_make_reservation_state
    (dm : State) (restaurant_name date time party_size user_name user_phone : PyVal)
    (w : Outside) :
  let out := Tools.make_reservation dm restaurant_name date time party_size
               user_name user_phone w in
  out.2 = dm
  \/ exists query d t n,
       out = (Tools.RBooking
                <$> (DataManager.make_reservation dm query d t n
                       user_name user_phone w).1,
              (DataManager.make_reservation dm query d t n
                 user_name user_phone w).2).
Proof.
  cbv zeta.
  destruct (tools_make_reservation_outcome restaurant_name date time party_size
              user_name user_phone dm w)
    as [[_ H] | [[msg H] | (n & _ & _ & _ & [[_ H] | (d & _ & _ & [[_ H] | (t & _ & _ & H)])])]];
    cbv zeta in H; rewrite H; cbn [snd]; try (now left).
  destruct restaurant_name as [|b|k|x|query]; cbn [make_reservation_any].
  5:{ right. now exists query, d, t, n. }
  all: left; destruct (check_availability_any _ _ _ _ _ _); reflexivity.
Qed.

(** The tool [make_reservation] called through the registry. *)
Lemma call_make_reservation_state (args : Tools.Args) (dm : State) (w : Outside) :
  (Tools.call_make_reservation args dm w).2 = dm
  \/ exists query d t n uname uphone,
       Tools.call_make_reservation args dm w
       = (Tools.RBooking
            <$> (DataManager.make_reservation dm query d t n uname uphone w).1,
          (DataManager.make_reservation dm query d t n uname uphone w).2).
Proof.
  unfold Tools.call_make_reservation. cbv zeta.
  destruct (Tools.check_keywords _ _ _ _) as [[]|e]; [|now left].
  destruct (tools_make_reservation_state dm (Tools.bound "restaurant_name" args)
              (Tools.bound "date" args) (Tools.bound "time" args)
              (Tools.bound "party_size" args) (Tools.bound "user_name" args)
              (Tools.bound "user_phone" args) w)
    as [H | (query & d & t & n & H)]; cbv zeta in H; [now left|].
  right. eexists query, d, t, n, _, _. exact H.
Qed.

Lemma settle_state (function_name : string) (outcome : Exc Tools.ToolResult * State) :
  (settle function_name outcome).2 = outcome.2.
Proof. destruct outcome as [[r|e] dm']; reflexivity. Qed.

Lemma execute_tool_settle (tool_call : Agent.ToolCall) (dm : State) (w : Outside) :
  Agent._execute_tool Tools.TOOL_MAP tool_call dm w =
  match Tools.TOOL_MAP !! Agent.tc_name tool_call with
  | None => (Agent.tool_not_found (Agent.tc_name tool_call), dm)
  | Some tool_function =>
      settle (Agent.tc_name tool_call) (tool_function (Agent.tc_args tool_call) dm w)
  end.
Proof. reflexivity. Qed.

(** A call through the registry leaves the state as it was, or is a call of
    [make_reservation] that reached the catalog store: its result and the
    state it leaves are those of the store's [make_reservation]. *)
Lemma execute_tool_state (tool_call : Agent.ToolCall) (dm : State) (w : Outside) :
  (Agent._execute_tool Tools.TOOL_MAP tool_call dm w).2 = dm
  \/ (Agent.tc_name tool_call = "make_reservation"
      /\ exists query d t n uname uphone,
           Agent._execute_tool Tools.TOOL_MAP tool_call dm w
           = settle "make_reservation"
               (Tools.RBooking
                  <$> (DataManager.make_reservation dm query d t n uname uphone w).1,
                (DataManager.make_reservation dm query d t n uname uphone w).2)).
Proof.
  rewrite execute_tool_settle.
  pose proof (TOOL_MAP_lookup (Agent.tc_name tool_call)) as Hl.
  unfold Tools.Tool in *. rewrite Hl. clear Hl.
  repeat case_decide; rewrite ?settle_state; try (now left).
  destruct (call_make_reservation_state (Agent.tc_args tool_call) dm w)
    as [Hs | (q & d & t & n & un & up & Hs)]; [now left|].
  right. split; [congruence|]. exists q, d, t, n, un, up.
  rewrite Hs. congruence.
Qed.

End Registry.

(** X19. Of the tools of the registry only [make_reservation] writes: a
    call of any other name, known or unknown, well-formed or not, leaves the
    state of the catalog store as it was.  No call at all changes the
    catalog, and a call changes the reservation map under one code at most,
    the code of the booking it returns, which then has a reservation: every
    code that had a reservation still has one. *)
Theorem only_make_reservation_writes
    (tool_call : Agent.ToolCall) (dm : State) (w : Outside) :
  let out := Agent._execute_tool Tools.TOOL_MAP tool_call dm w in
  (Agent.tc_name tool_call <> "make_reservation" -> out.2 = dm)
  /\ restaurants out.2 = restaurants dm
  /\ (forall code,
        get_reservation out.2 code = get_reservation dm code
        \/ exists b, out.1 = Tools.RBooking b /\ success b = true
                     /\ bk_confirmation_code b = Some code
                     /\ is_Some (get_reservation out.2 code))
  /\ (forall code,
        is_Some (get_reservation dm code) -> is_Some (get_reservation out.2 code)).
Proof.
  cbv zeta.
  destruct (execute_tool_state tool_call dm w)
    as [Hs | (Hname & q & d & t & n & un & up & Hs)]; rewrite Hs.
  - auto.
  - split; [congruence|].
    rewrite settle_state. cbn [snd]. split; [apply make_reservation_changes|].
    split.
    + intros code.
      destruct (make_reservation_code dm q d t n un up w code)
        as [H | (b & Hb & Hsucc & Hcode & Hsome)]; cbv zeta in *; [now left|].
      right. exists b. rewrite Hb. cbn. auto.
    + intros code. apply make_reservation_keeps.
Qed.

Section Schemas.

Lemma find_none_all {A} (f : A -> bool) (l : list A) :
  (forall x, In x l -> f x = false) -> List.find f l = None.
Proof.
  induction l as [|x l IH]; [reflexivity|]. intros H. cbn [List.find].
  rewrite (H x) by now left. apply IH. intros y Hy. apply H. now right.
Qed.

Lemma filter_nil_all {A} (f : A -> bool) (l : list A) :
  (forall x, In x l -> f x = false) -> List.filter f l = [].
Proof.
  induction l as [|x l IH]; [reflexivity|]. intros H. cbn [List.filter].
  rewrite (H x) by now left. apply IH. intros y Hy. apply H. now right.
Qed.

Lemma check_keywords_ok (f : string) (params needed : list string) (args : Tools.Args) :
  (forall k, is_Some (args !! k) -> In k params) ->
  (forall k, In k needed -> is_Some (args !! k)) ->
  Tools.check_keywords f params needed args = Return tt.
Proof.
  intros Hknown Hneeded. unfold Tools.check_keywords.
  rewrite find_none_all.
  - rewrite filter_nil_all; [reflexivity|].
    intros k Hk. apply negb_false_iff, bool_decide_eq_true_2, Hneeded, Hk.
  - intros k Hk. apply negb_false_iff, existsb_exists.
    exists k. split; [|apply String.eqb_refl].
    apply Hknown. apply in_map_iff in Hk as [[k' v] [<- Hkv]].
    apply list_elem_of_In, elem_of_map_to_list in Hkv. cbn. eauto.
Qed.

Lemma bound_some (k : string) (args : Tools.Args) (v : PyVal) :
  args !! k = Some v -> Tools.bound k args = v.
Proof. intros H. unfold Tools.bound. now rewrite H. Qed.

(** A parameter of a conforming call is bound to [None], when it is left
    out, or to a value of the type its schema names. *)
Lemma bound_string (k : string) (args : Tools.Args) :
  (forall v, args !! k = Some v -> exists s, v = PStr s) ->
  Tools.bound k args = PNone \/ exists s, Tools.bound k args = PStr s.
Proof.
  intros Hstr. unfold Tools.bound.
  destruct (args !! k) as [v|]; [|now left].
  destruct (Hstr v eq_refl) as [s ->]. right. now exists s.
Qed.

Lemma bound_integer (k : string) (args : Tools.Args) :
  (forall v, args !! k = Some v -> is_integer v) ->
  Tools.bound k args = PNone \/ is_integer (Tools.bound k args).
Proof.
  intros Hint. unfold Tools.bound.
  destruct (args !! k) as [v|]; [|now left]. right. now apply Hint.
Qed.

(** [int] converts an integer. *)
Lemma int_integer (v : PyVal) : is_integer v -> exists n, int v = Return n.
Proof.
  destruct v as [|b|n|x|s]; cbn [is_integer int]; try contradiction; [eauto|].
  unfold int_of_float. destruct (Prim2SF x); try contradiction; eauto.
Qed.

Lemma integer_not_infinite (v : PyVal) : is_integer v -> ~ infinite v.
Proof.
  intros Hv Hi. destruct (int_integer v Hv) as [n Hn].
  rewrite (int_infinite v Hi) in Hn. discriminate.
Qed.

(** The tools return on strings and an integer party size. *)
Lemma tools_list_restaurants_returns
    (dm : State) (cuisine location party_size date time text : PyVal) :
  (cuisine = PNone \/ exists s, cuisine = PStr s) ->
  (location = PNone \/ exists s, location = PStr s) ->
  (text = PNone \/ exists s, text = PStr s) ->
  (party_size = PNone \/ is_integer party_size) ->
  exists result,
    Tools.list_restaurants dm cuisine location party_size date time text
    = Return result.
Proof.
  intros Hc Hl Ht Hp. unfold Tools.list_restaurants. cbv zeta.
  assert (Hkeep : forall x, (x = PNone \/ exists s, x = PStr s) ->
            forall v, supplied (Tools.keep x) v -> exists q, v = PStr q).
  { intros x Hx v [Hk Hv]. unfold Tools.keep in Hk.
    destruct (truthy x) eqn:E; [|discriminate]. injection Hk as <-.
    destruct Hx as [-> | Hx]; [discriminate | exact Hx]. }
  rewrite get_restaurants_searchable; [unfold_exc; eauto|].
  repeat split; cbn [c_cuisine c_location c_party_size c_text]; try (now apply Hkeep).
  intros v [Hk Hv]. unfold Tools.keep in Hk.
  destruct (truthy party_size) eqn:E; [|discriminate]. injection Hk as <-.
  destruct Hp as [-> | Hp]; [discriminate | now apply integer_not_infinite].
Qed.

Lemma tools_check_availability_returns
    (dm : State) (restaurant_name date time : string) (party_size : PyVal) (u : float) :
  is_integer party_size ->
  exists result,
    Tools.check_availability dm (PStr restaurant_name) (PStr date) (PStr time)
      party_size u = Return result.
Proof.
  intros Hp.
  destruct (tools_check_availability_outcome (PStr restaurant_name) (PStr date)
              (PStr time) party_size dm u)
    as [[Hi _] | [[msg H] | (n & _ & [[[_ Hd] _] | (d & _ & _ & [[[_ Ht] _] | (t & _ & _ & H)])])]];
    cbv zeta in *.
  - now destruct (integer_not_infinite _ Hp).
  - eauto.
  - now destruct (Hd date).
  - now destruct (Ht time).
  - rewrite H. cbn [check_availability_any].
    destruct (check_availability_returns dm restaurant_name d t n u) as [a ->].
    eexists. reflexivity.
Qed.

Lemma tools_make_reservation_returns
    (dm : State) (restaurant_name date time : string)
    (party_size user_name user_phone : PyVal) (w : Outside) :
  is_integer party_size ->
  exists result dm',
    Tools.make_reservation dm (PStr restaurant_name) (PStr date) (PStr time)
      party_size user_name user_phone w = (Return result, dm').
Proof.
  intros Hp.
  destruct (tools_make_reservation_outcome (PStr restaurant_name) (PStr date)
              (PStr time) party_size user_name user_phone dm w)
    as [[Hi _] | [[msg H] | (n & _ & _ & _ & [[[_ Hd] _] | (d & _ & _ & [[[_ Ht] _] | (t & _ & _ & H)])])]];
    cbv zeta in *.
  - now destruct (integer_not_infinite _ Hp).
  - eauto.
  - now destruct (Hd date).
  - now destruct (Ht time).
  - rewrite H. cbn [make_reservation_any].
    destruct (make_reservation_returns dm restaurant_name d t n
                user_name user_phone w) as (b & dm' & ->).
    eexists _, _. reflexivity.
Qed.

End Schemas.

(** Unfolds what it means for [args] to conform to a schema given in full:
    the known keywords, the required ones, the keywords bound to strings
    and the party size bound to an integer. *)
Ltac use_schema Hc Hknown Hneeded Hstr Hint params :=
  destruct Hc as [Hprops Hneeded]; cbn in Hprops, Hneeded;
  assert (Hknown : forall k, is_Some (_ !! k) -> In k params)
    by (intros k [v Hv]; destruct (Hprops k v Hv) as (p & Hp & <- & _);
        cbn; intuition (subst; cbn; auto 10));
  assert (Hstr : forall k, In k params -> k <> "party_size" ->
                   forall v, _ !! k = Some v -> exists s, v = PStr s)
    by (intros k Hk Hne v Hv; destruct (Hprops k v Hv) as (p & Hp & <- & Hty & _);
        apply Hty; intuition (subst; cbn in *; congruence));
  assert (Hint : forall v, _ !! "party_size" = Some v -> is_integer v)
    by (intros v Hv; destruct (Hprops "party_size" v Hv) as (p & Hp & Hn & _ & Hty);
        apply Hty; intuition (subst; cbn in *; congruence)).

(** X20. The schemas advertised to the model and the registry agree: the
    names of the schemas are the names the registry holds, and a call whose
    arguments conform to the schema of its tool (no keyword outside the
    schema, every required one present, strings where the schema says
    string, an integer where it says integer) is bound to the tool's
    parameters and returns the tool's result: it never ends in the error
    that [_execute_tool] reports for a tool that raised. *)
Theorem schema_conforming_call_executes
    (function_name : string) (args : Tools.Args) (dm : State) (w : Outside) :
  (is_Some (Tools.TOOL_MAP !! function_name)
   <-> In function_name (map Tools.schema_name Tools.TOOL_SCHEMAS))
  /\ (forall sc,
        In sc Tools.TOOL_SCHEMAS -> Tools.schema_name sc = function_name ->
        conforms sc args ->
        exists tool_function result dm',
          Tools.TOOL_MAP !! function_name = Some tool_function
          /\ tool_function args dm w = (Return result, dm')
          /\ Agent._execute_tool Tools.TOOL_MAP
               (Agent.mkToolCall function_name args) dm w = (result, dm')).
Proof.
  split.
  - rewrite TOOL_MAP_lookup. cbn.
    repeat case_decide; subst; (split; [intros Hs | intros Hi]);
      try (eauto; fail); try tauto.
    destruct Hs as [? Hx]. discriminate Hx.
  - intros sc Hsc Hname Hc.
    assert (Hcall : exists tool_function result dm',
              Tools.TOOL_MAP !! function_name = Some tool_function
              /\ tool_function args dm w = (Return result, dm')).
    { cbn in Hsc. destruct Hsc as [<-|[<-|[<-|[<-|[]]]]]; cbn in Hname; subst function_name.
      - set (params := ["cuisine"; "location"; "party_size"; "date"; "time"; "text"]).
        use_schema Hc Hknown Hneeded Hstr Hint params.
        exists Tools.call_list_restaurants. unfold Tools.call_list_restaurants.
        cbv zeta. fold params. rewrite (check_keywords_ok _ params [] args Hknown)
          by (intros k []).
        destruct (tools_list_restaurants_returns dm
                    (Tools.bound "cuisine" args) (Tools.bound "location" args)
                    (Tools.bound "party_size" args) (Tools.bound "date" args)
                    (Tools.bound "time" args) (Tools.bound "text" args))
          as [result Hr];
          try (apply bound_string, Hstr; [cbn; tauto | discriminate]).
        { apply bound_integer, Hint. }
        exists result, dm. split; [reflexivity|]. unfold_exc. rewrite Hr. reflexivity.
      - set (params := ["restaurant_name"]).
        use_schema Hc Hknown Hneeded Hstr Hint params.
        exists Tools.call_get_restaurant_details.
        unfold Tools.call_get_restaurant_details. cbv zeta. fold params.
        rewrite (check_keywords_ok _ params params args Hknown Hneeded).
        destruct (Hneeded "restaurant_name") as [v1 H1]; [cbn; tauto|].
        destruct (Hstr "restaurant_name" ltac:(cbn; tauto) ltac:(discriminate) v1 H1)
          as [s1 ->].
        rewrite (bound_some _ _ _ H1).
        unfold Tools.get_restaurant_details. cbn [find_restaurant_by_name_any].
        unfold_exc.
        destruct (find_restaurant_by_name dm s1); eexists _, _; split; reflexivity.
      - set (params := ["restaurant_name"; "date"; "time"; "party_size"]).
        use_schema Hc Hknown Hneeded Hstr Hint params.
        exists Tools.call_check_availability.
        unfold Tools.call_check_availability. cbv zeta. fold params.
        rewrite (check_keywords_ok _ params params args Hknown Hneeded).
        destruct (Hneeded "restaurant_name") as [v1 H1]; [cbn; tauto|].
        destruct (Hstr "restaurant_name" ltac:(cbn; tauto) ltac:(discriminate) v1 H1)
          as [s1 ->].
        destruct (Hneeded "date") as [v2 H2]; [cbn; tauto|].
        destruct (Hstr "date" ltac:(cbn; tauto) ltac:(discriminate) v2 H2) as [s2 ->].
        destruct (Hneeded "time") as [v3 H3]; [cbn; tauto|].
        destruct (Hstr "time" ltac:(cbn; tauto) ltac:(discriminate) v3 H3) as [s3 ->].
        destruct (Hneeded "party_size") as [v4 H4]; [cbn; tauto|].
        rewrite (bound_some _ _ _ H1), (bound_some _ _ _ H2), (bound_some _ _ _ H3),
          (bound_some _ _ _ H4).
        destruct (tools_check_availability_returns dm s1 s2 s3 v4 (rnd_random w)
                    (Hint v4 H4)) as [result Hr].
        exists result, dm. split; [reflexivity|]. unfold_exc. rewrite Hr. reflexivity.
      - set (params := ["restaurant_name"; "date"; "time"; "party_size";
                        "user_name"; "user_phone"]).
        use_schema Hc Hknown Hneeded Hstr Hint params.
        exists Tools.call_make_reservation.
        unfold Tools.call_make_reservation. cbv zeta. fold params.
        rewrite (check_keywords_ok _ params params args Hknown Hneeded).
        destruct (Hneeded "restaurant_name") as [v1 H1]; [cbn; tauto|].
        destruct (Hstr "restaurant_name" ltac:(cbn; tauto) ltac:(discriminate) v1 H1)
          as [s1 ->].
        destruct (Hneeded "date") as [v2 H2]; [cbn; tauto|].
        destruct (Hstr "date" ltac:(cbn; tauto) ltac:(discriminate) v2 H2) as [s2 ->].
        destruct (Hneeded "time") as [v3 H3]; [cbn; tauto|].
        destruct (Hstr "time" ltac:(cbn; tauto) ltac:(discriminate) v3 H3) as [s3 ->].
        destruct (Hneeded "party_size") as [v4 H4]; [cbn; tauto|].
        rewrite (bound_some _ _ _ H1), (bound_some _ _ _ H2), (bound_some _ _ _ H3),
          (bound_some _ _ _ H4).
        destruct (tools_make_reservation_returns dm s1 s2 s3 v4
                    (Tools.bound "user_name" args) (Tools.bound "user_phone" args) w
                    (Hint v4 H4)) as (result & dm' & Hr).
        exists result, dm'. split; [reflexivity|]. exact Hr. }
    destruct Hcall as (tool_function & result & dm' & Hl & Hr).
    exists tool_function, result, dm'. split; [exact Hl|]. split; [exact Hr|].
    unfold Agent._execute_tool. cbv zeta. cbn [Agent.tc_name Agent.tc_args].
    unfold Tools.Tool in *. rewrite Hl, Hr. reflexivity.
Qed.

(** ** The orchestrator: what a turn returns *)

Section Turn.

Variable tool_map : gmap string Tools.Tool.
Variable send_message : list Agent.Turn -> string -> Exc (Agent.Response * list Agent.Turn).
Variable json_dumps : Tools.ToolResult -> Exc string.

Lemma append_assoc (a b c : string) : (a +:+ b) +:+ c = a +:+ b +:+ c.
Proof.
  induction a as [|x a IH]; [reflexivity|]. rewrite !append_cons. now rewrite IH.
Qed.

Lemma append_nil_r (a : string) : a +:+ "" = a.
Proof.
  induction a as [|x a IH]; [reflexivity|]. rewrite append_cons. now rewrite IH.
Qed.

(** The loop over the parts: the first function call with a name ends it and
    drops the text; without one the texts add up. *)
Lemma scan_parts_spec (ps : list Agent.Part) (text : string) :
  (Forall (fun p => forall fc, ~ named_call p fc) ps ->
   Agent.scan_parts ps text = (text +:+ concat_texts ps, None))
  /\ (forall before p after fc,
        ps = before ++ p :: after ->
        Forall (fun p => forall fc, ~ named_call p fc) before ->
        named_call p fc ->
        Agent.scan_parts ps text = ("", Some fc)).
Proof.
  revert text. induction ps as [|p ps IH]; intros text.
  - split; [intros _; cbn; now rewrite append_nil_r|].
    intros [|] ? ? ? ?; discriminate.
  - split.
    + intros Hall. inversion Hall as [|? ? Hp Hps]; subst.
      cbn [Agent.scan_parts concat_texts fold_right].
      fold (concat_texts ps).
      destruct (Agent.part_function_call p) as [fc|] eqn:Hfc.
      * destruct (str_truthy (Agent.fc_name fc)) eqn:Hn.
        { exfalso. apply (Hp fc). split; [exact Hfc | now apply str_truthy_spec]. }
        destruct (Agent.part_text p) as [t|];
          rewrite (proj1 (IH _) Hps);
          [change (default "" (Some t)) with t; now rewrite append_assoc
          | reflexivity].
      * destruct (Agent.part_text p) as [t|];
          rewrite (proj1 (IH _) Hps);
          [change (default "" (Some t)) with t; now rewrite append_assoc
          | reflexivity].
    + intros before p0 after fc Hsplit Hbefore [Hfc Hname].
      destruct before as [|q before]; cbn in Hsplit; injection Hsplit as -> ->.
      * cbn [Agent.scan_parts]. rewrite Hfc.
        apply str_truthy_spec in Hname. rewrite Hname. reflexivity.
      * inversion Hbefore as [|? ? Hq Hrest]; subst.
        cbn [Agent.scan_parts].
        destruct (Agent.part_function_call q) as [fq|] eqn:Hfq.
        -- destruct (str_truthy (Agent.fc_name fq)) eqn:Hn.
           { exfalso. apply (Hq fq). split; [exact Hfq | now apply str_truthy_spec]. }
           destruct (Agent.part_text q);
             eapply (proj2 (IH _)); eauto; split; assumption.
        -- destruct (Agent.part_text q);
             eapply (proj2 (IH _)); eauto; split; assumption.
Qed.

Lemma final_text_ok (text : string) :
  Agent.final_text text <> ""
  /\ contains "cannot fulfill this request" (lower (Agent.final_text text)) = false.
Proof.
  unfold Agent.final_text.
  destruct (str_truthy text) eqn:Ht; cbn [negb orb].
  - destruct (contains _ (lower text)) eqn:Hc.
    + split; [discriminate | vm_compute; reflexivity].
    + split; [now apply str_truthy_spec | exact Hc].
  - split; [discriminate | vm_compute; reflexivity].
Qed.

(** The outcomes of the body of a turn that hold a log. *)
Lemma process_turn_log (self : Agent.AgentState) (user_message : string) (w : Outside) :
  let out := Agent.process_turn tool_map send_message json_dumps user_message w
               (Agent.mkTurnState [] self) in
  Agent.tool_execution_logs out.2 = []
  /\ Agent.data_manager (Agent.agent out.2) = Agent.data_manager self
  \/ exists response h1 text fc tool_call,
       send_message (Agent.history self) user_message = Return (response, h1)
       /\ Agent.scan_response response = (text, Some fc)
       /\ Agent.tc_name tool_call = Agent.fc_name fc
       /\ Agent.tool_execution_logs out.2
          = [Agent.mkLogEntry tool_call
               (Agent._execute_tool tool_map tool_call (Agent.data_manager self) w).1]
       /\ Agent.data_manager (Agent.agent out.2)
          = (Agent._execute_tool tool_map tool_call (Agent.data_manager self) w).2.
Proof.
  cbv zeta. unfold Agent.process_turn. cbn [Agent.agent Agent.tool_execution_logs].
  destruct (send_message (Agent.history self) user_message)
    as [[response h1]|e0] eqn:Hsend; [|left; split; reflexivity].
  destruct (Agent.scan_response response) as [text [fc|]] eqn:Hscan;
    [|left; split; reflexivity].
  right. exists response, h1, text, fc.
  exists (Agent.mkToolCall (Agent.fc_name fc)
            match Agent.fc_args fc with Return a => a | Raise _ => ∅ end).
  split; [reflexivity|]. split; [exact Hscan|]. split; [reflexivity|].
  destruct (Agent._execute_tool _ _ _ _) as [tool_result dm'].
  destruct (Agent.serialize json_dumps tool_result) as [serialized|e1];
    [|split; reflexivity].
  destruct (send_message _ "OK.") as [[follow h3]|e2]; split; reflexivity.
Qed.

End Turn.

(** X21. A turn runs at most one tool: the log [process_message] returns
    has at most one entry; an entry names the first function call with a
    name of the model's response, and holds the result [_execute_tool]
    returned for it, whose effect on the tools' state is the only change of
    that state in the turn. *)
Theorem process_message_logs_one_tool
    (tool_map : gmap string Tools.Tool)
    (send_message : list Agent.Turn -> string -> Exc (Agent.Response * list Agent.Turn))
    (json_dumps : Tools.ToolResult -> Exc string)
    (self : Agent.AgentState) (user_message : string) (w : Outside) :
  let out := Agent.process_message tool_map send_message json_dumps self
               user_message w in
  (length out.1.2 <= 1)%nat
  /\ (forall entry, out.1.2 = [entry] ->
        exists response h1 text fc,
          send_message (Agent.history self) user_message = Return (response, h1)
          /\ Agent.scan_response response = (text, Some fc)
          /\ Agent.tc_name (Agent.log_tool_call entry) = Agent.fc_name fc
          /\ Agent._execute_tool tool_map (Agent.log_tool_call entry)
               (Agent.data_manager self) w
             = (Agent.log_result entry, Agent.data_manager out.2)).
Proof.
  cbv zeta. unfold Agent.process_message.
  pose proof (process_turn_log tool_map send_message json_dumps self user_message w)
    as Hlog. cbv zeta in Hlog.
  destruct (Agent.process_turn _ _ _ _ _ _) as [[reply|e] st]; cbn [fst snd] in *.
  - destruct Hlog as [[Hl Hdm] | (response & h1 & text & fc & tc & Hs & Hscan & Hn & Hl & Hdm)];
      rewrite Hl; cbn [length].
    + split; [lia | discriminate].
    + split; [lia|]. intros entry [= <-]. exists response, h1, text, fc.
      cbn [Agent.log_tool_call Agent.log_result]. rewrite Hdm.
      repeat split; try assumption.
      destruct (Agent._execute_tool _ _ _ _); reflexivity.
  - cbn [length]. split; [lia | discriminate].
Qed.

(** X22. The text [process_message] returns is never empty and never holds
    the phrase "cannot fulfill this request", in whatever case: an empty
    text and a text with the phrase are replaced by the request to
    rephrase, a failure by the technical-difficulties message. *)
Theorem process_message_reply_cleaned
    (tool_map : gmap string Tools.Tool)
    (send_message : list Agent.Turn -> string -> Exc (Agent.Response * list Agent.Turn))
    (json_dumps : Tools.ToolResult -> Exc string)
    (self : Agent.AgentState) (user_message : string) (w : Outside) :
  let reply := (Agent.process_message tool_map send_message json_dumps self
                  user_message w).1.1 in
  reply <> ""
  /\ contains "cannot fulfill this request" (lower reply) = false.
Proof.
  cbv zeta. unfold Agent.process_message.
  assert (Hret : forall reply st,
            Agent.process_turn tool_map send_message json_dumps user_message w
              (Agent.mkTurnState [] self) = (Return reply, st) ->
            exists text, reply = Agent.final_text text).
  { unfold Agent.process_turn. intros reply st.
    destruct (send_message _ user_message) as [[response h1]|e0]; [|discriminate].
    destruct (Agent.scan_response response) as [text [fc|]].
    - destruct (Agent._execute_tool _ _ _ _) as [tool_result dm'].
      destruct (Agent.serialize json_dumps tool_result) as [serialized|e1];
        [|discriminate].
      destruct (send_message _ "OK.") as [[follow h3]|e2]; [|discriminate].
      intros [= <- _]. eauto.
    - intros [= <- _]. eauto. }
  destruct (Agent.process_turn _ _ _ _ _ _) as [[reply|e] st] eqn:E; cbn [fst].
  - destruct (Hret _ _ eq_refl) as [text ->]. apply final_text_ok.
  - split; [discriminate | vm_compute; reflexivity].
Qed.

Section TurnMore.

Variable tool_map : gmap string Tools.Tool.
Variable send_message : list Agent.Turn -> string -> Exc (Agent.Response * list Agent.Turn).
Variable json_dumps : Tools.ToolResult -> Exc string.

Lemma process_message_state (self : Agent.AgentState) (user_message : string)
    (w : Outside) :
  let out := Agent.process_message tool_map send_message json_dumps self
               user_message w in
  (length out.1.2 <= 1)%nat
  /\ out.1.1 <> ""
  /\ (Agent.data_manager out.2 = Agent.data_manager self
      \/ exists tool_call,
           Agent.data_manager out.2
           = (Agent._execute_tool tool_map tool_call (Agent.data_manager self) w).2).
Proof.
  cbv zeta.
  pose proof (process_turn_log tool_map send_message json_dumps self user_message w)
    as Hlog. cbv zeta in Hlog.
  unfold Agent.process_message.
  assert (Hret : forall reply st,
            Agent.process_turn tool_map send_message json_dumps user_message w
              (Agent.mkTurnState [] self) = (Return reply, st) ->
            reply <> "").
  { unfold Agent.process_turn. intros reply st.
    destruct (send_message _ user_message) as [[response h1]|e0]; [|discriminate].
    destruct (Agent.scan_response response) as [text [fc|]].
    - destruct (Agent._execute_tool _ _ _ _) as [tool_result dm'].
      destruct (Agent.serialize json_dumps tool_result) as [serialized|e1];
        [|discriminate].
      destruct (send_message _ "OK.") as [[follow h3]|e2]; [|discriminate].
      intros [= <- _]. apply final_text_ok.
    - intros [= <- _]. apply final_text_ok. }
  destruct (Agent.process_turn _ _ _ _ _ _) as [[reply|e] st] eqn:E;
    cbn [fst snd] in *.
  - split; [|split; [eapply Hret; reflexivity|]].
    + destruct Hlog as [[-> _]|(? & ? & ? & ? & ? & _ & _ & _ & -> & _)]; cbn; lia.
    + destruct Hlog as [[_ ->]|(? & ? & ? & ? & tc & _ & _ & _ & _ & ->)]; eauto.
  - split; [cbn; lia|]. split; [discriminate|].
    destruct Hlog as [[_ ->]|(? & ? & ? & ? & tc & _ & _ & _ & _ & ->)]; eauto.
Qed.

End TurnMore.

(** X23. What the model's response asks for: when no part of the first
    candidate holds a function call with a name, no tool runs, and the turn
    returns the texts of the parts joined in order (after the final check),
    an empty log and the tools' state untouched; when a part does, the first
    such call is the one executed and logged, whatever text or further calls
    the response holds besides. *)
Theorem response_decides_the_turn
    (tool_map : gmap string Tools.Tool)
    (send_message : list Agent.Turn -> string -> Exc (Agent.Response * list Agent.Turn))
    (json_dumps : Tools.ToolResult -> Exc string)
    (self : Agent.AgentState) (user_message : string) (w : Outside)
    (ps : list Agent.Part) (others : list Agent.Candidate) (h1 : list Agent.Turn) :
  send_message (Agent.history self) user_message
  = Return (Agent.mkResponse (Agent.mkCandidate (Some ps) :: others), h1) ->
  (Forall (fun p => forall fc, ~ named_call p fc) ps ->
   Agent.process_message tool_map send_message json_dumps self user_message w
   = ((Agent.final_text (concat_texts ps), []),
      Agent.mkAgentState h1 (Agent.data_manager self)))
  /\ (forall before p after fc,
        ps = before ++ p :: after ->
        Forall (fun p => forall fc, ~ named_call p fc) before ->
        named_call p fc ->
        let tool_call :=
          Agent.mkToolCall (Agent.fc_name fc)
            match Agent.fc_args fc with Return a => a | Raise _ => ∅ end in
        Agent.tool_execution_logs
          (Agent.process_turn tool_map send_message json_dumps user_message w
             (Agent.mkTurnState [] self)).2
        = [Agent.mkLogEntry tool_call
             (Agent._execute_tool tool_map tool_call (Agent.data_manager self) w).1]).
Proof.
  intros Hsend. split.
  - intros Hnone. unfold Agent.process_message, Agent.process_turn.
    cbn [Agent.agent Agent.tool_execution_logs]. rewrite Hsend.
    unfold Agent.scan_response. cbn [Agent.candidates Agent.content_parts].
    rewrite (proj1 (scan_parts_spec ps "") Hnone). reflexivity.
  - intros before p after fc Hps Hbefore Hcall tool_call.
    unfold Agent.process_turn. cbn [Agent.agent Agent.tool_execution_logs].
    rewrite Hsend. unfold Agent.scan_response.
    cbn [Agent.candidates Agent.content_parts].
    rewrite (proj2 (scan_parts_spec ps "") before p after fc Hps Hbefore Hcall).
    fold tool_call.
    destruct (Agent._execute_tool tool_map tool_call _ w) as [tool_result dm'].
    destruct (Agent.serialize json_dumps tool_result) as [serialized|e1];
      [|reflexivity].
    destruct (send_message _ "OK.") as [[follow h3]|e2]; reflexivity.
Qed.

Lemma response_decides_the_turn_witness :
  Agent.process_message Tools.TOOL_MAP
    (fun h content =>
       Return (Agent.mkResponse
                 [Agent.mkCandidate
                    (Some [Agent.mkPart None (Some "Thai sounds delicious! ");
                           Agent.mkPart (Some (Agent.mkFunctionCall "" (Return ∅)))
                             (Some "Which neighborhood?")])],
               h ++ [Agent.mkTurn "user" [content]]))
    Sample.dumps_stub Sample.agent0 "I want Thai food." (Sample.outside 0.5%float 1)
  = (("Thai sounds delicious! Which neighborhood?", []),
     Agent.mkAgentState [Agent.mkTurn "user" ["I want Thai food."]] Sample.dm).
Proof.
  refine (proj1 (response_decides_the_turn Tools.TOOL_MAP _ Sample.dumps_stub
                   Sample.agent0 "I want Thai food." (Sample.outside 0.5%float 1)
                   _ [] _ eq_refl) _).
  repeat constructor; intros fc [Hc Hn]; cbn in Hc; try discriminate.
  injection Hc as <-. now apply Hn.
Defined.

(** X24. What a tool did is not undone when the turn fails afterwards: if
    the result cannot be serialized, or the follow-up call of the model
    raises, [process_message] answers with the technical-difficulties
    message and an empty log, and yet leaves the tools' state as the tool
    left it; a reservation booked in that turn stays booked. *)
Theorem tool_effects_survive_failed_turn
    (tool_map : gmap string Tools.Tool)
    (send_message : list Agent.Turn -> string -> Exc (Agent.Response * list Agent.Turn))
    (json_dumps : Tools.ToolResult -> Exc string)
    (self : Agent.AgentState) (user_message : string) (w : Outside)
    (response : Agent.Response) (h1 : list Agent.Turn) (text : string)
    (fc : Agent.FunctionCall) (e : PyExn) :
  send_message (Agent.history self) user_message = Return (response, h1) ->
  Agent.scan_response response = (text, Some fc) ->
  let tool_call :=
    Agent.mkToolCall (Agent.fc_name fc)
      match Agent.fc_args fc with Return a => a | Raise _ => ∅ end in
  let done := Agent._execute_tool tool_map tool_call (Agent.data_manager self) w in
  Agent.serialize json_dumps done.1 = Raise e
  \/ (exists serialized,
        Agent.serialize json_dumps done.1 = Return serialized
        /\ send_message
             (h1 ++ [Agent.mkTurn "user"
                       ["Tool '" +:+ Agent.fc_name fc +:+ "' executed. Result: "
                        +:+ serialized]]) "OK." = Raise e) ->
  let out := Agent.process_message tool_map send_message json_dumps self
               user_message w in
  out.1 = (Agent.technical_difficulties, [])
  /\ Agent.data_manager out.2 = done.2.
Proof.
  intros Hsend Hscan tool_call done Hfail. cbv zeta.
  unfold Agent.process_message, Agent.process_turn.
  cbn [Agent.agent Agent.tool_execution_logs]. rewrite Hsend, Hscan.
  fold tool_call. fold done. destruct done as [tool_result dm'].
  cbn [fst snd] in *.
  destruct Hfail as [Hser | (serialized & Hser & Hfollow)]; rewrite Hser.
  - split; reflexivity.
  - rewrite Hfollow. split; reflexivity.
Qed.

Lemma tool_effects_survive_failed_turn_witness :
  (Agent.process_message Tools.TOOL_MAP send_book_then_drop Sample.dumps_stub
     Sample.agent0 "Ann, 555-0100" (Sample.outside 0.5%float 12345)).1
  = (Agent.technical_difficulties, [])
  /\ get_reservation
       (Agent.data_manager
          (Agent.process_message Tools.TOOL_MAP send_book_then_drop
             Sample.dumps_stub Sample.agent0 "Ann, 555-0100"
             (Sample.outside 0.5%float 12345)).2) "RS-12345"
     = Some (mkReservation "RS-12345" "pasta" "2026-11-03" "19:30" 4 (PStr "Ann")
               (PStr "555-0100") "2026-11-03T10:00:00").
Proof.
  destruct (tool_effects_survive_failed_turn Tools.TOOL_MAP send_book_then_drop
              Sample.dumps_stub Sample.agent0 "Ann, 555-0100"
              (Sample.outside 0.5%float 12345) _ _ ""
              (Agent.mkFunctionCall "make_reservation" (Return args_book))
              Sample.connection_reset eq_refl eq_refl) as [Hreply Hstate].
  - right. exists "{}". split; vm_compute; reflexivity.
  - split; [exact Hreply|]. rewrite Hstate. vm_compute. reflexivity.
Defined.

(** ** The chat page *)

Section Chat.

Variable send_message : list Agent.Turn -> string -> Exc (Agent.Response * list Agent.Turn).
Variable json_dumps : Tools.ToolResult -> Exc string.
Variable system_prompt : string.

Lemma transcript_app (ms : list App.Message) (turns turns' : list (string * string)) :
  transcript ms (turns ++ turns') = transcript (transcript ms turns) turns'.
Proof.
  revert ms. induction turns as [|[i r] turns IH]; intros ms; [reflexivity|].
  cbn [transcript app]. apply IH.
Qed.

(** One input adds the input and a non-empty reply to the messages, at most
    one entry to the log, and moves the tools' state by at most one tool. *)
Lemma on_input_step (tool_map : gmap string Tools.Tool)
    (ss : App.Session) (agent : Agent.AgentState)
    (user_input : string) (w : Outside) :
  let out := App.on_input tool_map send_message json_dumps (Some ss) agent
               user_input w in
  (exists reply,
     reply <> ""
     /\ App.messages out.1 = transcript (App.messages ss) [(user_input, reply)])
  /\ (exists logs, (length logs <= 1)%nat
                   /\ App.tool_logs out.1 = App.tool_logs ss ++ logs)
  /\ (Agent.data_manager out.2 = Agent.data_manager agent
      \/ exists tool_call,
           Agent.data_manager out.2
           = (Agent._execute_tool tool_map tool_call (Agent.data_manager agent) w).2).
Proof.
  cbv zeta. unfold App.on_input, App.process_user_input. cbn [App.initialize].
  pose proof (process_message_state tool_map send_message json_dumps agent
                user_input w) as H. cbv zeta in H.
  destruct (Agent.process_message _ _ _ _ _ _) as [[reply logs] agent'].
  cbn [fst snd] in *. destruct H as (Hlen & Hreply & Hdm).
  split; [|split; [|exact Hdm]].
  - exists reply. split; [exact Hreply|]. cbn. now rewrite <- app_assoc.
  - exists logs. split; [exact Hlen|].
    destruct logs; [now rewrite app_nil_r | reflexivity].
Qed.

Lemma session_snoc (tool_map : gmap string Tools.Tool) (agent : Agent.AgentState)
    (actions : list Action) (a : Action) :
  session tool_map send_message json_dumps system_prompt agent (actions ++ [a])
  = act tool_map send_message json_dumps system_prompt
      (session tool_map send_message json_dumps system_prompt agent actions) a.
Proof. unfold session. rewrite fold_left_app. reflexivity. Qed.

End Chat.

(** X25. The chat keeps a faithful transcript: in a session in which the
    user only types messages, the message list is the welcome message
    followed, for each input in order, by the input as a user message and
    one assistant message with a reply that is never empty; the tool log
    holds at most one entry per input. *)
Theorem chat_transcript
    (tool_map : gmap string Tools.Tool)
    (send_message : list Agent.Turn -> string -> Exc (Agent.Response * list Agent.Turn))
    (json_dumps : Tools.ToolResult -> Exc string) (system_prompt : string)
    (agent : Agent.AgentState) (inputs : list (string * Outside)) :
  let final := session tool_map send_message json_dumps system_prompt agent
                 (map (fun i => Input i.1 i.2) inputs) in
  (exists replies,
     length replies = length inputs
     /\ Forall (fun r => r <> "") replies
     /\ App.messages final.1
        = transcript [App.welcome_message] (zip (map fst inputs) replies))
  /\ (length (App.tool_logs final.1) <= length inputs)%nat.
Proof.
  cbv zeta. induction inputs as [|[i w] inputs IH] using rev_ind.
  - split; [exists []; repeat split; constructor | cbn; lia].
  - rewrite map_app. cbn [map fst snd]. rewrite session_snoc.
    destruct IH as [(replies & Hlen & Hne & Hms) Hlogs].
    set (st := session tool_map send_message json_dumps system_prompt agent
                 (map (fun i => Input i.1 i.2) inputs)) in *.
    cbn [act].
    destruct (on_input_step send_message json_dumps tool_map st.1 st.2 i w)
      as ((reply & Hreply & Hm) & (logs & Hl & Hlog) & _).
    split.
    + exists (replies ++ [reply]). split; [rewrite !length_app; cbn; lia|].
      split; [apply Forall_app; split; [exact Hne | now constructor]|].
      rewrite Hm, Hms, map_app. cbn [map fst].
      rewrite zip_with_app by (rewrite length_map; lia).
      rewrite transcript_app. reflexivity.
    + rewrite Hlog, !length_app. cbn [length]. lia.
Qed.

Section SessionState.

Variable send_message : list Agent.Turn -> string -> Exc (Agent.Response * list Agent.Turn).
Variable json_dumps : Tools.ToolResult -> Exc string.
Variable system_prompt : string.

Lemma execute_tool_keeps (tool_call : Agent.ToolCall) (dm : State) (w : Outside) :
  restaurants (Agent._execute_tool Tools.TOOL_MAP tool_call dm w).2 = restaurants dm
  /\ forall code,
       is_Some (get_reservation dm code) ->
       is_Some (get_reservation
                  (Agent._execute_tool Tools.TOOL_MAP tool_call dm w).2 code).
Proof.
  destruct (execute_tool_state tool_call dm w)
    as [Hs | (_ & q & d & t & n & un & up & Hs)]; rewrite Hs; [auto|].
  rewrite settle_state. cbn [snd].
  split; [apply make_reservation_changes|].
  intros code. apply make_reservation_keeps.
Qed.

Lemma act_keeps (st : App.Session * Agent.AgentState) (a : Action) :
  let st' := act Tools.TOOL_MAP send_message json_dumps system_prompt st a in
  restaurants (Agent.data_manager st'.2) = restaurants (Agent.data_manager st.2)
  /\ forall code,
       is_Some (get_reservation (Agent.data_manager st.2) code) ->
       is_Some (get_reservation (Agent.data_manager st'.2) code).
Proof.
  cbv zeta. destruct a as [i w|]; cbn [act].
  - destruct (on_input_step send_message json_dumps Tools.TOOL_MAP st.1 st.2 i w)
      as (_ & _ & [-> | [tc ->]]); [auto|]. apply execute_tool_keeps.
  - cbn. auto.
Qed.

End SessionState.

(** X26. Nothing a user does in the chat empties a confirmation code or
    alters the catalog: after any sequence of messages and presses of "Clear
    Chat History", with the tools of the registry, every code that had a
    reservation still has one and the restaurants are the same. *)
Theorem session_keeps_reservations
    (send_message : list Agent.Turn -> string -> Exc (Agent.Response * list Agent.Turn))
    (json_dumps : Tools.ToolResult -> Exc string) (system_prompt : string)
    (agent : Agent.AgentState) (actions : list Action) (code : string) :
  let final := session Tools.TOOL_MAP send_message json_dumps system_prompt
                 agent actions in
  restaurants (Agent.data_manager final.2) = restaurants (Agent.data_manager agent)
  /\ (is_Some (get_reservation (Agent.data_manager agent) code) ->
      is_Some (get_reservation (Agent.data_manager final.2) code)).
Proof.
  cbv zeta. induction actions as [|a actions IH] using rev_ind.
  - split; [reflexivity | auto].
  - rewrite session_snoc.
    destruct (act_keeps send_message json_dumps system_prompt
                (session Tools.TOOL_MAP send_message json_dumps system_prompt
                   agent actions) a) as [Hr Hk].
    destruct IH as [IHr IHk]. split; [now rewrite Hr | auto].
Qed.

(** X27. "Clear Chat History" forgets the conversation and nothing else: it
    leaves an empty message list, without the welcome message of a new
    session, an empty tool log, a chat history that holds the system prompt
    alone, and the tools' state as it was.  Hence two sessions with
    different pasts and the same tools' state go on alike after a clear,
    whatever is done next. *)
Theorem clear_chat_history_forgets
    (tool_map : gmap string Tools.Tool)
    (send_message : list Agent.Turn -> string -> Exc (Agent.Response * list Agent.Turn))
    (json_dumps : Tools.ToolResult -> Exc string) (system_prompt : string)
    (agent1 agent2 : Agent.AgentState) (past1 past2 next : list Action) :
  let run := session tool_map send_message json_dumps system_prompt in
  run agent1 (past1 ++ [Clear])
  = (App.mkSession [] [],
     Agent.mkAgentState [Agent.mkTurn "user" [system_prompt]]
       (Agent.data_manager (run agent1 past1).2))
  /\ (Agent.data_manager (run agent1 past1).2
      = Agent.data_manager (run agent2 past2).2 ->
      run agent1 (past1 ++ Clear :: next) = run agent2 (past2 ++ Clear :: next)).
Proof.
  cbv zeta.
  assert (Hclear : forall agent past,
            session tool_map send_message json_dumps system_prompt agent
              (past ++ [Clear])
            = (App.mkSession [] [],
               Agent.mkAgentState [Agent.mkTurn "user" [system_prompt]]
                 (Agent.data_manager
                    (session tool_map send_message json_dumps system_prompt
                       agent past).2))).
  { intros agent past. rewrite session_snoc. reflexivity. }
  split; [apply Hclear|]. intros Hdm.
  assert (Happ : forall agent l l',
            session tool_map send_message json_dumps system_prompt agent (l ++ l')
            = fold_left (act tool_map send_message json_dumps system_prompt) l'
                (session tool_map send_message json_dumps system_prompt agent l)).
  { intros agent l l'. unfold session. apply fold_left_app. }
  change (Clear :: next) with ([Clear] ++ next).
  rewrite !app_assoc, (Happ agent1 (past1 ++ [Clear]) next),
    (Happ agent2 (past2 ++ [Clear]) next), !Hclear, Hdm. reflexivity.
Qed.

Lemma clear_chat_history_forgets_witness :
  session Tools.TOOL_MAP send_book_then_drop Sample.dumps_stub "You are FoodieSpot."
    Sample.agent0 ([Input "Ann, 555-0100" (Sample.outside 0.5%float 12345)]
                   ++ Clear :: [Input "hello" (Sample.outside 0.5%float 1)])
  = session Tools.TOOL_MAP send_book_then_drop Sample.dumps_stub "You are FoodieSpot."
      (Agent.mkAgentState [Agent.mkTurn "user" ["earlier"]]
         (Agent.process_message Tools.TOOL_MAP send_book_then_drop Sample.dumps_stub
            Sample.agent0 "Ann, 555-0100"
            (Sample.outside 0.5%float 12345)).2.(Agent.data_manager))
      ([] ++ Clear :: [Input "hello" (Sample.outside 0.5%float 1)]).
Proof.
  refine (proj2 (clear_chat_history_forgets Tools.TOOL_MAP send_book_then_drop
                   Sample.dumps_stub "You are FoodieSpot." Sample.agent0 _
                   [Input "Ann, 555-0100" (Sample.outside 0.5%float 12345)] []
                   [Input "hello" (Sample.outside 0.5%float 1)]) _).
  vm_compute. reflexivity.
Defined.
